(** * foia-rti-automation: deadline, tracking, alerting and response analysis

    A shallow embedding of the deadline calculator
    ([foia_rti/tracker/deadlines.py]), the request tracker
    ([foia_rti/tracker/tracker.py]), the alert engine
    ([foia_rti/tracker/alerts.py]), the texts the appeal generator chooses
    ([foia_rti/tracker/appeals.py]), the exemption extraction and the
    determination and fee-waiver detection of the response parser
    ([foia_rti/analysis/response_parser.py]) and the redaction detector
    ([foia_rti/analysis/redaction_detector.py]), followed by the properties
    proved about them.

    Conventions of the embedding.
    - A Python [int] is a [Z].
    - A Python [str] is a [string]; the i-th character of the Rocq string is
      the code point of the i-th character of the Python string, so the
      strings covered are those whose code points are below 256.
    - A [datetime.date] is its proleptic Gregorian ordinal
      ([date.toordinal()]); arithmetic that leaves [date.min .. date.max]
      raises [OverflowError], as in Python.
    - A Python [float] is a rational ([Q]). The page ratio of the redaction
      detector is computed as Python computes it: the quotient of two ints
      is the double nearest to it, and the literals it is compared with are
      the doubles they denote. The risk score is taken exactly: its weights
      [0.1], [0.2], [0.4], the bound [0.3] and [+], [min] denote their
      decimal values, the binary rounding of these sums is not part of the
      model.
    - [None] is [None]; a function that may raise returns a [result].
    - A [while] loop is a function with fuel: each unit of fuel pays for one
      iteration and [None] means that the fuel ran out.
    - The current day ([date.today()]) is an explicit argument [today], and
      the time stamp of a note ([datetime.utcnow()], formatted) an explicit
      argument [timestamp].
    - A nullable column is an [option]; the table [foia_requests] is the list
      of its rows. The database is SQLite (the default [db_url]): an integer
      outside the range of its INTEGER type cannot be bound to a statement.
      [record_response] has this [OverflowError] written out; the IDs and
      integer values given to the other operations are taken to be in the
      range. *)

From Stdlib Require Import ZArith List Bool Ascii String Lia.
From Stdlib Require Import QArith Qminmax.
From Stdlib Require Import Sorted Permutation.
Import ListNotations.

Local Open Scope string_scope.
Local Open Scope Z_scope.

(* ------------------------------------------------------------------ *)
(** * Python values used by the program *)
(* ------------------------------------------------------------------ *)

Module Py.

(** Exceptions raised by the modelled code. [DatabaseError] stands for any
    error SQLAlchemy raises when a flush violates a constraint. *)
Inductive exn : Type :=
| ValueError (msg : string)
| OverflowError
| TypeError
| ZeroDivisionError
| DatabaseError.

Definition result (A : Type) : Type := (A + exn)%type.
Definition Ok {A : Type} (a : A) : result A := inl a.
Definition Raise {A : Type} (e : exn) : result A := inr e.

Definition bind {A B : Type} (m : result A) (k : A -> result B) : result B :=
  match m with
  | inl a => k a
  | inr e => inr e
  end.

(** ** Strings *)

(** [s.startswith(p)] *)
Definition startswith (s p : string) : bool := String.prefix p s.

(** [needle in s] for strings. *)
Fixpoint str_in (needle s : string) : bool :=
  String.prefix needle s ||
  match s with
  | EmptyString => false
  | String _ s' => str_in needle s'
  end.

(** [sep.join(l)] *)
Definition join (sep : string) (l : list string) : string := String.concat sep l.

Definition is_ascii_upper (c : ascii) : bool :=
  let n := nat_of_ascii c in (65 <=? n)%nat && (n <=? 90)%nat.

(** [str.lower()] on one character with code point below 256: the ASCII
    capitals and the Latin-1 capitals U+00C0..U+00DE except U+00D7. *)
Definition lower_char (c : ascii) : ascii :=
  let n := nat_of_ascii c in
  if is_ascii_upper c then ascii_of_nat (n + 32)
  else if (192 <=? n)%nat && (n <=? 222)%nat && negb (n =? 215)%nat
       then ascii_of_nat (n + 32)
       else c.

Fixpoint lower (s : string) : string :=
  match s with
  | EmptyString => EmptyString
  | String c s' => String (lower_char c) (lower s')
  end.

(** Decimal digits of a non-negative number, most significant first. *)
Fixpoint digits_fuel (fuel : nat) (n : Z) (acc : string) : string :=
  match fuel with
  | O => acc
  | S fuel' =>
      let acc' := String (ascii_of_nat (48 + Z.to_nat (n mod 10))%nat) acc in
      if n <? 10 then acc' else digits_fuel fuel' (n / 10) acc'
  end.

(** [str(n)] for an [int]. *)
Definition str_of_int (n : Z) : string :=
  let a := Z.abs n in
  let ds := digits_fuel (S (Z.to_nat (Z.log2 a))) a "" in
  if n <? 0 then "-" ++ ds else ds.

Fixpoint zeros (k : nat) : string :=
  match k with
  | O => ""
  | S k' => String "0" (zeros k')
  end.

(** ["%0wd" % n] for a non-negative [n]. *)
Definition zfill (w : nat) (n : Z) : string :=
  let s := str_of_int n in
  (zeros (w - String.length s)%nat ++ s)%string.

(** ** [datetime.date] *)

Record date : Type := mkdate { toordinal : Z }.

Definition MINORDINAL : Z := 1.
Definition MAXORDINAL : Z := 3652059.   (* date(9999, 12, 31).toordinal() *)

Definition date_ok (d : date) : Prop :=
  MINORDINAL <= toordinal d <= MAXORDINAL.

Definition _DI400Y : Z := 146097.
Definition _DI100Y : Z := 36524.
Definition _DI4Y : Z := 1461.

Definition _DAYS_IN_MONTH (m : Z) : Z :=
  nth (Z.to_nat m) [-1; 31; 28; 31; 30; 31; 30; 31; 31; 30; 31; 30; 31] 0.

Definition _DAYS_BEFORE_MONTH (m : Z) : Z :=
  nth (Z.to_nat m) [-1; 0; 31; 59; 90; 120; 151; 181; 212; 243; 273; 304; 334] 0.

Definition _is_leap (year : Z) : bool :=
  (year mod 4 =? 0) && (negb (year mod 100 =? 0) || (year mod 400 =? 0)).

Definition _days_before_year (year : Z) : Z :=
  let y := year - 1 in
  y * 365 + y / 4 - y / 100 + y / 400.

Definition _days_before_month (year month : Z) : Z :=
  _DAYS_BEFORE_MONTH month + (if (2 <? month) && _is_leap year then 1 else 0).

Definition _days_in_month (year month : Z) : Z :=
  if (month =? 2) && _is_leap year then 29 else _DAYS_IN_MONTH month.

Definition _ymd2ord (year month day : Z) : Z :=
  _days_before_year year + _days_before_month year month + day.

(** [divmod(a, b)] *)
Definition divmod (a b : Z) : Z * Z := Z.div_eucl a b.

(** [_ord2ymd] of the datetime module: ordinal to (year, month, day). *)
Definition _ord2ymd (n0 : Z) : Z * Z * Z :=
  let n := n0 - 1 in
  let '(n400, n) := divmod n _DI400Y in
  let year := n400 * 400 + 1 in
  let '(n100, n) := divmod n _DI100Y in
  let '(n4, n) := divmod n _DI4Y in
  let '(n1, n) := divmod n 365 in
  let year := year + (n100 * 100 + n4 * 4 + n1) in
  if (n1 =? 4) || (n100 =? 4) then (year - 1, 12, 31)
  else
    let leapyear := (n1 =? 3) && (negb (n4 =? 24) || (n100 =? 3)) in
    let month := Z.shiftr (n + 50) 5 in
    let preceding :=
      _DAYS_BEFORE_MONTH month + (if (2 <? month) && leapyear then 1 else 0) in
    if n <? preceding then
      let month := month - 1 in
      let preceding :=
        preceding
        - (_DAYS_IN_MONTH month + (if (month =? 2) && leapyear then 1 else 0)) in
      (year, month, n - preceding + 1)
    else (year, month, n - preceding + 1).

Definition year (d : date) : Z := fst (fst (_ord2ymd (toordinal d))).
Definition month (d : date) : Z := snd (fst (_ord2ymd (toordinal d))).
Definition day (d : date) : Z := snd (_ord2ymd (toordinal d)).

(** [date.weekday()]: Monday is 0, Sunday is 6. *)
Definition weekday (d : date) : Z := (toordinal d + 6) mod 7.

(** [date(year, month, day)]; an invalid triple raises [ValueError]. *)
Definition date_of_ymd (y m d : Z) : result date :=
  if (1 <=? y) && (y <=? 9999) && (1 <=? m) && (m <=? 12)
     && (1 <=? d) && (d <=? _days_in_month y m)
  then Ok (mkdate (_ymd2ord y m d))
  else Raise (ValueError "date value out of range").

(** [d + timedelta(days=k)] *)
Definition date_add_days (d : date) (k : Z) : result date :=
  let o := toordinal d + k in
  if (MINORDINAL <=? o) && (o <=? MAXORDINAL) then Ok (mkdate o)
  else Raise OverflowError.

(** [(a - b).days] *)
Definition date_sub_days (a b : date) : Z := toordinal a - toordinal b.

(** [a > b] on dates *)
Definition date_gtb (a b : date) : bool := toordinal b <? toordinal a.
Definition date_ltb (a b : date) : bool := toordinal a <? toordinal b.

(** [date.isoformat()] *)
Definition isoformat (d : date) : string :=
  zfill 4 (year d) ++ "-" ++ zfill 2 (month d) ++ "-" ++ zfill 2 (day d).

(** A [datetime.datetime] is kept as a totally ordered time stamp
    (microseconds since [datetime.min]); only its order is used. *)
Definition datetime : Type := Z.

(** ** [int] to [str] and [int / int] *)

(** [sys.get_int_max_str_digits()], by default *)
Definition INT_MAX_STR_DIGITS : Z := 4300.

(** [f"{n}"] for an [int]: CPython (3.11 and later) refuses to write an
    integer of more digits than its limit. *)
Definition format_int (n : Z) : result string :=
  if Z.abs n <? 10 ^ INT_MAX_STR_DIGITS then Ok (str_of_int n)
  else Raise (ValueError ("Exceeds the limit (4300 digits) for integer string conversion;"
                       ++ " use sys.set_int_max_str_digits() to increase the limit")).

(** The integer nearest to [n / d] for [0 < d], ties to even. *)
Definition div_half_even (n d : Z) : Z :=
  let q := n / d in
  let twice := 2 * (n mod d) in
  if twice <? d then q
  else if d <? twice then q + 1
  else if Z.even q then q else q + 1.

(** The [e] with [2^e <= n / d < 2^(e + 1)], for positive [n] and [d]. *)
Definition quotient_exponent (n d : Z) : Z :=
  let e := Z.log2 n - Z.log2 d in
  if (if 0 <=? e then d * 2 ^ e <=? n else d <=? n * 2 ^ (- e)) then e else e - 1.

(** The double nearest to [n / d] for positive [n] and [d] (IEEE 754
    binary64, round to nearest, ties to even): 53 significant bits, the
    exponent not below -1022; [OverflowError] from 2^1024 on. *)
Definition round_to_double (n d : Z) : result Q :=
  let e := Z.max (quotient_exponent n d) (-1022) in
  let k := e - 52 in
  let m := if 0 <=? k then div_half_even n (d * 2 ^ k)
           else div_half_even (n * 2 ^ (- k)) d in
  if 1024 <=? Z.log2 m + k then Raise OverflowError
  else if 0 <=? k then Ok (inject_Z (m * 2 ^ k))
  else Ok (Qmake m (Z.to_pos (2 ^ (- k)))).

(** [a / b] on two ints: the quotient, correctly rounded. *)
Definition int_truediv (a b : Z) : result Q :=
  if b =? 0 then Raise ZeroDivisionError
  else if a =? 0 then Ok 0%Q
  else
    bind (round_to_double (Z.abs a) (Z.abs b))
         (fun x => Ok (if Z.sgn a * Z.sgn b <? 0 then (- x)%Q else x)).

(** The double a decimal literal denotes: [double 8 10] is [0.8]. *)
Definition double (n d : Z) : Q :=
  match int_truediv n d with inl x => x | inr _ => 0%Q end.

End Py.

Import Py.

(** A [dict] with string keys, in insertion order. *)
Module Dict.

Definition dict (V : Type) : Type := list (string * V).

Fixpoint get {V : Type} (d : dict V) (k : string) : option V :=
  match d with
  | [] => None
  | (k', v) :: d' => if (k' =? k)%string then Some v else get d' k
  end.

(** [k in d] *)
Definition mem {V : Type} (d : dict V) (k : string) : bool :=
  match get d k with Some _ => true | None => false end.

(** [d[k] = v]: an existing key keeps its position. *)
Fixpoint set {V : Type} (d : dict V) (k : string) (v : V) : dict V :=
  match d with
  | [] => [(k, v)]
  | (k', v') :: d' =>
      if (k' =? k)%string then (k', v) :: d' else (k', v') :: set d' k v
  end.

(** [d.update(other)] *)
Definition update {V : Type} (d other : dict V) : dict V :=
  fold_left (fun acc kv => set acc (fst kv) (snd kv)) other d.

(** [d.keys()] *)
Definition keys {V : Type} (d : dict V) : list string := map fst d.

End Dict.

(* ------------------------------------------------------------------ *)
(** * tracker/deadlines.py *)
(* ------------------------------------------------------------------ *)

Module Deadlines.

Definition US_FEDERAL_HOLIDAYS_FIXED : list (Z * Z) :=
  [(1, 1); (6, 19); (7, 4); (11, 11); (12, 25)].

(** [(m, d) in table] *)
Definition pair_in (md : Z * Z) (table : list (Z * Z)) : bool :=
  existsb (fun x => (fst x =? fst md) && (snd x =? snd md)) table.

(** The body of [_is_us_federal_holiday], on [d.month], [d.day] and
    [d.weekday()]. *)
Definition us_federal_holiday_rule (month day weekday : Z) : bool :=
  if pair_in (month, day) US_FEDERAL_HOLIDAYS_FIXED then true
  (* MLK Day: 3rd Monday of January *)
  else if (month =? 1) && (weekday =? 0) && ((15 <=? day) && (day <=? 21)) then true
  (* Presidents' Day: 3rd Monday of February *)
  else if (month =? 2) && (weekday =? 0) && ((15 <=? day) && (day <=? 21)) then true
  (* Memorial Day: last Monday of May *)
  else if (month =? 5) && (weekday =? 0) && (25 <=? day) then true
  (* Labor Day: 1st Monday of September *)
  else if (month =? 9) && (weekday =? 0) && (day <=? 7) then true
  (* Columbus Day: 2nd Monday of October *)
  else if (month =? 10) && (weekday =? 0) && ((8 <=? day) && (day <=? 14)) then true
  (* Thanksgiving: 4th Thursday of November *)
  else if (month =? 11) && (weekday =? 3) && ((22 <=? day) && (day <=? 28)) then true
  else false.

(** Check if a date falls on a US federal holiday (simplified). *)
Definition _is_us_federal_holiday (d : date) : bool :=
  us_federal_holiday_rule (month d) (day d) (weekday d).

Definition UK_BANK_HOLIDAYS_FIXED : list (Z * Z) :=
  [(1, 1); (12, 25); (12, 26)].

(** The body of [_is_uk_bank_holiday]. *)
Definition uk_bank_holiday_rule (month day weekday : Z) : bool :=
  if pair_in (month, day) UK_BANK_HOLIDAYS_FIXED then true
  (* Early May bank holiday: 1st Monday of May *)
  else if (month =? 5) && (weekday =? 0) && (day <=? 7) then true
  (* Spring bank holiday: last Monday of May *)
  else if (month =? 5) && (weekday =? 0) && (25 <=? day) then true
  (* Summer bank holiday: last Monday of August *)
  else if (month =? 8) && (weekday =? 0) && (25 <=? day) then true
  else false.

Definition _is_uk_bank_holiday (d : date) : bool :=
  uk_bank_holiday_rule (month d) (day d) (weekday d).

Definition _is_weekend (d : date) : bool := 5 <=? weekday d.

(** [holiday_fn and holiday_fn(current)] *)
Definition holiday_test (holiday_fn : option (date -> bool)) (current : date) : bool :=
  match holiday_fn with
  | Some f => f current
  | None => false
  end.

(** The [while added < days] loop of [add_business_days]. Each unit of fuel
    pays for one iteration; [None] means the fuel ran out before the loop
    ended. *)
Fixpoint add_business_days_loop (fuel : nat) (current : date) (added days : Z)
    (holiday_fn : option (date -> bool)) : option (result date) :=
  if added <? days then
    match fuel with
    | O => None
    | S fuel' =>
        match date_add_days current 1 with
        | inr e => Some (inr e)
        | inl current' =>
            if _is_weekend current' then
              add_business_days_loop fuel' current' added days holiday_fn
            else if holiday_test holiday_fn current' then
              add_business_days_loop fuel' current' added days holiday_fn
            else
              add_business_days_loop fuel' current' (added + 1) days holiday_fn
        end
    end
  else Some (Ok current).

Definition add_business_days (fuel : nat) (start : date) (days : Z)
    (holiday_fn : option (date -> bool)) : option (result date) :=
  add_business_days_loop fuel start 0 days holiday_fn.

Definition add_calendar_days (start : date) (days : Z) : result date :=
  date_add_days start days.

(** One entry of [JURISDICTION_RULES]. The free-text ["notes"] entry is
    documentation only and is left out. *)
Record Rule : Type := mkRule {
  initial_days : Z;
  day_type : string;
  holiday_fn : option (date -> bool);
  extension_days : Z;
  extension_type : string
}.

Definition JURISDICTION_RULES : Dict.dict Rule :=
  [ ("US-Federal", mkRule 20 "business" (Some _is_us_federal_holiday) 10 "business");
    ("India",      mkRule 30 "calendar" None 0 "calendar");
    ("UK",         mkRule 20 "business" (Some _is_uk_bank_holiday) 0 "business");
    ("EU",         mkRule 15 "business" None 15 "business") ].

(** The generic rule [_get_rule] returns for an unregistered state. *)
Definition state_fallback_rule : Rule :=
  mkRule 10 "business" (Some _is_us_federal_holiday) 0 "business".

Record DeadlineCalculator : Type := mkCalc { rules : Dict.dict Rule }.

(** [DeadlineCalculator(custom_rules)] *)
Definition new_calculator (custom_rules : option (Dict.dict Rule)) : DeadlineCalculator :=
  match custom_rules with
  | Some (c :: cs) => mkCalc (Dict.update JURISDICTION_RULES (c :: cs))
  | _ => mkCalc JURISDICTION_RULES
  end.

Definition unknown_jurisdiction_message (self : DeadlineCalculator)
    (jurisdiction : string) : string :=
  ("No deadline rules for jurisdiction '" ++ jurisdiction ++ "'. "
   ++ "Known: " ++ join ", " (Dict.keys (rules self)))%string.

Definition _get_rule (self : DeadlineCalculator) (jurisdiction : string) : result Rule :=
  match Dict.get (rules self) jurisdiction with
  | Some rule => Ok rule
  | None =>
      if startswith jurisdiction "US-State" then Ok state_fallback_rule
      else Raise (ValueError (unknown_jurisdiction_message self jurisdiction))
  end.

Definition calculate (fuel : nat) (self : DeadlineCalculator)
    (jurisdiction : string) (filed_date : date) : option (result date) :=
  match _get_rule self jurisdiction with
  | inr e => Some (inr e)
  | inl rule =>
      let days := initial_days rule in
      if (day_type rule =? "business")%string then
        add_business_days fuel filed_date days (holiday_fn rule)
      else Some (add_calendar_days filed_date days)
  end.

Definition calculate_extension (fuel : nat) (self : DeadlineCalculator)
    (jurisdiction : string) (original_deadline : date)
    : option (result (option date)) :=
  match _get_rule self jurisdiction with
  | inr e => Some (inr e)
  | inl rule =>
      let ext_days := extension_days rule in
      if ext_days =? 0 then Some (Ok None)
      else if (extension_type rule =? "business")%string then
        match add_business_days fuel original_deadline ext_days (holiday_fn rule) with
        | None => None
        | Some (inl d) => Some (Ok (Some d))
        | Some (inr e) => Some (inr e)
        end
      else
        match add_calendar_days original_deadline ext_days with
        | inl d => Some (Ok (Some d))
        | inr e => Some (inr e)
        end
  end.

Definition list_jurisdictions (self : DeadlineCalculator) : list string :=
  Dict.keys (rules self).

End Deadlines.

Import Deadlines.

(* ------------------------------------------------------------------ *)
(** * tracker/tracker.py *)
(* ------------------------------------------------------------------ *)

Module Tracker.

(** Lifecycle states for a public records request. *)
Inductive RequestStatus : Type :=
| DRAFT | FILED | ACKNOWLEDGED | PROCESSING | EXTENDED | PARTIAL_RESPONSE
| COMPLETE | DENIED | APPEALED | APPEAL_WON | APPEAL_DENIED | LITIGATION
| WITHDRAWN | NO_RESPONSIVE_RECORDS.

Definition RequestStatus_eq_dec (a b : RequestStatus) : {a = b} + {a <> b}.
Proof. decide equality. Defined.

Definition status_eqb (a b : RequestStatus) : bool :=
  if RequestStatus_eq_dec a b then true else false.

(** [st in statuses] *)
Definition status_in (st : RequestStatus) (statuses : list RequestStatus) : bool :=
  existsb (status_eqb st) statuses.

(** One row of the table [foia_requests]. Below, a function parameter that
    has the name of a column is written with a trailing 0. *)
Record FOIARequest : Type := mkRequest {
  id : Z;
  reference_id : option string;
  agency : string;
  agency_key : option string;
  jurisdiction : string;
  topic : string;
  date_created : datetime;
  date_filed : option date;
  deadline : option date;
  date_acknowledged : option date;
  date_extended : option date;
  extended_deadline : option date;
  date_response : option date;
  status : RequestStatus;
  docs_received : option Z;
  pages_received : option Z;
  pages_withheld : option Z;
  exemptions_cited : option string;
  filing_method : option string;
  confirmation_number : option string;
  assigned_analyst : option string;
  fee_paid : option string;
  fee_waiver_requested : option bool;
  fee_waiver_granted : option bool;
  request_text : option string;
  response_summary : option string;
  notes : option string;
  appeal_filed : option bool;
  appeal_date : option date;
  appeal_body : option string;
  appeal_outcome : option string
}.

(** Attribute assignment [req.<column> = v], one function per column. *)
Definition set_id (v : Z) (r : FOIARequest) : FOIARequest :=
  mkRequest v (reference_id r) (agency r) (agency_key r) (jurisdiction r) (topic r) (date_created r) (date_filed r) (deadline r) (date_acknowledged r) (date_extended r) (extended_deadline r) (date_response r) (status r) (docs_received r) (pages_received r) (pages_withheld r) (exemptions_cited r) (filing_method r) (confirmation_number r) (assigned_analyst r) (fee_paid r) (fee_waiver_requested r) (fee_waiver_granted r) (request_text r) (response_summary r) (notes r) (appeal_filed r) (appeal_date r) (appeal_body r) (appeal_outcome r).
Definition set_reference_id (v : option string) (r : FOIARequest) : FOIARequest :=
  mkRequest (id r) v (agency r) (agency_key r) (jurisdiction r) (topic r) (date_created r) (date_filed r) (deadline r) (date_acknowledged r) (date_extended r) (extended_deadline r) (date_response r) (status r) (docs_received r) (pages_received r) (pages_withheld r) (exemptions_cited r) (filing_method r) (confirmation_number r) (assigned_analyst r) (fee_paid r) (fee_waiver_requested r) (fee_waiver_granted r) (request_text r) (response_summary r) (notes r) (appeal_filed r) (appeal_date r) (appeal_body r) (appeal_outcome r).
Definition set_agency (v : string) (r : FOIARequest) : FOIARequest :=
  mkRequest (id r) (reference_id r) v (agency_key r) (jurisdiction r) (topic r) (date_created r) (date_filed r) (deadline r) (date_acknowledged r) (date_extended r) (extended_deadline r) (date_response r) (status r) (docs_received r) (pages_received r) (pages_withheld r) (exemptions_cited r) (filing_method r) (confirmation_number r) (assigned_analyst r) (fee_paid r) (fee_waiver_requested r) (fee_waiver_granted r) (request_text r) (response_summary r) (notes r) (appeal_filed r) (appeal_date r) (appeal_body r) (appeal_outcome r).
Definition set_agency_key (v : option string) (r : FOIARequest) : FOIARequest :=
  mkRequest (id r) (reference_id r) (agency r) v (jurisdiction r) (topic r) (date_created r) (date_filed r) (deadline r) (date_acknowledged r) (date_extended r) (extended_deadline r) (date_response r) (status r) (docs_received r) (pages_received r) (pages_withheld r) (exemptions_cited r) (filing_method r) (confirmation_number r) (assigned_analyst r) (fee_paid r) (fee_waiver_requested r) (fee_waiver_granted r) (request_text r) (response_summary r) (notes r) (appeal_filed r) (appeal_date r) (appeal_body r) (appeal_outcome r).
Definition set_jurisdiction (v : string) (r : FOIARequest) : FOIARequest :=
  mkRequest (id r) (reference_id r) (agency r) (agency_key r) v (topic r) (date_created r) (date_filed r) (deadline r) (date_acknowledged r) (date_extended r) (extended_deadline r) (date_response r) (status r) (docs_received r) (pages_received r) (pages_withheld r) (exemptions_cited r) (filing_method r) (confirmation_number r) (assigned_analyst r) (fee_paid r) (fee_waiver_requested r) (fee_waiver_granted r) (request_text r) (response_summary r) (notes r) (appeal_filed r) (appeal_date r) (appeal_body r) (appeal_outcome r).
Definition set_topic (v : string) (r : FOIARequest) : FOIARequest :=
  mkRequest (id r) (reference_id r) (agency r) (agency_key r) (jurisdiction r) v (date_created r) (date_filed r) (deadline r) (date_acknowledged r) (date_extended r) (extended_deadline r) (date_response r) (status r) (docs_received r) (pages_received r) (pages_withheld r) (exemptions_cited r) (filing_method r) (confirmation_number r) (assigned_analyst r) (fee_paid r) (fee_waiver_requested r) (fee_waiver_granted r) (request_text r) (response_summary r) (notes r) (appeal_filed r) (appeal_date r) (appeal_body r) (appeal_outcome r).
Definition set_date_created (v : datetime) (r : FOIARequest) : FOIARequest :=
  mkRequest (id r) (reference_id r) (agency r) (agency_key r) (jurisdiction r) (topic r) v (date_filed r) (deadline r) (date_acknowledged r) (date_extended r) (extended_deadline r) (date_response r) (status r) (docs_received r) (pages_received r) (pages_withheld r) (exemptions_cited r) (filing_method r) (confirmation_number r) (assigned_analyst r) (fee_paid r) (fee_waiver_requested r) (fee_waiver_granted r) (request_text r) (response_summary r) (notes r) (appeal_filed r) (appeal_date r) (appeal_body r) (appeal_outcome r).
Definition set_date_filed (v : option date) (r : FOIARequest) : FOIARequest :=
  mkRequest (id r) (reference_id r) (agency r) (agency_key r) (jurisdiction r) (topic r) (date_created r) v (deadline r) (date_acknowledged r) (date_extended r) (extended_deadline r) (date_response r) (status r) (docs_received r) (pages_received r) (pages_withheld r) (exemptions_cited r) (filing_method r) (confirmation_number r) (assigned_analyst r) (fee_paid r) (fee_waiver_requested r) (fee_waiver_granted r) (request_text r) (response_summary r) (notes r) (appeal_filed r) (appeal_date r) (appeal_body r) (appeal_outcome r).
Definition set_deadline (v : option date) (r : FOIARequest) : FOIARequest :=
  mkRequest (id r) (reference_id r) (agency r) (agency_key r) (jurisdiction r) (topic r) (date_created r) (date_filed r) v (date_acknowledged r) (date_extended r) (extended_deadline r) (date_response r) (status r) (docs_received r) (pages_received r) (pages_withheld r) (exemptions_cited r) (filing_method r) (confirmation_number r) (assigned_analyst r) (fee_paid r) (fee_waiver_requested r) (fee_waiver_granted r) (request_text r) (response_summary r) (notes r) (appeal_filed r) (appeal_date r) (appeal_body r) (appeal_outcome r).
Definition set_date_acknowledged (v : option date) (r : FOIARequest) : FOIARequest :=
  mkRequest (id r) (reference_id r) (agency r) (agency_key r) (jurisdiction r) (topic r) (date_created r) (date_filed r) (deadline r) v (date_extended r) (extended_deadline r) (date_response r) (status r) (docs_received r) (pages_received r) (pages_withheld r) (exemptions_cited r) (filing_method r) (confirmation_number r) (assigned_analyst r) (fee_paid r) (fee_waiver_requested r) (fee_waiver_granted r) (request_text r) (response_summary r) (notes r) (appeal_filed r) (appeal_date r) (appeal_body r) (appeal_outcome r).
Definition set_date_extended (v : option date) (r : FOIARequest) : FOIARequest :=
  mkRequest (id r) (reference_id r) (agency r) (agency_key r) (jurisdiction r) (topic r) (date_created r) (date_filed r) (deadline r) (date_acknowledged r) v (extended_deadline r) (date_response r) (status r) (docs_received r) (pages_received r) (pages_withheld r) (exemptions_cited r) (filing_method r) (confirmation_number r) (assigned_analyst r) (fee_paid r) (fee_waiver_requested r) (fee_waiver_granted r) (request_text r) (response_summary r) (notes r) (appeal_filed r) (appeal_date r) (appeal_body r) (appeal_outcome r).
Definition set_extended_deadline (v : option date) (r : FOIARequest) : FOIARequest :=
  mkRequest (id r) (reference_id r) (agency r) (agency_key r) (jurisdiction r) (topic r) (date_created r) (date_filed r) (deadline r) (date_acknowledged r) (date_extended r) v (date_response r) (status r) (docs_received r) (pages_received r) (pages_withheld r) (exemptions_cited r) (filing_method r) (confirmation_number r) (assigned_analyst r) (fee_paid r) (fee_waiver_requested r) (fee_waiver_granted r) (request_text r) (response_summary r) (notes r) (appeal_filed r) (appeal_date r) (appeal_body r) (appeal_outcome r).
Definition set_date_response (v : option date) (r : FOIARequest) : FOIARequest :=
  mkRequest (id r) (reference_id r) (agency r) (agency_key r) (jurisdiction r) (topic r) (date_created r) (date_filed r) (deadline r) (date_acknowledged r) (date_extended r) (extended_deadline r) v (status r) (docs_received r) (pages_received r) (pages_withheld r) (exemptions_cited r) (filing_method r) (confirmation_number r) (assigned_analyst r) (fee_paid r) (fee_waiver_requested r) (fee_waiver_granted r) (request_text r) (response_summary r) (notes r) (appeal_filed r) (appeal_date r) (appeal_body r) (appeal_outcome r).
Definition set_status (v : RequestStatus) (r : FOIARequest) : FOIARequest :=
  mkRequest (id r) (reference_id r) (agency r) (agency_key r) (jurisdiction r) (topic r) (date_created r) (date_filed r) (deadline r) (date_acknowledged r) (date_extended r) (extended_deadline r) (date_response r) v (docs_received r) (pages_received r) (pages_withheld r) (exemptions_cited r) (filing_method r) (confirmation_number r) (assigned_analyst r) (fee_paid r) (fee_waiver_requested r) (fee_waiver_granted r) (request_text r) (response_summary r) (notes r) (appeal_filed r) (appeal_date r) (appeal_body r) (appeal_outcome r).
Definition set_docs_received (v : option Z) (r : FOIARequest) : FOIARequest :=
  mkRequest (id r) (reference_id r) (agency r) (agency_key r) (jurisdiction r) (topic r) (date_created r) (date_filed r) (deadline r) (date_acknowledged r) (date_extended r) (extended_deadline r) (date_response r) (status r) v (pages_received r) (pages_withheld r) (exemptions_cited r) (filing_method r) (confirmation_number r) (assigned_analyst r) (fee_paid r) (fee_waiver_requested r) (fee_waiver_granted r) (request_text r) (response_summary r) (notes r) (appeal_filed r) (appeal_date r) (appeal_body r) (appeal_outcome r).
Definition set_pages_received (v : option Z) (r : FOIARequest) : FOIARequest :=
  mkRequest (id r) (reference_id r) (agency r) (agency_key r) (jurisdiction r) (topic r) (date_created r) (date_filed r) (deadline r) (date_acknowledged r) (date_extended r) (extended_deadline r) (date_response r) (status r) (docs_received r) v (pages_withheld r) (exemptions_cited r) (filing_method r) (confirmation_number r) (assigned_analyst r) (fee_paid r) (fee_waiver_requested r) (fee_waiver_granted r) (request_text r) (response_summary r) (notes r) (appeal_filed r) (appeal_date r) (appeal_body r) (appeal_outcome r).
Definition set_pages_withheld (v : option Z) (r : FOIARequest) : FOIARequest :=
  mkRequest (id r) (reference_id r) (agency r) (agency_key r) (jurisdiction r) (topic r) (date_created r) (date_filed r) (deadline r) (date_acknowledged r) (date_extended r) (extended_deadline r) (date_response r) (status r) (docs_received r) (pages_received r) v (exemptions_cited r) (filing_method r) (confirmation_number r) (assigned_analyst r) (fee_paid r) (fee_waiver_requested r) (fee_waiver_granted r) (request_text r) (response_summary r) (notes r) (appeal_filed r) (appeal_date r) (appeal_body r) (appeal_outcome r).
Definition set_exemptions_cited (v : option string) (r : FOIARequest) : FOIARequest :=
  mkRequest (id r) (reference_id r) (agency r) (agency_key r) (jurisdiction r) (topic r) (date_created r) (date_filed r) (deadline r) (date_acknowledged r) (date_extended r) (extended_deadline r) (date_response r) (status r) (docs_received r) (pages_received r) (pages_withheld r) v (filing_method r) (confirmation_number r) (assigned_analyst r) (fee_paid r) (fee_waiver_requested r) (fee_waiver_granted r) (request_text r) (response_summary r) (notes r) (appeal_filed r) (appeal_date r) (appeal_body r) (appeal_outcome r).
Definition set_filing_method (v : option string) (r : FOIARequest) : FOIARequest :=
  mkRequest (id r) (reference_id r) (agency r) (agency_key r) (jurisdiction r) (topic r) (date_created r) (date_filed r) (deadline r) (date_acknowledged r) (date_extended r) (extended_deadline r) (date_response r) (status r) (docs_received r) (pages_received r) (pages_withheld r) (exemptions_cited r) v (confirmation_number r) (assigned_analyst r) (fee_paid r) (fee_waiver_requested r) (fee_waiver_granted r) (request_text r) (response_summary r) (notes r) (appeal_filed r) (appeal_date r) (appeal_body r) (appeal_outcome r).
Definition set_confirmation_number (v : option string) (r : FOIARequest) : FOIARequest :=
  mkRequest (id r) (reference_id r) (agency r) (agency_key r) (jurisdiction r) (topic r) (date_created r) (date_filed r) (deadline r) (date_acknowledged r) (date_extended r) (extended_deadline r) (date_response r) (status r) (docs_received r) (pages_received r) (pages_withheld r) (exemptions_cited r) (filing_method r) v (assigned_analyst r) (fee_paid r) (fee_waiver_requested r) (fee_waiver_granted r) (request_text r) (response_summary r) (notes r) (appeal_filed r) (appeal_date r) (appeal_body r) (appeal_outcome r).
Definition set_assigned_analyst (v : option string) (r : FOIARequest) : FOIARequest :=
  mkRequest (id r) (reference_id r) (agency r) (agency_key r) (jurisdiction r) (topic r) (date_created r) (date_filed r) (deadline r) (date_acknowledged r) (date_extended r) (extended_deadline r) (date_response r) (status r) (docs_received r) (pages_received r) (pages_withheld r) (exemptions_cited r) (filing_method r) (confirmation_number r) v (fee_paid r) (fee_waiver_requested r) (fee_waiver_granted r) (request_text r) (response_summary r) (notes r) (appeal_filed r) (appeal_date r) (appeal_body r) (appeal_outcome r).
Definition set_fee_paid (v : option string) (r : FOIARequest) : FOIARequest :=
  mkRequest (id r) (reference_id r) (agency r) (agency_key r) (jurisdiction r) (topic r) (date_created r) (date_filed r) (deadline r) (date_acknowledged r) (date_extended r) (extended_deadline r) (date_response r) (status r) (docs_received r) (pages_received r) (pages_withheld r) (exemptions_cited r) (filing_method r) (confirmation_number r) (assigned_analyst r) v (fee_waiver_requested r) (fee_waiver_granted r) (request_text r) (response_summary r) (notes r) (appeal_filed r) (appeal_date r) (appeal_body r) (appeal_outcome r).
Definition set_fee_waiver_requested (v : option bool) (r : FOIARequest) : FOIARequest :=
  mkRequest (id r) (reference_id r) (agency r) (agency_key r) (jurisdiction r) (topic r) (date_created r) (date_filed r) (deadline r) (date_acknowledged r) (date_extended r) (extended_deadline r) (date_response r) (status r) (docs_received r) (pages_received r) (pages_withheld r) (exemptions_cited r) (filing_method r) (confirmation_number r) (assigned_analyst r) (fee_paid r) v (fee_waiver_granted r) (request_text r) (response_summary r) (notes r) (appeal_filed r) (appeal_date r) (appeal_body r) (appeal_outcome r).
Definition set_fee_waiver_granted (v : option bool) (r : FOIARequest) : FOIARequest :=
  mkRequest (id r) (reference_id r) (agency r) (agency_key r) (jurisdiction r) (topic r) (date_created r) (date_filed r) (deadline r) (date_acknowledged r) (date_extended r) (extended_deadline r) (date_response r) (status r) (docs_received r) (pages_received r) (pages_withheld r) (exemptions_cited r) (filing_method r) (confirmation_number r) (assigned_analyst r) (fee_paid r) (fee_waiver_requested r) v (request_text r) (response_summary r) (notes r) (appeal_filed r) (appeal_date r) (appeal_body r) (appeal_outcome r).
Definition set_request_text (v : option string) (r : FOIARequest) : FOIARequest :=
  mkRequest (id r) (reference_id r) (agency r) (agency_key r) (jurisdiction r) (topic r) (date_created r) (date_filed r) (deadline r) (date_acknowledged r) (date_extended r) (extended_deadline r) (date_response r) (status r) (docs_received r) (pages_received r) (pages_withheld r) (exemptions_cited r) (filing_method r) (confirmation_number r) (assigned_analyst r) (fee_paid r) (fee_waiver_requested r) (fee_waiver_granted r) v (response_summary r) (notes r) (appeal_filed r) (appeal_date r) (appeal_body r) (appeal_outcome r).
Definition set_response_summary (v : option string) (r : FOIARequest) : FOIARequest :=
  mkRequest (id r) (reference_id r) (agency r) (agency_key r) (jurisdiction r) (topic r) (date_created r) (date_filed r) (deadline r) (date_acknowledged r) (date_extended r) (extended_deadline r) (date_response r) (status r) (docs_received r) (pages_received r) (pages_withheld r) (exemptions_cited r) (filing_method r) (confirmation_number r) (assigned_analyst r) (fee_paid r) (fee_waiver_requested r) (fee_waiver_granted r) (request_text r) v (notes r) (appeal_filed r) (appeal_date r) (appeal_body r) (appeal_outcome r).
Definition set_notes (v : option string) (r : FOIARequest) : FOIARequest :=
  mkRequest (id r) (reference_id r) (agency r) (agency_key r) (jurisdiction r) (topic r) (date_created r) (date_filed r) (deadline r) (date_acknowledged r) (date_extended r) (extended_deadline r) (date_response r) (status r) (docs_received r) (pages_received r) (pages_withheld r) (exemptions_cited r) (filing_method r) (confirmation_number r) (assigned_analyst r) (fee_paid r) (fee_waiver_requested r) (fee_waiver_granted r) (request_text r) (response_summary r) v (appeal_filed r) (appeal_date r) (appeal_body r) (appeal_outcome r).
Definition set_appeal_filed (v : option bool) (r : FOIARequest) : FOIARequest :=
  mkRequest (id r) (reference_id r) (agency r) (agency_key r) (jurisdiction r) (topic r) (date_created r) (date_filed r) (deadline r) (date_acknowledged r) (date_extended r) (extended_deadline r) (date_response r) (status r) (docs_received r) (pages_received r) (pages_withheld r) (exemptions_cited r) (filing_method r) (confirmation_number r) (assigned_analyst r) (fee_paid r) (fee_waiver_requested r) (fee_waiver_granted r) (request_text r) (response_summary r) (notes r) v (appeal_date r) (appeal_body r) (appeal_outcome r).
Definition set_appeal_date (v : option date) (r : FOIARequest) : FOIARequest :=
  mkRequest (id r) (reference_id r) (agency r) (agency_key r) (jurisdiction r) (topic r) (date_created r) (date_filed r) (deadline r) (date_acknowledged r) (date_extended r) (extended_deadline r) (date_response r) (status r) (docs_received r) (pages_received r) (pages_withheld r) (exemptions_cited r) (filing_method r) (confirmation_number r) (assigned_analyst r) (fee_paid r) (fee_waiver_requested r) (fee_waiver_granted r) (request_text r) (response_summary r) (notes r) (appeal_filed r) v (appeal_body r) (appeal_outcome r).
Definition set_appeal_body (v : option string) (r : FOIARequest) : FOIARequest :=
  mkRequest (id r) (reference_id r) (agency r) (agency_key r) (jurisdiction r) (topic r) (date_created r) (date_filed r) (deadline r) (date_acknowledged r) (date_extended r) (extended_deadline r) (date_response r) (status r) (docs_received r) (pages_received r) (pages_withheld r) (exemptions_cited r) (filing_method r) (confirmation_number r) (assigned_analyst r) (fee_paid r) (fee_waiver_requested r) (fee_waiver_granted r) (request_text r) (response_summary r) (notes r) (appeal_filed r) (appeal_date r) v (appeal_outcome r).
Definition set_appeal_outcome (v : option string) (r : FOIARequest) : FOIARequest :=
  mkRequest (id r) (reference_id r) (agency r) (agency_key r) (jurisdiction r) (topic r) (date_created r) (date_filed r) (deadline r) (date_acknowledged r) (date_extended r) (extended_deadline r) (date_response r) (status r) (docs_received r) (pages_received r) (pages_withheld r) (exemptions_cited r) (filing_method r) (confirmation_number r) (assigned_analyst r) (fee_paid r) (fee_waiver_requested r) (fee_waiver_granted r) (request_text r) (response_summary r) (notes r) (appeal_filed r) (appeal_date r) (appeal_body r) v.

(** [a or b] on two optional dates: a [date] is always truthy, so the first
    operand wins whenever it is not [None]. *)
Definition or_date (a b : option date) : option date :=
  match a with
  | Some d => Some d
  | None => b
  end.

Definition is_overdue (self : FOIARequest) (today : date) : bool :=
  if status_in (status self) [COMPLETE; DENIED; WITHDRAWN; NO_RESPONSIVE_RECORDS]
  then false
  else
    let effective_deadline := or_date (extended_deadline self) (deadline self) in
    match effective_deadline with
    | None => false
    | Some effective_deadline => date_gtb today effective_deadline
    end.

Definition days_until_deadline (self : FOIARequest) (today : date) : option Z :=
  let effective_deadline := or_date (extended_deadline self) (deadline self) in
  match effective_deadline with
  | None => None
  | Some effective_deadline => Some (date_sub_days effective_deadline today)
  end.

(** ** SQL expressions over nullable columns (three-valued logic) *)

Definition sql_bool : Type := option bool.

Definition sql_and (a b : sql_bool) : sql_bool :=
  match a, b with
  | Some false, _ | _, Some false => Some false
  | Some true, Some true => Some true
  | _, _ => None
  end.

Definition sql_or (a b : sql_bool) : sql_bool :=
  match a, b with
  | Some true, _ | _, Some true => Some true
  | Some false, Some false => Some false
  | _, _ => None
  end.

(** [col != None], rendered [col IS NOT NULL] *)
Definition sql_is_not_null {A : Type} (c : option A) : sql_bool :=
  match c with Some _ => Some true | None => Some false end.

(** [col == None], rendered [col IS NULL] *)
Definition sql_is_null {A : Type} (c : option A) : sql_bool :=
  match c with Some _ => Some false | None => Some true end.

(** [col < value] on a nullable date column *)
Definition sql_date_lt (c : option date) (v : date) : sql_bool :=
  match c with Some d => Some (date_ltb d v) | None => None end.

(** A row passes [WHERE e] when [e] is true (not false, not NULL). *)
Definition sql_where (e : sql_bool) : bool :=
  match e with Some true => true | _ => false end.

(** ASCII lower case, as SQLite's [lower()] and [LIKE] fold it. *)
Definition sqlite_lower_char (c : ascii) : ascii :=
  if is_ascii_upper c then ascii_of_nat (nat_of_ascii c + 32) else c.

(** [s LIKE pattern] with the wildcards [%] and [_], case-insensitive. *)
Fixpoint sql_like (pattern : string) : string -> bool :=
  match pattern with
  | EmptyString => fun s => match s with EmptyString => true | _ => false end
  | String c pattern' =>
      if Ascii.eqb c "%"%char then
        fix star (s : string) : bool :=
          sql_like pattern' s ||
          match s with
          | EmptyString => false
          | String _ s' => star s'
          end
      else
        fun s =>
          match s with
          | EmptyString => false
          | String x s' =>
              (Ascii.eqb c "_"%char
               || Ascii.eqb (sqlite_lower_char c) (sqlite_lower_char x))
              && sql_like pattern' s'
          end
  end.

(** [col.ilike(pattern)] *)
Definition ilike (col pattern : string) : bool := sql_like pattern col.

(** ** TrackerDB *)

(** The table [foia_requests], in row order. *)
Definition TrackerDB : Type := list FOIARequest.

(** [session.get(FOIARequest, request_id)] *)
Definition session_get (db : TrackerDB) (request_id : Z) : option FOIARequest :=
  find (fun r => id r =? request_id) db.

(** The flush of a changed row: every row with the key is replaced. *)
Definition session_write (db : TrackerDB) (request_id : Z) (req : FOIARequest) : TrackerDB :=
  map (fun r => if id r =? request_id then req else r) db.

Definition get_request (db : TrackerDB) (request_id : Z) : option FOIARequest :=
  session_get db request_id.

Definition get_by_reference (db : TrackerDB) (reference_id0 : string) : option FOIARequest :=
  find (fun r => match reference_id r with
                 | Some x => (x =? reference_id0)%string
                 | None => false
                 end) db.

(** [ORDER BY date_created DESC], as a stable insertion sort: SQL leaves the
    order of rows with equal creation time open, here they stay in row
    order. *)
Fixpoint insert_created_desc (r : FOIARequest) (l : list FOIARequest) : list FOIARequest :=
  match l with
  | [] => [r]
  | x :: l' =>
      if date_created x <=? date_created r then r :: x :: l'
      else x :: insert_created_desc r l'
  end.

Definition order_by_created_desc (l : list FOIARequest) : list FOIARequest :=
  fold_right insert_created_desc [] l.

(** [if s:] on an optional string: [None] and the empty string are falsy. *)
Definition truthy_str (s : option string) : option string :=
  match s with
  | Some EmptyString => None
  | other => other
  end.

Definition list_requests (db : TrackerDB) (jurisdiction0 : option string)
    (status0 : option RequestStatus) (agency0 : option string)
    (limit offset : nat) : list FOIARequest :=
  let q := db in
  let q := match truthy_str jurisdiction0 with
           | Some j => filter (fun r => (jurisdiction r =? j)%string) q
           | None => q
           end in
  let q := match status0 with
           | Some st => filter (fun r => status_eqb (status r) st) q
           | None => q
           end in
  let q := match truthy_str agency0 with
           | Some a => filter (fun r => ilike (agency r) ("%" ++ a ++ "%")) q
           | None => q
           end in
  let q := order_by_created_desc q in
  firstn limit (skipn offset q).

Definition get_overdue (db : TrackerDB) (today : date) : list FOIARequest :=
  let terminal := [COMPLETE; DENIED; WITHDRAWN; NO_RESPONSIVE_RECORDS] in
  filter
    (fun r =>
       negb (status_in (status r) terminal)
       && sql_where
            (sql_or
               (sql_and (sql_is_not_null (extended_deadline r))
                        (sql_date_lt (extended_deadline r) today))
               (sql_and (sql_and (sql_is_null (extended_deadline r))
                                 (sql_is_not_null (deadline r)))
                        (sql_date_lt (deadline r) today))))
    db.

(** ** Keyword arguments of [update_status] *)

(** The values a keyword argument may carry. *)
Inductive pyval : Type :=
| PyNone
| PyInt (n : Z)
| PyStr (s : string)
| PyBool (b : bool)
| PyDate (d : date)
| PyDateTime (t : datetime).

Definition as_int (v : pyval) : result (option Z) :=
  match v with PyNone => Ok None | PyInt n => Ok (Some n) | _ => Raise TypeError end.
Definition as_str (v : pyval) : result (option string) :=
  match v with PyNone => Ok None | PyStr s => Ok (Some s) | _ => Raise TypeError end.
Definition as_bool (v : pyval) : result (option bool) :=
  match v with PyNone => Ok None | PyBool b => Ok (Some b) | _ => Raise TypeError end.
Definition as_date (v : pyval) : result (option date) :=
  match v with PyNone => Ok None | PyDate d => Ok (Some d) | _ => Raise TypeError end.
Definition as_datetime (v : pyval) : result (option datetime) :=
  match v with PyNone => Ok None | PyDateTime t => Ok (Some t) | _ => Raise TypeError end.

(** A NOT NULL column refuses [None] when the row is flushed. *)
Definition not_null {A : Type} (v : result (option A)) : result A :=
  bind v (fun o => match o with Some a => Ok a | None => Raise DatabaseError end).

(** [if hasattr(req, key): setattr(req, key, val)] for one keyword argument.
    A key that names a column assigns it; the value is expected to have the
    column's Python type ([None] allowed where the column is nullable), and a
    value of another type is given no behaviour here: the call is reported
    as failed. Any other key leaves every column as it is ([hasattr] is
    false, or the attribute is not mapped to a column). *)
Definition setattr_if_hasattr (req : FOIARequest) (key : string) (val : pyval)
    : result FOIARequest :=
  if (key =? "id")%string then
    bind (not_null (as_int val)) (fun v => Ok (set_id v req))
  else if (key =? "reference_id")%string then
    bind (as_str val) (fun v => Ok (set_reference_id v req))
  else if (key =? "agency")%string then
    bind (not_null (as_str val)) (fun v => Ok (set_agency v req))
  else if (key =? "agency_key")%string then
    bind (as_str val) (fun v => Ok (set_agency_key v req))
  else if (key =? "jurisdiction")%string then
    bind (not_null (as_str val)) (fun v => Ok (set_jurisdiction v req))
  else if (key =? "topic")%string then
    bind (not_null (as_str val)) (fun v => Ok (set_topic v req))
  else if (key =? "date_created")%string then
    bind (not_null (as_datetime val)) (fun v => Ok (set_date_created v req))
  else if (key =? "date_filed")%string then
    bind (as_date val) (fun v => Ok (set_date_filed v req))
  else if (key =? "deadline")%string then
    bind (as_date val) (fun v => Ok (set_deadline v req))
  else if (key =? "date_acknowledged")%string then
    bind (as_date val) (fun v => Ok (set_date_acknowledged v req))
  else if (key =? "date_extended")%string then
    bind (as_date val) (fun v => Ok (set_date_extended v req))
  else if (key =? "extended_deadline")%string then
    bind (as_date val) (fun v => Ok (set_extended_deadline v req))
  else if (key =? "date_response")%string then
    bind (as_date val) (fun v => Ok (set_date_response v req))
  else if (key =? "docs_received")%string then
    bind (as_int val) (fun v => Ok (set_docs_received v req))
  else if (key =? "pages_received")%string then
    bind (as_int val) (fun v => Ok (set_pages_received v req))
  else if (key =? "pages_withheld")%string then
    bind (as_int val) (fun v => Ok (set_pages_withheld v req))
  else if (key =? "exemptions_cited")%string then
    bind (as_str val) (fun v => Ok (set_exemptions_cited v req))
  else if (key =? "filing_method")%string then
    bind (as_str val) (fun v => Ok (set_filing_method v req))
  else if (key =? "confirmation_number")%string then
    bind (as_str val) (fun v => Ok (set_confirmation_number v req))
  else if (key =? "assigned_analyst")%string then
    bind (as_str val) (fun v => Ok (set_assigned_analyst v req))
  else if (key =? "fee_paid")%string then
    bind (as_str val) (fun v => Ok (set_fee_paid v req))
  else if (key =? "fee_waiver_requested")%string then
    bind (as_bool val) (fun v => Ok (set_fee_waiver_requested v req))
  else if (key =? "fee_waiver_granted")%string then
    bind (as_bool val) (fun v => Ok (set_fee_waiver_granted v req))
  else if (key =? "request_text")%string then
    bind (as_str val) (fun v => Ok (set_request_text v req))
  else if (key =? "response_summary")%string then
    bind (as_str val) (fun v => Ok (set_response_summary v req))
  else if (key =? "notes")%string then
    bind (as_str val) (fun v => Ok (set_notes v req))
  else if (key =? "appeal_filed")%string then
    bind (as_bool val) (fun v => Ok (set_appeal_filed v req))
  else if (key =? "appeal_date")%string then
    bind (as_date val) (fun v => Ok (set_appeal_date v req))
  else if (key =? "appeal_body")%string then
    bind (as_str val) (fun v => Ok (set_appeal_body v req))
  else if (key =? "appeal_outcome")%string then
    bind (as_str val) (fun v => Ok (set_appeal_outcome v req))
  else Ok req.

(** [update_status(self, request_id, status, **kwargs)] cannot be called with
    a keyword that repeats one of its named parameters. *)
Definition reserved_keyword (key : string) : bool :=
  (key =? "self")%string || (key =? "request_id")%string || (key =? "status")%string.

(** The constraints checked when the changed row is flushed: the primary key
    and a non-NULL [reference_id] stay unique among the other rows. *)
Definition flush_ok (db : TrackerDB) (request_id : Z) (req : FOIARequest) : bool :=
  forallb
    (fun other =>
       (id other =? request_id)
       || (negb (id other =? id req)
           && match reference_id req, reference_id other with
              | Some a, Some b => negb (a =? b)%string
              | _, _ => true
              end))
    db.

Definition update_status (db : TrackerDB) (request_id : Z) (status0 : RequestStatus)
    (kwargs : list (string * pyval)) : result (TrackerDB * option FOIARequest) :=
  if existsb (fun kv => reserved_keyword (fst kv)) kwargs then Raise TypeError
  else
    match session_get db request_id with
    | None => Ok (db, None)
    | Some req =>
        let req := set_status status0 req in
        bind (fold_left
                (fun acc kv => bind acc (fun r => setattr_if_hasattr r (fst kv) (snd kv)))
                kwargs (Ok req))
             (fun req =>
                if flush_ok db request_id req
                then Ok (session_write db request_id req, Some req)
                else Raise DatabaseError)
    end.

(** The range of an SQLite INTEGER (the engine of the default [db_url]): a
    Python [int] outside of it cannot be bound to a statement, the driver
    raises [OverflowError]. *)
Definition sqlite_integer (n : Z) : bool :=
  (-9223372036854775808 <=? n) && (n <=? 9223372036854775807).

(** [record_response]. The ID is bound to the SELECT of [session.get], the
    three counts to the UPDATE of [session.commit]; a failed commit leaves
    the table as it was. *)
Definition record_response (db : TrackerDB) (today : date) (request_id : Z)
    (docs_received0 pages_received0 pages_withheld0 : Z)
    (exemptions_cited0 response_summary0 : string)
    (date_response0 : option date) : result (TrackerDB * option FOIARequest) :=
  if negb (sqlite_integer request_id) then Raise OverflowError
  else
    match session_get db request_id with
    | None => Ok (db, None)
    | Some req =>
        let req := set_docs_received (Some docs_received0) req in
        let req := set_pages_received (Some pages_received0) req in
        let req := set_pages_withheld (Some pages_withheld0) req in
        let req := set_exemptions_cited (Some exemptions_cited0) req in
        let req := set_response_summary (Some response_summary0) req in
        let req := set_date_response (or_date date_response0 (Some today)) req in
        let req :=
          if 0 <? pages_withheld0 then set_status PARTIAL_RESPONSE req
          else set_status COMPLETE req in
        if sqlite_integer docs_received0 && sqlite_integer pages_received0
           && sqlite_integer pages_withheld0
        then Ok (session_write db request_id req, Some req)
        else Raise OverflowError
    end.

Definition delete_request (db : TrackerDB) (request_id : Z) : TrackerDB * bool :=
  match session_get db request_id with
  | None => (db, false)
  | Some _ => (filter (fun r => negb (id r =? request_id)) db, true)
  end.

(** ** [get_stats] and [add_note] *)

(** [RequestStatus.<member>.value] *)
Definition status_value (st : RequestStatus) : string :=
  match st with
  | DRAFT => "draft"
  | FILED => "filed"
  | ACKNOWLEDGED => "acknowledged"
  | PROCESSING => "processing"
  | EXTENDED => "extended"
  | PARTIAL_RESPONSE => "partial_response"
  | COMPLETE => "complete"
  | DENIED => "denied"
  | APPEALED => "appealed"
  | APPEAL_WON => "appeal_won"
  | APPEAL_DENIED => "appeal_denied"
  | LITIGATION => "litigation"
  | WITHDRAWN => "withdrawn"
  | NO_RESPONSIVE_RECORDS => "no_responsive_records"
  end.

(** [for st in RequestStatus]: the members in the order of their definition. *)
Definition all_statuses : list RequestStatus :=
  [DRAFT; FILED; ACKNOWLEDGED; PROCESSING; EXTENDED; PARTIAL_RESPONSE;
   COMPLETE; DENIED; APPEALED; APPEAL_WON; APPEAL_DENIED; LITIGATION;
   WITHDRAWN; NO_RESPONSIVE_RECORDS].

(** [session.query(FOIARequest).filter(FOIARequest.status == st).count()] *)
Definition count_status (db : TrackerDB) (st : RequestStatus) : Z :=
  Z.of_nat (List.length (filter (fun r => status_eqb (status r) st) db)).

(** The dictionary [get_stats] returns, one field per key. *)
Record Stats : Type := mkStats {
  total : Z;
  overdue : Z;
  by_status : Dict.dict Z
}.

Definition get_stats (db : TrackerDB) (today : date) : Stats :=
  let total := Z.of_nat (List.length db) in
  let by_status :=
    fold_left
      (fun by_status st =>
         let count := count_status db st in
         if 0 <? count then Dict.set by_status (status_value st) count
         else by_status)
      all_statuses [] in
  let overdue := Z.of_nat (List.length (get_overdue db today)) in
  mkStats total overdue by_status.

(** [add_note]; [timestamp] is the text
    [datetime.utcnow().strftime("%Y-%m-%d %H:%M")] gives at the call. *)
Definition add_note (db : TrackerDB) (timestamp : string) (request_id : Z)
    (note : string) : TrackerDB * option FOIARequest :=
  match session_get db request_id with
  | None => (db, None)
  | Some req =>
      let entry := "[" ++ timestamp ++ "] " ++ note in
      let req :=
        set_notes
          (Some (match truthy_str (notes req) with
                 | Some old => old ++ String "010" entry
                 | None => entry
                 end))
          req in
      (session_write db request_id req, Some req)
  end.

End Tracker.

Import Tracker.

(* ------------------------------------------------------------------ *)
(** * tracker/alerts.py *)
(* ------------------------------------------------------------------ *)

Module Alerts.

Inductive AlertSeverity : Type := INFO | WARNING | URGENT | OVERDUE.

(** A single alert about a tracked request. *)
Record Alert : Type := mkAlert {
  request_id : Z;
  alert_agency : string;
  alert_jurisdiction : string;
  alert_topic : string;
  severity : AlertSeverity;
  message : string;
  days_remaining : option Z;
  alert_deadline : option date;
  suggested_action : string
}.

(** Days before deadline to trigger each severity level. [OVERDUE] is not a
    key of the table and is never looked up. *)
Definition THRESHOLDS (s : AlertSeverity) : Z :=
  match s with
  | INFO => 10
  | WARNING => 5
  | URGENT => 2
  | OVERDUE => 0
  end.

Definition _overdue_action (req : FOIARequest) : string :=
  if (jurisdiction req =? "US-Federal")%string then
    "Send a follow-up letter citing 5 U.S.C. Section 552(a)(6)(A). "
    ++ "Consider filing an administrative appeal or contacting OGIS "
    ++ "(ogis@nara.gov). Constructive denial of request may entitle "
    ++ "you to immediate appeal."
  else if (jurisdiction req =? "India")%string then
    "File a first appeal under Section 19(1) of the RTI Act with "
    ++ "the First Appellate Authority. The PIO's failure to respond "
    ++ "within 30 days is deemed a refusal."
  else if (jurisdiction req =? "UK")%string then
    "Send a follow-up citing Section 10(1) of FOIA 2000. "
    ++ "Request an internal review. If no response within a reasonable "
    ++ "time, complain to the ICO."
  else if (jurisdiction req =? "EU")%string then
    "The institution's silence after 15 working days constitutes "
    ++ "an implied refusal. File a confirmatory application under "
    ++ "Article 7(2) of Regulation 1049/2001."
  else "Send a follow-up letter and prepare an appeal.".

Definition _upcoming_action (req : FOIARequest) (days_left : Z) : string :=
  if days_left <=? 2 then
    "Prepare appeal materials. Follow up with the agency immediately."
  else if days_left <=? 5 then
    "Send a courtesy follow-up to the FOIA officer inquiring about status."
  else "Monitor. No action required yet.".

Definition _check_request (today : date) (req : FOIARequest) : option Alert :=
  let days_left := days_until_deadline req today in
  let effective_deadline := or_date (extended_deadline req) (deadline req) in
  match days_left, effective_deadline with
  | None, _ => None
  | Some _, None => None   (* unreachable: both come from the same date *)
  | Some days_left, Some eff =>
      if days_left <? 0 then
        let days_overdue := Z.abs days_left in
        Some (mkAlert (id req) (agency req) (jurisdiction req) (topic req)
                OVERDUE
                ("Response is " ++ str_of_int days_overdue ++ " day(s) overdue. "
                 ++ "Deadline was " ++ isoformat eff ++ ".")
                (Some days_left) (Some eff) (_overdue_action req))
      else
        let finish (sev : AlertSeverity) : option Alert :=
          Some (mkAlert (id req) (agency req) (jurisdiction req) (topic req)
                  sev
                  ("Deadline in " ++ str_of_int days_left ++ " day(s) ("
                   ++ isoformat eff ++ ").")
                  (Some days_left) (Some eff) (_upcoming_action req days_left)) in
        if days_left <=? THRESHOLDS URGENT then finish URGENT
        else if days_left <=? THRESHOLDS WARNING then finish WARNING
        else if days_left <=? THRESHOLDS INFO then finish INFO
        else None
  end.

Definition active_statuses : list RequestStatus :=
  [FILED; ACKNOWLEDGED; PROCESSING; EXTENDED; APPEALED].

(** [severity_order.get(a.severity, 99)] *)
Definition severity_order (s : AlertSeverity) : Z :=
  match s with
  | OVERDUE => 0
  | URGENT => 1
  | WARNING => 2
  | INFO => 3
  end.

(** The sort key [(severity_order.get(a.severity, 99), a.days_remaining or 0)] *)
Definition sort_key (a : Alert) : Z * Z :=
  (severity_order (severity a),
   match days_remaining a with Some d => d | None => 0 end).

(** [k1 <= k2] on key tuples *)
Definition key_leb (k1 k2 : Z * Z) : bool :=
  (fst k1 <? fst k2) || ((fst k1 =? fst k2) && (snd k1 <=? snd k2)).

(** [list.sort(key=...)] is stable: an element is placed after the elements
    already there whose key is not larger. *)
Fixpoint insert_by_key (a : Alert) (l : list Alert) : list Alert :=
  match l with
  | [] => [a]
  | x :: l' =>
      if key_leb (sort_key x) (sort_key a) then x :: insert_by_key a l'
      else a :: x :: l'
  end.

Definition sort_alerts (l : list Alert) : list Alert :=
  fold_left (fun acc a => insert_by_key a acc) l [].

(** The requests [check_all] looks at, in scan order. *)
Definition scanned_requests (db : TrackerDB) : list FOIARequest :=
  flat_map (fun st => list_requests db None (Some st) None 10000 0) active_statuses.

Fixpoint collect_alerts (today : date) (requests : list FOIARequest) : list Alert :=
  match requests with
  | [] => []
  | req :: rest =>
      match _check_request today req with
      | Some alert => alert :: collect_alerts today rest
      | None => collect_alerts today rest
      end
  end.

Definition check_all (db : TrackerDB) (today : date) : list Alert :=
  let alerts := collect_alerts today (scanned_requests db) in
  sort_alerts alerts.

Definition check_overdue (db : TrackerDB) (today : date) : list Alert :=
  filter (fun a => match severity a with OVERDUE => true | _ => false end)
         (check_all db today).

Definition check_upcoming (db : TrackerDB) (today : date) (within_days : Z) : list Alert :=
  filter (fun a => match days_remaining a with
                   | Some d => (0 <? d) && (d <=? within_days)
                   | None => false
                   end)
         (check_all db today).

End Alerts.

Import Alerts.

(* ------------------------------------------------------------------ *)
(** * tracker/appeals.py *)
(* ------------------------------------------------------------------ *)

Module Appeals.

(** [x or 0] on a nullable integer column: [None] and [0] both give [0]. *)
Definition or_zero (x : option Z) : Z :=
  match x with
  | Some n => n
  | None => 0
  end.

(** [if s] on a nullable text column *)
Definition truthy (s : option string) : bool :=
  match truthy_str s with Some _ => true | None => false end.

(** [f"{s}"] for a nullable text column *)
Definition format_str (s : option string) : string :=
  match s with Some text => text | None => "None" end.

Definition _build_denial_details (req : FOIARequest) (today : date) : string :=
  if status_eqb (status req) DENIED && truthy (exemptions_cited req) then
    "The agency denied the request, citing the following "
    ++ "exemption(s): " ++ format_str (exemptions_cited req) ++ "."
  else if status_eqb (status req) PARTIAL_RESPONSE then
    let withheld := or_zero (pages_withheld req) in
    let received := or_zero (pages_received req) in
    let exs := if truthy (exemptions_cited req)
               then format_str (exemptions_cited req)
               else "not specified" in
    "The agency provided a partial response: " ++ str_of_int received
    ++ " pages " ++ "released, " ++ str_of_int withheld
    ++ " pages withheld. Exemptions cited: " ++ exs ++ "."
  else if is_overdue req today then
    "The agency has failed to respond within the statutory time "
    ++ "limit, which constitutes a constructive denial."
  else "The agency's response was inadequate or incomplete.".

Definition _determination_type (req : FOIARequest) (today : date) : string :=
  if status_eqb (status req) DENIED then "denial"
  else if status_eqb (status req) PARTIAL_RESPONSE then "partial denial"
  else if is_overdue req today then
    "constructive denial (failure to respond within statutory deadline)"
  else "adverse determination".

Definition _default_grounds (req : FOIARequest) (today : date) : string :=
  if truthy (exemptions_cited req) then
    "The exemption(s) cited (" ++ format_str (exemptions_cited req) ++ ") were "
    ++ "improperly applied. The records do not fall within the scope "
    ++ "of the cited exemption(s), or the agency has failed to "
    ++ "demonstrate the necessary harm that would result from disclosure."
  else if is_overdue req today then
    "The agency failed to respond within the statutory deadline. "
    ++ "This failure constitutes a constructive denial and entitles "
    ++ "the requester to appeal."
  else
    "The agency's response was inadequate. The request sought specific, "
    ++ "identifiable records, and the agency has not demonstrated a diligent "
    ++ "search or provided a sufficient justification for non-disclosure.".

End Appeals.

Import Appeals.

(* ------------------------------------------------------------------ *)
(** * analysis/response_parser.py *)
(* ------------------------------------------------------------------ *)

Module ResponseParser.

(** Structured data extracted from an agency response. *)
Record ParsedResponse : Type := mkParsed {
  determination : string;
  determination_text : string;
  pages_released : Z;
  pages_withheld_full : Z;
  pages_withheld_partial : Z;
  pages_referred : Z;
  documents_released : Z;
  documents_withheld : Z;
  exemptions : list string;
  exemption_details : Dict.dict string;
  fee_charged : option Q;
  parsed_fee_waiver_granted : option bool;
  parsed_assigned_analyst : string;
  tracking_number : string;
  response_date : string;
  appeal_deadline : string;
  appeal_address : string;
  raw_text : string
}.

(** ** The regular expressions of [_extract_exemptions]

    Each pattern is written out as the function that matches it at the start
    of a string and returns the text [re.findall] reports for the match (the
    whole match, or group 1 when the pattern has one) with the length of the
    whole match. None of the patterns can match the empty string, and in
    none of them can backtracking into a greedy repetition succeed, because
    what follows the repetition never matches what it repeats. *)

(** [\d] on a character below U+0100 *)
Definition is_digit (c : ascii) : bool :=
  let n := nat_of_ascii c in (48 <=? n)%nat && (n <=? 57)%nat.

(** [\s] on a character below U+0100 *)
Definition is_space (c : ascii) : bool :=
  let n := nat_of_ascii c in
  ((9 <=? n)%nat && (n <=? 13)%nat) || ((28 <=? n)%nat && (n <=? 32)%nat)
  || (n =? 133)%nat || (n =? 160)%nat.

(** A character class [lo-hi]; under [re.IGNORECASE] a letter of the other
    case matches as well. *)
Definition in_range (ignorecase : bool) (lo hi : ascii) (c : ascii) : bool :=
  let within x := ((nat_of_ascii lo <=? nat_of_ascii x)%nat
                   && (nat_of_ascii x <=? nat_of_ascii hi)%nat) in
  within c
  || (ignorecase
      && (within (lower_char c)
          || (is_ascii_upper lo && is_ascii_upper hi
              && ((nat_of_ascii lo + 32 <=? nat_of_ascii c)%nat
                  && (nat_of_ascii c <=? nat_of_ascii hi + 32)%nat)))).

(** A literal, case-sensitive or not; returns what is left of the input. *)
Fixpoint lit (ignorecase : bool) (p s : string) : option string :=
  match p with
  | EmptyString => Some s
  | String a p' =>
      match s with
      | EmptyString => None
      | String c s' =>
          if (if ignorecase then Ascii.eqb (lower_char a) (lower_char c)
              else Ascii.eqb a c)
          then lit ignorecase p' s'
          else None
      end
  end.

(** The longest run of white space at the start: its length and the rest. *)
Fixpoint spaces (s : string) : nat * string :=
  match s with
  | String c s' =>
      if is_space c then let '(n, r) := spaces s' in (S n, r) else (O, s)
  | EmptyString => (O, s)
  end.

(** [\s+] *)
Definition spaces1 (s : string) : option (nat * string) :=
  match spaces s with
  | (O, _) => None
  | (n, r) => Some (n, r)
  end.

(** [(?:\([A-F]\))?] at the start: the text it matched, if it matched. *)
Definition letter_group (ignorecase : bool) (s : string) : option string :=
  match s with
  | String "(" (String l (String ")" _)) =>
      if in_range ignorecase "A" "F" l
      then Some (String "(" (String l (String ")" EmptyString)))
      else None
  | _ => None
  end.

(** [\d(?:\([A-F]\))?] at the start: the text matched. *)
Definition digit_and_letter (ignorecase : bool) (s : string) : option string :=
  match s with
  | String d r =>
      if is_digit d then
        match letter_group ignorecase r with
        | Some g => Some (String d g)
        | None => Some (String d EmptyString)
        end
      else None
  | EmptyString => None
  end.

(** [\(b\)\(\d\)(?:\([A-F]\))?] *)
Definition match_b_citation (s : string) : option (string * nat) :=
  match lit false "(b)(" s with
  | Some (String d (String ")" r)) =>
      if is_digit d then
        let base := "(b)(" ++ String d ")" in
        match letter_group false r with
        | Some g => Some (base ++ g, 9%nat)
        | None => Some (base, 6%nat)
        end
      else None
  | _ => None
  end.

(** [Exemption\s+(\d(?:\([A-F]\))?)] under [re.IGNORECASE] *)
Definition match_exemption_n (s : string) : option (string * nat) :=
  match lit true "Exemption" s with
  | Some r =>
      match spaces1 r with
      | Some (n, r') =>
          match digit_and_letter true r' with
          | Some g => Some (g, (9 + n + String.length g)%nat)
          | None => None
          end
      | None => None
      end
  | None => None
  end.

(** [[Ss]ection] *)
Definition lit_section (s : string) : option string :=
  match s with
  | String c r =>
      if Ascii.eqb c "S" || Ascii.eqb c "s" then lit false "ection" r else None
  | EmptyString => None
  end.

(** [[Ss]ection\s+(\d{1,2})] *)
Definition match_uk_section (s : string) : option (string * nat) :=
  match lit_section s with
  | Some r =>
      match spaces1 r with
      | Some (n, String d1 r1) =>
          if is_digit d1 then
            match r1 with
            | String d2 _ =>
                if is_digit d2
                then Some (String d1 (String d2 EmptyString), (7 + n + 2)%nat)
                else Some (String d1 EmptyString, (7 + n + 1)%nat)
            | EmptyString => Some (String d1 EmptyString, (7 + n + 1)%nat)
            end
          else None
      | _ => None
      end
  | None => None
  end.

(** [[Ss]ection\s+8\(1\)\(([a-j])\)] *)
Definition match_india_section (s : string) : option (string * nat) :=
  match lit_section s with
  | Some r =>
      match spaces1 r with
      | Some (n, r1) =>
          match lit false "8(1)(" r1 with
          | Some (String l (String ")" _)) =>
              if in_range false "a" "j" l
              then Some (String l EmptyString, (7 + n + 7)%nat)
              else None
          | _ => None
          end
      | None => None
      end
  | None => None
  end.

(** [re.findall]: scan from the left; after a match the scan resumes behind
    it, otherwise one character further. [skip] counts the characters of the
    last match that are still to be passed over. *)
Fixpoint findall_from (m : string -> option (string * nat)) (s : string)
    (skip : nat) : list string :=
  match s with
  | EmptyString => []
  | String _ s' =>
      match skip with
      | S k => findall_from m s' k
      | O =>
          match m s with
          | Some (g, len) => g :: findall_from m s' (len - 1)
          | None => findall_from m s' 0
          end
      end
  end.

Definition findall (m : string -> option (string * nat)) (s : string) : list string :=
  findall_from m s 0.

(** [x in l] for a list of strings *)
Definition list_mem (x : string) (l : list string) : bool :=
  existsb (String.eqb x) l.

(** [set(l)]: the distinct elements (their order is settled by [sorted]). *)
Definition set_of (l : list string) : list string := nodup string_dec l.

(** [sorted(l)] on strings: ascending by code point. *)
Fixpoint insert_sorted (x : string) (l : list string) : list string :=
  match l with
  | [] => [x]
  | y :: l' => if (x <=? y)%string then x :: y :: l' else y :: insert_sorted x l'
  end.

Definition sorted (l : list string) : list string :=
  fold_right insert_sorted [] l.

Definition is_us_jurisdiction (jurisdiction : string) : bool :=
  (jurisdiction =? "US-Federal")%string || startswith jurisdiction "US-State".

Definition _extract_exemptions (text jurisdiction : string) : list string :=
  let exemptions : list string := [] in
  if is_us_jurisdiction jurisdiction then
    (* Match (b)(1) through (b)(9) style citations *)
    let matches := findall match_b_citation text in
    let exemptions := List.app exemptions (sorted (set_of matches)) in
    (* Also match "Exemption N" style *)
    fold_left
      (fun exemptions m =>
         let formatted := "(b)(" ++ m ++ ")" in
         if negb (list_mem formatted exemptions)
         then List.app exemptions [formatted]
         else exemptions)
      (findall match_exemption_n text) exemptions
  else if (jurisdiction =? "UK")%string then
    let matches := findall match_uk_section text in
    List.app exemptions (map (fun m => "Section " ++ m) (sorted (set_of matches)))
  else if (jurisdiction =? "India")%string then
    let matches := findall match_india_section text in
    List.app exemptions
      (map (fun m => "Section 8(1)(" ++ m ++ ")") (sorted (set_of matches)))
  else exemptions.

(** ** Detection of the determination and of the fee waiver *)

(** [any(phrase in s for phrase in phrases)] *)
Definition any_in (phrases : list string) (s : string) : bool :=
  existsb (fun phrase => str_in phrase s) phrases.

Definition _detect_determination (text : string) : string :=
  let lower := lower text in
  if any_in ["full grant"; "granted in full"; "fully granted";
             "releasing all"; "all responsive records"] lower
  then "full_grant"
  else if any_in ["partial grant"; "granted in part"; "partially granted";
                  "releasing portions"; "partial release";
                  "withheld in part"; "redacted"] lower
  then "partial_grant"
  else if any_in ["denied"; "denial"; "we are unable to"; "cannot release";
                  "refusing your request"; "exempt from disclosure"] lower
  then "denial"
  else if any_in ["no responsive records"; "no records responsive";
                  "no documents were located"; "no records located";
                  "no records found"] lower
  then "no_records"
  else "unknown".

Definition _detect_fee_waiver (text : string) : option bool :=
  let lower := lower text in
  if str_in "fee waiver" lower
     && any_in ["granted"; "approved"; "waived"] lower
  then Some true
  else if str_in "fee waiver" lower
          && any_in ["denied"; "rejected"; "not granted"] lower
  then Some false
  else None.

End ResponseParser.

Import ResponseParser.

(* ------------------------------------------------------------------ *)
(** * analysis/redaction_detector.py *)
(* ------------------------------------------------------------------ *)

Module RedactionDetector.

Local Open Scope Q_scope.

(** The [category] texts of the flags the detector raises. *)
Inductive Category : Type :=
| Excessive_Withholding          (* "Excessive Withholding" *)
| High_Withholding_Rate          (* "High Withholding Rate" *)
| Multiple_Exemptions            (* "Multiple Exemptions" *)
| Blanket_Denial                 (* "Blanket Denial" *)
| No_Partial_Releases            (* "No Partial Releases" *)
| Exemption_4_Trade_Secrets      (* "Exemption 4 - Trade Secrets" *)
| Exemption_5_Deliberative       (* "Exemption 5 - Deliberative Process" *)
| Exemption_7_Law_Enforcement    (* "Exemption 7 - Law Enforcement" *)
| No_Vaughn_Index                (* "No Vaughn Index" *)
| Section_43_Commercial          (* "Section 43 - Commercial Interests" *)
| Policy_Formulation_Exemption   (* "Policy Formulation Exemption" *)
| Section_8_1_d_Commercial       (* "Section 8(1)(d) - Commercial Confidence" *)
| Section_8_1_j_Personal         (* "Section 8(1)(j) - Personal Information" *)
| Other_Category (text : string).

(** A single suspicious finding in a FOIA response. The free texts
    [description] and [recommendation] are for the reader only and are left
    out. *)
Record RedactionFlag : Type := mkFlag {
  flag_severity : string;     (* "high", "medium", "low" *)
  category : Category;
  exemption : option string
}.

(** Complete analysis of redaction patterns in a response. *)
Record RedactionReport : Type := mkReport {
  flags : list RedactionFlag;
  risk_score : Q;             (* 0.0 to 1.0 *)
  summary : string;
  appeal_recommended : bool
}.

(** [RedactionReport()] *)
Definition new_report : RedactionReport := mkReport [] 0 "" false.

(** [weights.get(severity, 0.1)] with
    [weights = {"high": 0.4, "medium": 0.2, "low": 0.1}] *)
Definition weight (sev : string) : Q :=
  if (sev =? "high")%string then 4 # 10
  else if (sev =? "medium")%string then 2 # 10
  else if (sev =? "low")%string then 1 # 10
  else 1 # 10.

(** [sum(weights.get(f.severity, 0.1) for f in flags)] *)
Definition total_weight (fs : list RedactionFlag) : Q :=
  fold_left (fun acc f => acc + weight (flag_severity f)) fs 0.

(** [a >= b] on scores *)
Definition Qgeb (a b : Q) : bool := Qle_bool b a.
(** [a > b] on ratios *)
Definition Qgtb (a b : Q) : bool := negb (Qle_bool a b).

Definition _recalculate_score (self : RedactionReport) : RedactionReport :=
  match flags self with
  | [] => mkReport (flags self) 0 (summary self) (appeal_recommended self)
  | _ :: _ =>
      let total := total_weight (flags self) in
      let score := Qmin 1 total in
      mkReport (flags self) score (summary self) (Qgeb score (3 # 10))
  end.

Definition add_flag (self : RedactionReport) (flag : RedactionFlag) : RedactionReport :=
  let self := mkReport (List.app (flags self) [flag]) (risk_score self)
                       (summary self) (appeal_recommended self) in
  _recalculate_score self.

(** [_check_excessive_withholding]. The ratio is a float, and the
    description of the high-severity flag writes both page counts. *)
Definition _check_excessive_withholding (parsed : ParsedResponse)
    (report : RedactionReport) : result RedactionReport :=
  let total := (pages_released parsed + pages_withheld_full parsed)%Z in
  if (total =? 0)%Z then Ok report
  else
    bind (int_truediv (pages_withheld_full parsed) total) (fun withhold_ratio =>
    if Qgtb withhold_ratio (double 8 10) then
      bind (format_int (pages_withheld_full parsed)) (fun _ =>
      bind (format_int total) (fun _ =>
      Ok (add_flag report (mkFlag "high" Excessive_Withholding None))))
    else if Qgtb withhold_ratio (double 5 10) then
      Ok (add_flag report (mkFlag "medium" High_Withholding_Rate None))
    else Ok report).

Definition _check_exemption_patterns_us (parsed : ParsedResponse)
    (report : RedactionReport) : RedactionReport :=
  if (4 <=? List.length (exemptions parsed))%nat then
    add_flag report (mkFlag "medium" Multiple_Exemptions None)
  else report.

Definition _check_blanket_denial (parsed : ParsedResponse)
    (report : RedactionReport) : RedactionReport :=
  if (determination parsed =? "denial")%string && (pages_released parsed =? 0)%Z then
    add_flag report (mkFlag "high" Blanket_Denial None)
  else report.

Definition _check_segregability (parsed : ParsedResponse)
    (report : RedactionReport) : RedactionReport :=
  if (0 <? pages_withheld_full parsed)%Z && (pages_withheld_partial parsed =? 0)%Z then
    add_flag report (mkFlag "medium" No_Partial_Releases None)
  else report.

Definition _check_b4_overuse (parsed : ParsedResponse)
    (report : RedactionReport) : RedactionReport :=
  let b4_exemptions :=
    filter (fun e => str_in "(b)(4)" e || str_in "(4)" e) (exemptions parsed) in
  match b4_exemptions with
  | _ :: _ => add_flag report (mkFlag "low" Exemption_4_Trade_Secrets (Some "(b)(4)"%string))
  | [] => report
  end.

Definition _check_b5_overuse (parsed : ParsedResponse)
    (report : RedactionReport) : RedactionReport :=
  let b5_exemptions :=
    filter (fun e => str_in "(b)(5)" e || str_in "(5)" e) (exemptions parsed) in
  match b5_exemptions with
  | _ :: _ => add_flag report (mkFlag "medium" Exemption_5_Deliberative (Some "(b)(5)"%string))
  | [] => report
  end.

Definition _check_b7_misapplication (parsed : ParsedResponse)
    (report : RedactionReport) : RedactionReport :=
  let b7 :=
    filter (fun e => str_in "(b)(7)" e || str_in "(7)" e) (exemptions parsed) in
  match b7 with
  | _ :: _ => add_flag report (mkFlag "medium" Exemption_7_Law_Enforcement (Some "(b)(7)"%string))
  | [] => report
  end.

Definition _check_no_vaughn_index (parsed : ParsedResponse)
    (report : RedactionReport) : RedactionReport :=
  if (10 <? pages_withheld_full parsed)%Z
     && ((determination parsed =? "denial")%string
         || (determination parsed =? "partial_grant")%string)
     && negb (str_in "vaughn" (lower (raw_text parsed)))
  then add_flag report (mkFlag "low" No_Vaughn_Index None)
  else report.

Definition _check_uk_patterns (parsed : ParsedResponse)
    (report : RedactionReport) : RedactionReport :=
  fold_left
    (fun report exemption =>
       let report :=
         if str_in "43" exemption
         then add_flag report (mkFlag "medium" Section_43_Commercial (Some exemption))
         else report in
       if str_in "35" exemption || str_in "36" exemption
       then add_flag report (mkFlag "medium" Policy_Formulation_Exemption (Some exemption))
       else report)
    (exemptions parsed) report.

Definition _check_india_patterns (parsed : ParsedResponse)
    (report : RedactionReport) : RedactionReport :=
  fold_left
    (fun report exemption =>
       let report :=
         if str_in "8(1)(d)" exemption
         then add_flag report (mkFlag "medium" Section_8_1_d_Commercial (Some exemption))
         else report in
       if str_in "8(1)(j)" exemption
       then add_flag report (mkFlag "low" Section_8_1_j_Personal (Some exemption))
       else report)
    (exemptions parsed) report.

(** [sum(1 for f in flags if f.severity == sev)] *)
Definition count_severity (sev : string) (fs : list RedactionFlag) : Z :=
  Z.of_nat (List.length (filter (fun f => (flag_severity f =? sev)%string) fs)).

(** Rounding to the nearest integer, ties to even. *)
Definition round_half_even (q : Q) : Z :=
  let fl := (Qnum q / Z.pos (Qden q))%Z in
  let twice := (2 * (Qnum q - fl * Z.pos (Qden q)))%Z in   (* 2 * fractional part * den *)
  if (twice <? Z.pos (Qden q))%Z then fl
  else if (Z.pos (Qden q) <? twice)%Z then (fl + 1)%Z
  else if Z.even fl then fl else (fl + 1)%Z.

(** [f"{x:.0%}"] *)
Definition format_percent0 (x : Q) : string :=
  (str_of_int (round_half_even (x * 100)) ++ "%")%string.

Definition _generate_summary (report : RedactionReport) : string :=
  match flags report with
  | [] => "No suspicious patterns detected in the agency response."%string
  | _ :: _ =>
      let high := count_severity "high" (flags report) in
      let med := count_severity "medium" (flags report) in
      let low := count_severity "low" (flags report) in
      let parts := List.app
        (if (high =? 0)%Z then [] else [(str_of_int high ++ " high-severity")%string])
        (List.app
        (if (med =? 0)%Z then [] else [(str_of_int med ++ " medium-severity")%string])
        (if (low =? 0)%Z then [] else [(str_of_int low ++ " low-severity")%string])) in
      ("Detected " ++ join ", " parts ++ " issue(s). "
       ++ "Overall risk score: " ++ format_percent0 (risk_score report) ++ ". "
       ++ (if appeal_recommended report then "Appeal recommended." else "Monitor closely."))%string
  end.

Definition analyze (parsed : ParsedResponse) (jurisdiction : string)
    : result RedactionReport :=
  let report := new_report in
  bind
    (if is_us_jurisdiction jurisdiction then
       bind (_check_excessive_withholding parsed report) (fun report =>
       let report := _check_exemption_patterns_us parsed report in
       let report := _check_blanket_denial parsed report in
       let report := _check_segregability parsed report in
       let report := _check_b4_overuse parsed report in
       let report := _check_b5_overuse parsed report in
       let report := _check_b7_misapplication parsed report in
       Ok (_check_no_vaughn_index parsed report))
     else if (jurisdiction =? "UK")%string then
       bind (_check_excessive_withholding parsed report) (fun report =>
       Ok (_check_uk_patterns parsed report))
     else if (jurisdiction =? "India")%string then
       bind (_check_excessive_withholding parsed report) (fun report =>
       Ok (_check_india_patterns parsed report))
     else Ok report)
    (fun report =>
       Ok (mkReport (flags report) (risk_score report) (_generate_summary report)
                    (appeal_recommended report))).

End RedactionDetector.

Import RedactionDetector.

(* ------------------------------------------------------------------ *)
(** * Vocabulary of the specification *)
(* ------------------------------------------------------------------ *)

(** Terminal set for overdue purposes. *)
Definition terminal_statuses : list RequestStatus :=
  [COMPLETE; DENIED; WITHDRAWN; NO_RESPONSIVE_RECORDS].

(** Effective deadline: the extended deadline if one has been set, else the
    original deadline. *)
Definition effective_deadline (r : FOIARequest) : option date :=
  match extended_deadline r with
  | Some e => Some e
  | None => deadline r
  end.

(** Sample data: a request filed with the USDA on 2025-02-07 under the
    federal rule, due on 2025-03-10. *)
Definition d_2025_02_07 : date := mkdate 739289.
Definition d_2025_03_10 : date := mkdate 739320.
Definition d_2025_03_24 : date := mkdate 739334.

Definition sample_request : FOIARequest :=
  mkRequest 1 None "USDA-APHIS" None "US-Federal" "Inspection reports" 1000
            (Some d_2025_02_07) (Some d_2025_03_10) None None None None
            FILED (Some 0) (Some 0) (Some 0) None None None None None
            (Some true) None (Some "") None None (Some false) None None None.

Definition sample_db : TrackerDB :=
  [ sample_request;
    set_status COMPLETE (set_id 2 sample_request);
    set_extended_deadline (Some d_2025_03_24)
      (set_status EXTENDED (set_id 3 sample_request)) ].

Definition d_2025_03_08 : date := mkdate 739318.

(** Sample data: one request in each of the five active statuses, one draft
    and one completed request, all due on 2025-03-10. *)
Definition status_db : TrackerDB :=
  [ set_status FILED (set_id 1 sample_request);
    set_status ACKNOWLEDGED (set_id 2 sample_request);
    set_status PROCESSING (set_id 3 sample_request);
    set_status EXTENDED (set_id 4 sample_request);
    set_status APPEALED (set_id 5 sample_request);
    set_status DRAFT (set_id 6 sample_request);
    set_status COMPLETE (set_id 7 sample_request) ].

(** The calculator with the built-in rules: [DeadlineCalculator()]. *)
Definition default_calculator : DeadlineCalculator := new_calculator None.

(** A business day of a jurisdiction: neither a Saturday or Sunday nor a day
    satisfying its holiday predicate. *)
Definition is_business_day (holiday_fn : option (date -> bool)) (d : date) : bool :=
  negb (_is_weekend d) && negb (holiday_test holiday_fn d).

(** The number of business days among the [n] days that follow the day with
    ordinal [start]. *)
Fixpoint business_days_after (holiday_fn : option (date -> bool)) (start : Z)
    (n : nat) : Z :=
  match n with
  | O => 0
  | S k =>
      (if is_business_day holiday_fn (mkdate (start + 1)) then 1 else 0)
      + business_days_after holiday_fn (start + 1) k
  end.

(** The number of business days strictly after [a] and up to and including
    [b]. *)
Definition business_days_between (holiday_fn : option (date -> bool))
    (a b : date) : Z :=
  business_days_after holiday_fn (toordinal a) (Z.to_nat (toordinal b - toordinal a)).

Definition date_max : date := mkdate MAXORDINAL.   (* 9999-12-31 *)
Definition d_2025_03_19 : date := mkdate 739329.

(** The flags the citation rules of a jurisdiction raise on a fresh report. *)
Definition citation_flags (jurisdiction : string) (parsed : ParsedResponse)
    : list RedactionFlag :=
  if (jurisdiction =? "UK")%string
  then flags (_check_uk_patterns parsed new_report)
  else flags (_check_india_patterns parsed new_report).

(** A response with page counts only: nothing cited, nothing else found. *)
Definition pages_only (released withheld_full : Z) : ParsedResponse :=
  mkParsed "unknown" "" released withheld_full 0 0 0 0 [] [] None None
           "" "" "" "" "" "".

(* ------------------------------------------------------------------ *)
(** * Auxiliary definitions of the proofs *)
(* ------------------------------------------------------------------ *)

(** The keyword arguments that name the primary key or the creation time. *)
Definition names_identity (key : string) : bool :=
  (key =? "id")%string || (key =? "date_created")%string.

(** A rule that only ever adds flags: its flags extend the report's by a
    list that does not depend on the report, and a positive score stays
    positive. *)
Definition adds_flags (rule : RedactionReport -> RedactionReport) : Prop :=
  (forall r, flags (rule r) = List.app (flags r) (flags (rule new_report))) /\
  (forall r, (0 < risk_score r)%Q -> (0 < risk_score (rule r))%Q).

(** Ascending order of a list of strings, by code point. *)
Definition ascending (l : list string) : Prop :=
  Sorted (fun a b => (a <=? b)%string = true) l.

Definition strictly_ascending (l : list string) : Prop :=
  Sorted (fun a b => (a <? b)%string = true) l.

(** The normal form [_extract_exemptions] gives an "Exemption N" match. *)
Definition formatted (m : string) : string := ("(b)(" ++ m ++ ")")%string.



(** A holiday predicate that repeats with the calendar. *)
Definition cyclic (hol : option (date -> bool)) : Prop :=
  forall o, holiday_test hol (mkdate (o + _DI400Y)) = holiday_test hol (mkdate o).

(** The ordinals of the [n] days after [start]. *)
Fixpoint ordinals (start : Z) (n : nat) : list Z :=
  match n with
  | O => []
  | S k => (start + 1) :: ordinals (start + 1) k
  end.

(** The number of [true] among the first [width] flags. *)
Fixpoint count_true (width : nat) (l : list bool) : Z :=
  match width, l with
  | S w, b :: l' => (if b then 1 else 0) + count_true w l'
  | _, _ => 0
  end.

(** At least [need] of the first [width] flags are [true]. *)
Fixpoint at_least (need width : nat) (l : list bool) {struct width} : bool :=
  match need with
  | O => true
  | S k =>
      match width, l with
      | S w, b :: l' => if b then at_least k w l' else at_least need w l'
      | _, _ => false
      end
  end.

(** Every window of [width] flags that starts at one of the first [n]
    positions holds at least [need] times [true]. *)
Fixpoint windows (need width n : nat) (l : list bool) : bool :=
  match n with
  | O => true
  | S k => at_least need width l && windows need width k (tl l)
  end.

(** What a holiday rule looks at: month, day and weekday of an ordinal. *)
Definition month_day_weekday (o : Z) : Z * Z * Z :=
  let '(_, m, d) := _ord2ymd o in (m, d, (o + 6) mod 7).

(** The business-day test of a holiday rule on such a triple. *)
Definition business_by_rule (rule : Z -> Z -> Z -> bool) (x : Z * Z * Z) : bool :=
  let '(m, d, w) := x in negb (5 <=? w) && negb (rule m d w).

Definition no_holiday_rule (month day weekday : Z) : bool := false.

(** One [divmod] of [_ord2ymd], followed from one day to the next: the
    argument grows by one ([inc]) or falls back to zero; the flag returned
    tells whether the remainder grew by one or fell back to zero. *)
Definition bump (b : Z) (qr : Z * Z) (inc : bool) : Z * Z * bool :=
  if inc then
    let '(q, r) := qr in
    if r + 1 =? b then (q + 1, 0, false) else (q, r + 1, true)
  else (0, 0, false).

(** The quotients and remainders [_ord2ymd] and [weekday] take from the
    ordinal [n + 1]. *)
Record digits : Type := mkdigits {
  d400 : Z * Z; d100 : Z * Z; d4 : Z * Z; d1 : Z * Z; d7 : Z * Z }.

Definition digits_of (n : Z) : digits :=
  let a := divmod n _DI400Y in
  let b := divmod (snd a) _DI100Y in
  let c := divmod (snd b) _DI4Y in
  let d := divmod (snd c) 365 in
  mkdigits a b c d (divmod n 7).

(** The digits of the next day, without a division. *)
Definition next_digits (s : digits) : digits :=
  let '(a, i) := bump _DI400Y (d400 s) true in
  let '(b, i) := bump _DI100Y (d100 s) i in
  let '(c, i) := bump _DI4Y (d4 s) i in
  let '(d, _) := bump 365 (d1 s) i in
  let '(w, _) := bump 7 (d7 s) true in
  mkdigits a b c d w.

(** Month and day as [_ord2ymd] derives them from the digits. *)
Definition month_day_of_digits (s : digits) : Z * Z :=
  let n100 := fst (d100 s) in
  let n4 := fst (d4 s) in
  let '(n1, n) := d1 s in
  if (n1 =? 4) || (n100 =? 4) then (12, 31)
  else
    let leapyear := (n1 =? 3) && (negb (n4 =? 24) || (n100 =? 3)) in
    let month := Z.shiftr (n + 50) 5 in
    let preceding :=
      _DAYS_BEFORE_MONTH month + (if (2 <? month) && leapyear then 1 else 0) in
    if n <? preceding then
      let month := month - 1 in
      let preceding :=
        preceding
        - (_DAYS_IN_MONTH month + (if (month =? 2) && leapyear then 1 else 0)) in
      (month, n - preceding + 1)
    else (month, n - preceding + 1).

(** Month, day and weekday of [n] consecutive days, from the digits of the
    first. *)
Fixpoint table_from (s : digits) (n : nat) : list (Z * Z * Z) :=
  match n with
  | O => []
  | S k => (month_day_of_digits s, snd (d7 s)) :: table_from (next_digits s) k
  end.

(** One calendar cycle, with 40 days more for the last windows. *)
Definition cycle_table : list (Z * Z * Z) :=
  table_from (digits_of 0) (Z.to_nat _DI400Y + 40).

(** ** Definitions of the further properties *)

Definition sample_custom_rules : Dict.dict Rule :=
  [ ("UK", mkRule 25 "calendar" None 0 "calendar");
    ("US-State-IA", mkRule 10 "business" None 0 "business") ].

(** The rows the filters of [list_requests] let through. *)
Definition passes_filters (jurisdiction0 : option string)
    (status0 : option RequestStatus) (agency0 : option string)
    (r : FOIARequest) : Prop :=
  match jurisdiction0 with
  | Some (String c j) => jurisdiction r = String c j
  | _ => True
  end /\
  match status0 with
  | Some st => status r = st
  | None => True
  end /\
  match agency0 with
  | Some (String c a) => ilike (agency r) ("%" ++ String c a ++ "%") = true
  | _ => True
  end.

(** ASCII lower case of a string, as SQLite folds it. *)
Fixpoint sqlite_lower (s : string) : string :=
  match s with
  | EmptyString => EmptyString
  | String c s' => String (sqlite_lower_char c) (sqlite_lower s')
  end.

(** A filter text without the wildcards of LIKE. *)
Definition no_wildcard (a : string) : bool :=
  negb (str_in "%" a) && negb (str_in "_" a).

(** What [get_stats] enters for one status. *)
Definition status_entry (db : TrackerDB) (st : RequestStatus) : list (string * Z) :=
  if 0 <? count_status db st then [(status_value st, count_status db st)] else [].

(** The sum of the values of a dictionary. *)
Definition sum_values (d : Dict.dict Z) : Z := fold_right Z.add 0 (map snd d).

(** The non-NULL reference ids of the table, in row order. *)
Definition reference_ids (db : TrackerDB) : list string :=
  flat_map (fun r => match reference_id r with Some s => [s] | None => [] end) db.

(** The constraints of the table: the primary key is unique, and so is a
    reference id that is not NULL. *)
Definition keys_unique (db : TrackerDB) : Prop :=
  NoDup (map id db) /\ NoDup (reference_ids db).

(** [a.days_remaining or 0] *)
Definition days_or_zero (a : Alert) : Z :=
  match days_remaining a with Some d => d | None => 0 end.

(** The order [check_all] sorts by. *)
Definition key_le (a b : Alert) : Prop :=
  key_leb (sort_key a) (sort_key b) = true.

(** The place of a determination in the order [_detect_determination] tries
    them: a higher rank is tried earlier. *)
Definition determination_rank (determination : string) : Z :=
  if (determination =? "full_grant")%string then 4
  else if (determination =? "partial_grant")%string then 3
  else if (determination =? "denial")%string then 2
  else if (determination =? "no_records")%string then 1
  else 0.

(** A report whose score and recommendation are those of its flags. *)
Definition report_consistent (r : RedactionReport) : Prop :=
  risk_score r = Qmin 1 (total_weight (flags r)) /\
  appeal_recommended r = Qgeb (risk_score r) (3 # 10).

(** A detection rule: it leaves the report as it is or adds flags through
    [add_flag], each of them a flag with the property [P]. *)
Definition detection_rule (P : RedactionFlag -> Prop)
    (rule : RedactionReport -> RedactionReport) : Prop :=
  adds_flags rule /\
  (forall r, report_consistent r -> report_consistent (rule r)) /\
  (forall r, Forall P (flags r) -> Forall P (flags (rule r))).

(** The severities the detector uses. *)
Definition known_severity (f : RedactionFlag) : Prop :=
  In (flag_severity f) ["high"; "medium"; "low"].

(** The flag [_check_excessive_withholding] decides on, if it decides on
    one: the function without the report it changes. *)
Definition page_ratio_flag (parsed : ParsedResponse) : result (option RedactionFlag) :=
  let total := (pages_released parsed + pages_withheld_full parsed)%Z in
  if (total =? 0)%Z then Ok None
  else
    bind (int_truediv (pages_withheld_full parsed) total) (fun withhold_ratio =>
    if Qgtb withhold_ratio (double 8 10) then
      bind (format_int (pages_withheld_full parsed)) (fun _ =>
      bind (format_int total) (fun _ =>
      Ok (Some (mkFlag "high" Excessive_Withholding None))))
    else if Qgtb withhold_ratio (double 5 10) then
      Ok (Some (mkFlag "medium" High_Withholding_Rate None))
    else Ok None).

(** Adding the flag decided on, if any. *)
Definition add_optional_flag (o : option RedactionFlag) (report : RedactionReport)
    : RedactionReport :=
  match o with
  | Some f => add_flag report f
  | None => report
  end.

(** The two flags of the page-ratio rule, or none. *)
Definition page_ratio_choice (o : option RedactionFlag) : Prop :=
  o = None \/ o = Some (mkFlag "high" Excessive_Withholding None) \/
  o = Some (mkFlag "medium" High_Withholding_Rate None).

(** The rules [analyze] runs for a jurisdiction, as one rule, once the
    page-ratio rule has decided on [o]. *)
Definition rules_of (parsed : ParsedResponse) (jurisdiction : string)
    (o : option RedactionFlag) (report : RedactionReport) : RedactionReport :=
  if is_us_jurisdiction jurisdiction then
    _check_no_vaughn_index parsed
      (_check_b7_misapplication parsed
         (_check_b5_overuse parsed
            (_check_b4_overuse parsed
               (_check_segregability parsed
                  (_check_blanket_denial parsed
                     (_check_exemption_patterns_us parsed
                        (add_optional_flag o report)))))))
  else if (jurisdiction =? "UK")%string then
    _check_uk_patterns parsed (add_optional_flag o report)
  else if (jurisdiction =? "India")%string then
    _check_india_patterns parsed (add_optional_flag o report)
  else report.

(** Whether [analyze] runs the page-ratio rule for a jurisdiction. *)
Definition runs_page_ratio (jurisdiction : string) : bool :=
  is_us_jurisdiction jurisdiction || (jurisdiction =? "UK")%string
  || (jurisdiction =? "India")%string.

(** The categories of the flags [analyze] can raise for a jurisdiction. *)
Definition categories_of (jurisdiction : string) : list Category :=
  if is_us_jurisdiction jurisdiction then
    [Excessive_Withholding; High_Withholding_Rate; Multiple_Exemptions;
     Blanket_Denial; No_Partial_Releases; Exemption_4_Trade_Secrets;
     Exemption_5_Deliberative; Exemption_7_Law_Enforcement; No_Vaughn_Index]
  else if (jurisdiction =? "UK")%string then
    [Excessive_Withholding; High_Withholding_Rate; Section_43_Commercial;
     Policy_Formulation_Exemption]
  else if (jurisdiction =? "India")%string then
    [Excessive_Withholding; High_Withholding_Rate; Section_8_1_d_Commercial;
     Section_8_1_j_Personal]
  else [].

(* ------------------------------------------------------------------ *)
(** * Properties of the request tracker *)
(* ------------------------------------------------------------------ *)

Section TrackerFacts.

Lemma status_in_In (st : RequestStatus) (l : list RequestStatus) :
  status_in st l = true <-> In st l.
Proof.
  unfold status_in. rewrite existsb_exists. split.
  - intros (x & Hx & Heq). unfold status_eqb in Heq.
    destruct (RequestStatus_eq_dec st x); [subst; assumption | discriminate].
  - intros H. exists st. split; [assumption|].
    unfold status_eqb. destruct (RequestStatus_eq_dec st st); congruence.
Qed.

Lemma status_in_false (st : RequestStatus) (l : list RequestStatus) :
  status_in st l = false <-> ~ In st l.
Proof.
  rewrite <- status_in_In. destruct (status_in st l); split; congruence.
Qed.

Lemma or_date_effective (r : FOIARequest) :
  or_date (extended_deadline r) (deadline r) = effective_deadline r.
Proof. reflexivity. Qed.

(** [is_overdue] as a function of the status and the effective deadline. *)
Lemma is_overdue_unfold (r : FOIARequest) (today : date) :
  is_overdue r today =
  if status_in (status r) terminal_statuses then false
  else match effective_deadline r with
       | None => false
       | Some d => toordinal d <? toordinal today
       end.
Proof. reflexivity. Qed.

(** The WHERE clause of [get_overdue] selects the rows [is_overdue] accepts. *)
Lemma get_overdue_filter (db : TrackerDB) (today : date) :
  get_overdue db today = filter (fun x => is_overdue x today) db.
Proof.
  unfold get_overdue. apply filter_ext. intros r.
  rewrite is_overdue_unfold. unfold effective_deadline, terminal_statuses.
  destruct (status_in (status r) _); simpl; [reflexivity|].
  destruct (extended_deadline r) as [e|], (deadline r) as [d|]; simpl;
    unfold date_ltb;
    repeat match goal with |- context [?a <? ?b] => destruct (a <? b) end;
    reflexivity.
Qed.

Lemma session_get_id (db : TrackerDB) (i : Z) (r : FOIARequest) :
  session_get db i = Some r -> id r = i /\ In r db.
Proof.
  unfold session_get. intros H. apply find_some in H. destruct H as [Hin Hid].
  apply Z.eqb_eq in Hid. auto.
Qed.

Lemma session_get_write (db : TrackerDB) (i : Z) (r r' : FOIARequest) :
  session_get db i = Some r -> id r' = i ->
  session_get (session_write db i r') i = Some r'.
Proof.
  unfold session_get, session_write. induction db as [|x db IH]; simpl.
  - discriminate.
  - intros H Hid. destruct (id x =? i) eqn:E.
    + simpl. rewrite Hid, Z.eqb_refl. reflexivity.
    + simpl. rewrite E. apply IH; assumption.
Qed.

End TrackerFacts.

(** C1. For every tracked request, [is_overdue] is [False] when the status is
    one of COMPLETE, DENIED, WITHDRAWN, NO_RESPONSIVE_RECORDS, whatever the
    dates, and when the effective deadline is absent; otherwise it is [True]
    exactly when the effective deadline is strictly before today. The overdue
    query returns exactly the rows for which [is_overdue] is [True]. *)
Theorem is_overdue_and_get_overdue (r : FOIARequest) (today : date) (db : TrackerDB) :
  (In (status r) terminal_statuses -> is_overdue r today = false) /\
  (effective_deadline r = None -> is_overdue r today = false) /\
  (forall d, ~ In (status r) terminal_statuses -> effective_deadline r = Some d ->
     (is_overdue r today = true <-> toordinal d < toordinal today)) /\
  (forall x, In x (get_overdue db today) <-> In x db /\ is_overdue x today = true) /\
  get_overdue db today = filter (fun x => is_overdue x today) db.
Proof.
  repeat split.
  - intros H. rewrite is_overdue_unfold.
    apply status_in_In in H. rewrite H. reflexivity.
  - intros H. rewrite is_overdue_unfold, H.
    destruct (status_in _ _); reflexivity.
  - rewrite is_overdue_unfold. apply status_in_false in H. rewrite H, H0.
    apply Z.ltb_lt.
  - rewrite is_overdue_unfold. apply status_in_false in H. rewrite H, H0.
    apply Z.ltb_lt.
  - rewrite get_overdue_filter, filter_In in H. tauto.
  - rewrite get_overdue_filter, filter_In in H. tauto.
  - intros [H1 H2]. rewrite get_overdue_filter, filter_In. tauto.
  - apply get_overdue_filter.
Qed.

(** C2. With [extended_deadline] set, [is_overdue] and [days_until_deadline]
    are computed from it and do not depend on [deadline], also when the
    extended deadline is the later date; with [extended_deadline] absent they
    are computed from [deadline]. *)
Theorem extended_deadline_takes_precedence (r : FOIARequest) (today : date) :
  (forall e, extended_deadline r = Some e ->
     days_until_deadline r today = Some (toordinal e - toordinal today) /\
     is_overdue r today =
       (if status_in (status r) terminal_statuses then false
        else toordinal e <? toordinal today) /\
     forall d' : option date,
       is_overdue (set_deadline d' r) today = is_overdue r today /\
       days_until_deadline (set_deadline d' r) today = days_until_deadline r today) /\
  (extended_deadline r = None ->
     days_until_deadline r today =
       match deadline r with
       | Some d => Some (toordinal d - toordinal today)
       | None => None
       end /\
     is_overdue r today =
       (if status_in (status r) terminal_statuses then false
        else match deadline r with
             | Some d => toordinal d <? toordinal today
             | None => false
             end)).
Proof.
  split.
  - intros e He. repeat split.
    + unfold days_until_deadline. rewrite He. reflexivity.
    + rewrite is_overdue_unfold. unfold effective_deadline. rewrite He. reflexivity.
    + rewrite !is_overdue_unfold. unfold effective_deadline. simpl. rewrite He.
      reflexivity.
    + unfold days_until_deadline. simpl. rewrite He. reflexivity.
  - intros He. split.
    + unfold days_until_deadline. rewrite He. simpl.
      destruct (deadline r); reflexivity.
    + rewrite is_overdue_unfold. unfold effective_deadline. rewrite He. reflexivity.
Qed.

(** C5. For an existing request and whatever its prior status,
    [record_response] with an ID and counts in the range of the database's
    INTEGER type leaves the request PARTIAL_RESPONSE when
    [pages_withheld > 0] and COMPLETE when [pages_withheld == 0]; for an
    absent ID in that range it returns [None] and changes nothing. With an
    ID out of the range, or an existing ID and a count out of the range, the
    call raises [OverflowError]. *)
Theorem record_response_status (db : TrackerDB) (today : date) (request_id : Z)
    (docs pages_rcvd pages_wh : Z) (exemptions_txt summary_txt : string)
    (date_resp : option date) :
  (sqlite_integer request_id = true ->
   (forall r, get_request db request_id = Some r ->
      sqlite_integer docs = true -> sqlite_integer pages_rcvd = true ->
      sqlite_integer pages_wh = true ->
      exists r',
        record_response db today request_id docs pages_rcvd pages_wh
                        exemptions_txt summary_txt date_resp
        = Ok (session_write db request_id r', Some r') /\
        get_request (session_write db request_id r') request_id = Some r' /\
        (0 < pages_wh -> status r' = PARTIAL_RESPONSE) /\
        (pages_wh = 0 -> status r' = COMPLETE)) /\
   (get_request db request_id = None ->
      record_response db today request_id docs pages_rcvd pages_wh
                      exemptions_txt summary_txt date_resp
      = Ok (db, None))) /\
  (sqlite_integer request_id = false \/
   ((exists r, get_request db request_id = Some r) /\
    (sqlite_integer docs = false \/ sqlite_integer pages_rcvd = false \/
     sqlite_integer pages_wh = false)) ->
   record_response db today request_id docs pages_rcvd pages_wh
                   exemptions_txt summary_txt date_resp
   = Raise OverflowError).
Proof.
  split.
  - intros Hid. split.
    + intros r Hr Hd Hp Hw. unfold get_request in *. unfold record_response.
      rewrite Hid, Hr, Hd, Hp, Hw. cbn [negb andb].
      eexists. split; [reflexivity|]. split; [|split].
      * eapply session_get_write; [eassumption|].
        apply session_get_id in Hr. destruct Hr as [Hi _].
        destruct (0 <? pages_wh); simpl; exact Hi.
      * intros H. apply Z.ltb_lt in H. rewrite H. reflexivity.
      * intros ->. reflexivity.
    + intros Hr. unfold get_request in Hr. unfold record_response.
      rewrite Hid, Hr. reflexivity.
  - unfold get_request, record_response. intros [Hid|[[r Hr] Hc]].
    + rewrite Hid. reflexivity.
    + destruct (sqlite_integer request_id); cbn [negb]; [|reflexivity].
      rewrite Hr. cbv zeta.
      destruct Hc as [H|[H|H]]; rewrite H;
        repeat rewrite Bool.andb_false_r; reflexivity.
Qed.

Lemma is_overdue_and_get_overdue_witness :
  is_overdue (set_status DENIED sample_request) d_2025_03_24 = false /\
  is_overdue (set_deadline None sample_request) d_2025_03_24 = false /\
  (is_overdue sample_request d_2025_03_24 = true <->
   toordinal d_2025_03_10 < toordinal d_2025_03_24) /\
  (In sample_request (get_overdue sample_db d_2025_03_24) <->
   In sample_request sample_db /\ is_overdue sample_request d_2025_03_24 = true).
Proof.
  split; [|split; [|split]].
  - destruct (is_overdue_and_get_overdue (set_status DENIED sample_request)
                d_2025_03_24 sample_db) as (H & _).
    apply H. simpl. auto.
  - destruct (is_overdue_and_get_overdue (set_deadline None sample_request)
                d_2025_03_24 sample_db) as (_ & H & _).
    apply H. reflexivity.
  - destruct (is_overdue_and_get_overdue sample_request d_2025_03_24 sample_db)
      as (_ & _ & H & _).
    apply H.
    + simpl. intros [E|[E|[E|[E|[]]]]]; discriminate E.
    + reflexivity.
  - destruct (is_overdue_and_get_overdue sample_request d_2025_03_24 sample_db)
      as (_ & _ & _ & H & _).
    apply H.
Defined.

Lemma extended_deadline_takes_precedence_witness :
  days_until_deadline
    (set_extended_deadline (Some d_2025_03_24) sample_request) d_2025_03_10
  = Some 14 /\
  days_until_deadline sample_request d_2025_02_07 = Some 31.
Proof.
  split.
  - destruct (extended_deadline_takes_precedence
                (set_extended_deadline (Some d_2025_03_24) sample_request)
                d_2025_03_10) as (H & _).
    destruct (H d_2025_03_24 eq_refl) as (H1 & _). exact H1.
  - destruct (extended_deadline_takes_precedence sample_request d_2025_02_07)
      as (_ & H).
    destruct (H eq_refl) as (H1 & _). exact H1.
Defined.

Lemma record_response_status_witness :
  (exists r',
     record_response sample_db d_2025_03_10 1 5 100 20 "(b)(4), (b)(6)" "" None
     = Ok (session_write sample_db 1 r', Some r') /\
     get_request (session_write sample_db 1 r') 1 = Some r' /\
     (0 < 20 -> status r' = PARTIAL_RESPONSE) /\
     (20 = 0 -> status r' = COMPLETE)) /\
  record_response sample_db d_2025_03_10 9 5 100 20 "" "" None
  = Ok (sample_db, None) /\
  record_response sample_db d_2025_03_10 1 5 100 (-9223372036854775809) "" "" None
  = Raise OverflowError.
Proof.
  split; [|split].
  - destruct (record_response_status sample_db d_2025_03_10 1 5 100 20
                "(b)(4), (b)(6)" "" None) as ((H & _) & _); [reflexivity|].
    apply (H sample_request); reflexivity.
  - destruct (record_response_status sample_db d_2025_03_10 9 5 100 20 "" "" None)
      as ((_ & H) & _); [reflexivity|].
    apply H. reflexivity.
  - destruct (record_response_status sample_db d_2025_03_10 1 5 100
                (-9223372036854775809) "" "" None) as (_ & H).
    apply H. right. split; [exists sample_request; reflexivity|].
    right. right. reflexivity.
Defined.

(** C5 as stated fails: when more pages are withheld than an
    INTEGER column holds, the commit fails and the request keeps the status
    it had. *)
Lemma record_response_overflow :
  get_request sample_db 1 = Some sample_request /\
  0 < 9223372036854775808 /\
  record_response sample_db d_2025_03_10 1 0 0 9223372036854775808 "" "" None
  = Raise OverflowError /\
  ~ (exists db' r',
       record_response sample_db d_2025_03_10 1 0 0 9223372036854775808 "" "" None
       = Ok (db', Some r') /\ status r' = PARTIAL_RESPONSE) /\
  status sample_request = FILED.
Proof.
  split; [reflexivity|]. split; [lia|]. split; [reflexivity|].
  split; [|reflexivity].
  intros (db' & r' & H & _). discriminate H.
Qed.

Section UpdateStatusFacts.

Lemma setattr_keeps_identity (req req' : FOIARequest) (key : string) (val : pyval) :
  names_identity key = false ->
  setattr_if_hasattr req key val = inl req' ->
  id req' = id req /\ date_created req' = date_created req.
Proof.
  unfold names_identity. intros Hk H.
  apply Bool.orb_false_iff in Hk. destruct Hk as [Hid Hdc].
  unfold setattr_if_hasattr in H. rewrite Hid, Hdc in H.
  repeat match type of H with
         | (if ?c then _ else _) = _ => destruct c
         end;
    destruct val; simpl in H; inversion H; subst; simpl; auto.
Qed.

Lemma setattr_fold_error (kwargs : list (string * pyval)) (e : exn) (req' : FOIARequest) :
  fold_left (fun acc kv => bind acc (fun r => setattr_if_hasattr r (fst kv) (snd kv)))
            kwargs (inr e) = inl req' -> False.
Proof.
  induction kwargs as [|kv kwargs IH]; simpl; [discriminate | exact IH].
Qed.

Lemma setattr_fold_keeps_identity (kwargs : list (string * pyval)) :
  forall req req',
    (forall kv, In kv kwargs -> names_identity (fst kv) = false) ->
    fold_left (fun acc kv => bind acc (fun r => setattr_if_hasattr r (fst kv) (snd kv)))
              kwargs (Ok req) = inl req' ->
    id req' = id req /\ date_created req' = date_created req.
Proof.
  induction kwargs as [|kv kwargs IH]; intros req req' Hk H; simpl in H.
  - inversion H. auto.
  - destruct (setattr_if_hasattr req (fst kv) (snd kv)) as [req1|e] eqn:E.
    + apply setattr_keeps_identity in E; [|apply Hk; left; reflexivity].
      apply IH in H; [|intros; apply Hk; right; assumption].
      destruct E as [E1 E2], H as [H1 H2]. split; congruence.
    + exfalso. eapply setattr_fold_error. exact H.
Qed.

End UpdateStatusFacts.

(** C9, as the code has it. For an existing request, every target status and
    every set of extra field updates that names neither [id] nor
    [date_created], a call of [update_status] that succeeds leaves the
    request's ID and creation time unchanged, and the request is still found
    under its ID. *)
Theorem update_status_keeps_identity (db db' : TrackerDB) (request_id : Z)
    (new_status : RequestStatus) (kwargs : list (string * pyval))
    (r r' : FOIARequest) :
  get_request db request_id = Some r ->
  (forall kv, In kv kwargs -> names_identity (fst kv) = false) ->
  update_status db request_id new_status kwargs = inl (db', Some r') ->
  id r' = id r /\ date_created r' = date_created r /\
  get_request db' request_id = Some r'.
Proof.
  unfold get_request, update_status. intros Hr Hk H.
  destruct (existsb _ kwargs); [discriminate|].
  rewrite Hr in H. unfold bind in H.
  destruct (fold_left _ kwargs _) as [req2|e] eqn:E; [|discriminate].
  destruct (flush_ok db request_id req2); [|discriminate].
  inversion H; subst; clear H.
  apply setattr_fold_keeps_identity in E; [|assumption].
  simpl in E. destruct E as [E1 E2].
  split; [assumption|]. split; [assumption|].
  eapply session_get_write; [eassumption|].
  apply session_get_id in Hr. destruct Hr as [Hid _]. congruence.
Qed.

Lemma update_status_keeps_identity_witness :
  exists db' r',
    update_status sample_db 1 ACKNOWLEDGED
                  [("date_acknowledged", PyDate d_2025_03_10); ("priority", PyInt 3)]
    = inl (db', Some r') /\
    id r' = id sample_request /\ date_created r' = date_created sample_request /\
    get_request db' 1 = Some r'.
Proof.
  eexists. eexists. split; [reflexivity|].
  apply (update_status_keeps_identity sample_db _ 1 ACKNOWLEDGED
           [("date_acknowledged", PyDate d_2025_03_10); ("priority", PyInt 3)]
           sample_request).
  - reflexivity.
  - intros kv [<-|[<-|[]]]; reflexivity.
  - reflexivity.
Defined.

(** C9 as stated fails: a keyword argument [date_created] (or [id]) is
    assigned like any other column, so the creation time (and the ID) of an
    existing request changes. *)
Lemma update_status_changes_identity :
  (exists db' r',
     update_status sample_db 1 FILED [("date_created", PyDateTime 2000)]
     = Ok (db', Some r') /\
     date_created sample_request = 1000 /\ date_created r' = 2000) /\
  (exists db' r',
     update_status sample_db 1 FILED [("id", PyInt 77)] = Ok (db', Some r') /\
     id sample_request = 1 /\ id r' = 77) /\
  ~ (forall (db db' : TrackerDB) (request_id : Z) (new_status : RequestStatus)
            (kwargs : list (string * pyval)) (r r' : FOIARequest),
       get_request db request_id = Some r ->
       update_status db request_id new_status kwargs = inl (db', Some r') ->
       id r' = id r /\ date_created r' = date_created r).
Proof.
  split; [|split].
  - eexists. eexists. split; [reflexivity|]. split; reflexivity.
  - eexists. eexists. split; [reflexivity|]. split; reflexivity.
  - intros H.
    specialize (H sample_db
                  (session_write sample_db 1
                     (set_date_created 2000 (set_status FILED sample_request)))
                  1 FILED [("date_created", PyDateTime 2000)]
                  sample_request
                  (set_date_created 2000 (set_status FILED sample_request))
                  eq_refl eq_refl).
    destruct H as [_ H]. simpl in H. discriminate H.
Qed.

(* ------------------------------------------------------------------ *)
(** * Properties of the alert engine *)
(* ------------------------------------------------------------------ *)

Section AlertFacts.

Lemma insert_by_key_perm (a : Alert) (l : list Alert) :
  Permutation (insert_by_key a l) (a :: l).
Proof.
  induction l as [|x l IH]; simpl.
  - apply Permutation_refl.
  - destruct (key_leb (sort_key x) (sort_key a)).
    + eapply perm_trans; [apply perm_skip, IH | apply perm_swap].
    + apply Permutation_refl.
Qed.

Lemma sort_alerts_perm (l : list Alert) : Permutation (sort_alerts l) l.
Proof.
  unfold sort_alerts.
  assert (G : forall acc,
             Permutation (fold_left (fun acc a => insert_by_key a acc) l acc)
                         (List.app l acc)).
  { induction l as [|x l IH]; intros acc; simpl.
    - apply Permutation_refl.
    - eapply perm_trans; [apply IH|].
      eapply perm_trans;
        [apply Permutation_app_head, insert_by_key_perm | ].
      apply Permutation_sym, Permutation_middle. }
  specialize (G []). rewrite app_nil_r in G. exact G.
Qed.

Lemma collect_alerts_In (today : date) (l : list FOIARequest) (a : Alert) :
  In a (collect_alerts today l) <->
  exists r, In r l /\ _check_request today r = Some a.
Proof.
  induction l as [|x l IH]; simpl.
  - split; [intros [] | intros (r & [] & _)].
  - destruct (_check_request today x) as [b|] eqn:E; simpl; rewrite IH; split.
    + intros [<-|(r & Hr & Hc)]; [exists x; auto | exists r; auto].
    + intros (r & [<-|Hr] & Hc); [left; congruence | right; exists r; auto].
    + intros (r & Hr & Hc). exists r; auto.
    + intros (r & [<-|Hr] & Hc); [congruence | exists r; auto].
Qed.

Lemma insert_created_desc_perm (r : FOIARequest) (l : list FOIARequest) :
  Permutation (insert_created_desc r l) (r :: l).
Proof.
  induction l as [|x l IH]; simpl.
  - apply Permutation_refl.
  - destruct (date_created x <=? date_created r).
    + apply Permutation_refl.
    + eapply perm_trans; [apply perm_skip, IH | apply perm_swap].
Qed.

Lemma order_by_created_desc_perm (l : list FOIARequest) :
  Permutation (order_by_created_desc l) l.
Proof.
  induction l as [|x l IH]; simpl.
  - apply Permutation_refl.
  - eapply perm_trans; [apply insert_created_desc_perm | apply perm_skip, IH].
Qed.

Lemma In_firstn {A : Type} (n : nat) (l : list A) (x : A) :
  In x (firstn n l) -> In x l.
Proof.
  intros H. rewrite <- (firstn_skipn n l). apply in_or_app. left. exact H.
Qed.

Lemma In_skipn {A : Type} (n : nat) (l : list A) (x : A) :
  In x (skipn n l) -> In x l.
Proof.
  intros H. rewrite <- (firstn_skipn n l). apply in_or_app. right. exact H.
Qed.

(** What [list_requests(status=st, limit=n)] returns: rows of the table with
    that status, and all of them when there are at most [n]. *)
Lemma list_requests_by_status (db : TrackerDB) (st : RequestStatus) (n : nat)
    (r : FOIARequest) :
  (In r (list_requests db None (Some st) None n 0) -> In r db /\ status r = st) /\
  ((List.length (filter (fun x => status_eqb (status x) st) db) <= n)%nat ->
   In r db -> status r = st ->
   In r (list_requests db None (Some st) None n 0)).
Proof.
  unfold list_requests. simpl. split.
  - intros H. apply In_firstn in H.
    apply (Permutation_in _ (order_by_created_desc_perm _)) in H.
    apply filter_In in H. destruct H as [Hin Hst]. split; [assumption|].
    unfold status_eqb in Hst.
    destruct (RequestStatus_eq_dec (status r) st); [assumption | discriminate].
  - intros Hlen Hin Hst.
    rewrite firstn_all2.
    + apply (Permutation_in _ (Permutation_sym (order_by_created_desc_perm _))).
      apply filter_In. split; [assumption|].
      unfold status_eqb. destruct (RequestStatus_eq_dec (status r) st); congruence.
    + rewrite (Permutation_length (order_by_created_desc_perm _)). exact Hlen.
Qed.

Lemma scanned_requests_In (db : TrackerDB) (r : FOIARequest) :
  In r (scanned_requests db) <->
  exists st, In st active_statuses /\
             In r (list_requests db None (Some st) None 10000 0).
Proof. unfold scanned_requests. apply in_flat_map. Qed.

(** The outcome of [_check_request] in terms of the days left. *)
Lemma check_request_cases (today : date) (r : FOIARequest) :
  match effective_deadline r with
  | None => _check_request today r = None
  | Some d =>
      let n := toordinal d - toordinal today in
      if n <=? 10 then
        exists a, _check_request today r = Some a /\
                  request_id a = id r /\ days_remaining a = Some n /\
                  alert_deadline a = Some d /\
                  severity a = (if n <? 0 then OVERDUE
                                else if n <=? 2 then URGENT
                                else if n <=? 5 then WARNING
                                else INFO)
      else _check_request today r = None
  end.
Proof.
  unfold _check_request, days_until_deadline.
  rewrite or_date_effective. destruct (effective_deadline r) as [d|]; [|reflexivity].
  unfold date_sub_days. cbv zeta.
  set (n := toordinal d - toordinal today). simpl THRESHOLDS.
  destruct (n <? 0) eqn:E0.
  - assert (E10 : (n <=? 10) = true) by (apply Z.ltb_lt in E0; apply Z.leb_le; lia).
    rewrite E10. eexists. split; [reflexivity|]. simpl. auto.
  - destruct (n <=? 2) eqn:E2.
    + assert (E10 : (n <=? 10) = true) by (apply Z.leb_le in E2; apply Z.leb_le; lia).
      rewrite E10. eexists. split; [reflexivity|]. simpl. auto.
    + destruct (n <=? 5) eqn:E5.
      * assert (E10 : (n <=? 10) = true) by (apply Z.leb_le in E5; apply Z.leb_le; lia).
        rewrite E10. eexists. split; [reflexivity|]. simpl. auto.
      * destruct (n <=? 10) eqn:E10.
        -- eexists. split; [reflexivity|]. simpl. auto.
        -- reflexivity.
Qed.

End AlertFacts.

(** C4. An alert is in the result of [check_all] exactly when it is the alert
    of a scanned request; the scanned requests are rows whose status is
    FILED, ACKNOWLEDGED, PROCESSING, EXTENDED or APPEALED (all such rows,
    unless one status has more than 10000 rows) and no row of another
    status; a request gets an alert if and only if its effective deadline is
    defined and the days remaining are at most 10; the severity is OVERDUE
    below 0, URGENT from 0 to 2, WARNING from 3 to 5 and INFO from 6 to 10. *)
Theorem check_all_alerts (db : TrackerDB) (today : date) :
  (forall a, In a (check_all db today) <->
             exists r, In r (scanned_requests db) /\ _check_request today r = Some a) /\
  (forall r, In r (scanned_requests db) ->
             In r db /\
             (status r = FILED \/ status r = ACKNOWLEDGED \/ status r = PROCESSING \/
              status r = EXTENDED \/ status r = APPEALED)) /\
  (forall r, In r db ->
             status r = FILED \/ status r = ACKNOWLEDGED \/ status r = PROCESSING \/
             status r = EXTENDED \/ status r = APPEALED ->
             (List.length (filter (fun x => status_eqb (status x) (status r)) db)
              <= 10000)%nat ->
             In r (scanned_requests db)) /\
  (forall r, (exists a, _check_request today r = Some a) <->
             (exists d, effective_deadline r = Some d /\
                        toordinal d - toordinal today <= 10)) /\
  (forall r a, _check_request today r = Some a ->
     exists d n,
       effective_deadline r = Some d /\ n = toordinal d - toordinal today /\
       days_until_deadline r today = Some n /\
       request_id a = id r /\ days_remaining a = Some n /\
       alert_deadline a = Some d /\
       (n < 0 -> severity a = OVERDUE) /\
       (0 <= n <= 2 -> severity a = URGENT) /\
       (3 <= n <= 5 -> severity a = WARNING) /\
       (6 <= n <= 10 -> severity a = INFO)).
Proof.
  split; [|split; [|split; [|split]]].
  - intros a. unfold check_all.
    rewrite <- collect_alerts_In. split; intros H.
    + apply (Permutation_in _ (sort_alerts_perm _)). exact H.
    + apply (Permutation_in _ (Permutation_sym (sort_alerts_perm _))). exact H.
  - intros r H. apply scanned_requests_In in H. destruct H as (st & Hst & H).
    apply list_requests_by_status in H. destruct H as [Hin Heq].
    split; [assumption|]. rewrite Heq. unfold active_statuses in Hst.
    cbn [In] in Hst. intuition auto.
  - intros r Hin Hst Hlen. apply scanned_requests_In.
    exists (status r). split.
    + unfold active_statuses. cbn [In]. intuition auto.
    + apply list_requests_by_status; auto.
  - intros r. pose proof (check_request_cases today r) as C.
    destruct (effective_deadline r) as [d|].
    + cbv zeta in C. destruct (toordinal d - toordinal today <=? 10) eqn:E.
      * destruct C as (a & Ha & _). apply Z.leb_le in E. split.
        -- intros _. exists d. auto.
        -- intros _. exists a. exact Ha.
      * apply Z.leb_gt in E. split.
        -- intros (a & Ha). congruence.
        -- intros (d' & Hd & Hn). inversion Hd; subst. lia.
    + split.
      * intros (a & Ha). congruence.
      * intros (d & Hd & _). discriminate.
  - intros r a Ha. pose proof (check_request_cases today r) as C.
    destruct (effective_deadline r) as [d|] eqn:Ed; [|congruence].
    cbv zeta in C. destruct (toordinal d - toordinal today <=? 10) eqn:E;
      [|congruence].
    destruct C as (a' & Ha' & Hid & Hdays & Hdl & Hsev).
    assert (a' = a) by congruence. subst a'.
    exists d, (toordinal d - toordinal today).
    split; [reflexivity|]. split; [reflexivity|].
    split.
    { unfold days_until_deadline. rewrite or_date_effective, Ed. reflexivity. }
    split; [assumption|]. split; [assumption|]. split; [assumption|].
    apply Z.leb_le in E. rewrite Hsev.
    repeat split; intros Hn.
    + apply Z.ltb_lt in Hn. rewrite Hn. reflexivity.
    + destruct Hn as [Hn1 Hn2].
      assert (X : (toordinal d - toordinal today <? 0) = false) by (apply Z.ltb_ge; lia).
      rewrite X. apply Z.leb_le in Hn2. rewrite Hn2. reflexivity.
    + destruct Hn as [Hn1 Hn2].
      assert (X : (toordinal d - toordinal today <? 0) = false) by (apply Z.ltb_ge; lia).
      assert (Y : (toordinal d - toordinal today <=? 2) = false) by (apply Z.leb_gt; lia).
      rewrite X, Y. apply Z.leb_le in Hn2. rewrite Hn2. reflexivity.
    + destruct Hn as [Hn1 Hn2].
      assert (X : (toordinal d - toordinal today <? 0) = false) by (apply Z.ltb_ge; lia).
      assert (Y : (toordinal d - toordinal today <=? 2) = false) by (apply Z.leb_gt; lia).
      assert (W : (toordinal d - toordinal today <=? 5) = false) by (apply Z.leb_gt; lia).
      rewrite X, Y, W. reflexivity.
Qed.

Lemma check_all_alerts_witness :
  (forall i, In i [1; 2; 3; 4; 5] ->
     exists a, In a (check_all status_db d_2025_03_08) /\
               request_id a = i /\ severity a = URGENT) /\
  (forall a, In a (check_all status_db d_2025_03_08) ->
             request_id a <> 6 /\ request_id a <> 7).
Proof.
  destruct (check_all_alerts status_db d_2025_03_08) as (H1 & H2 & H3 & H4 & H5).
  assert (Hrow : forall r, In r status_db -> In r (scanned_requests status_db) ->
                 exists a, In a (check_all status_db d_2025_03_08) /\
                           request_id a = id r /\ severity a = URGENT).
  { intros r Hin Hscan.
    assert (Hd : effective_deadline r = Some d_2025_03_10).
    { cbn [status_db In] in Hin.
      repeat (destruct Hin as [<-|Hin]; [reflexivity|]). contradiction. }
    destruct (proj2 (H4 r)) as (a & Ha).
    { exists d_2025_03_10. split; [exact Hd | simpl; lia]. }
    exists a. split; [apply H1; exists r; split; assumption|].
    destruct (H5 _ _ Ha) as (d & n & Hd' & Hn & _ & Hid & _ & _ & _ & Hu & _).
    split; [exact Hid|]. apply Hu. rewrite Hd in Hd'. inversion Hd'; subst.
    simpl. lia. }
  split.
  - intros i Hi. cbn [In] in Hi.
    destruct Hi as [<-|[<-|[<-|[<-|[<-|[]]]]]].
    + apply (Hrow (set_status FILED (set_id 1 sample_request))); [simpl; auto|].
      apply H3; [simpl; auto | simpl; auto | apply Nat.leb_le; vm_compute; reflexivity].
    + apply (Hrow (set_status ACKNOWLEDGED (set_id 2 sample_request))); [simpl; auto|].
      apply H3; [simpl; auto | simpl; auto | apply Nat.leb_le; vm_compute; reflexivity].
    + apply (Hrow (set_status PROCESSING (set_id 3 sample_request))); [simpl; auto|].
      apply H3; [simpl; auto | simpl; auto | apply Nat.leb_le; vm_compute; reflexivity].
    + apply (Hrow (set_status EXTENDED (set_id 4 sample_request))); [simpl; auto 6|].
      apply H3; [simpl; auto 6 | simpl; auto | apply Nat.leb_le; vm_compute; reflexivity].
    + apply (Hrow (set_status APPEALED (set_id 5 sample_request))); [simpl; auto 6|].
      apply H3; [simpl; auto 6 | simpl; auto 6 | apply Nat.leb_le; vm_compute; reflexivity].
  - intros a Ha. apply H1 in Ha. destruct Ha as (r & Hscan & Ha).
    destruct (H2 r Hscan) as [Hin Hst].
    destruct (H5 _ _ Ha) as (d & n & _ & _ & _ & Hid & _).
    rewrite Hid. cbn [status_db In] in Hin.
    repeat (destruct Hin as [<-|Hin];
            [cbn in Hst |- *; split; try discriminate;
             intuition discriminate|]).
    contradiction.
Defined.

(* ------------------------------------------------------------------ *)
(** * Properties of the redaction report *)
(* ------------------------------------------------------------------ *)

Section ScoreFacts.

Local Open Scope Q_scope.

Lemma weight_pos (sev : string) : 0 < weight sev.
Proof.
  unfold weight.
  destruct (sev =? "high")%string; [reflexivity|].
  destruct (sev =? "medium")%string; [reflexivity|].
  destruct (sev =? "low")%string; reflexivity.
Qed.

Lemma total_weight_snoc (fs : list RedactionFlag) (f : RedactionFlag) :
  total_weight (List.app fs [f]) = total_weight fs + weight (flag_severity f).
Proof. unfold total_weight. rewrite fold_left_app. reflexivity. Qed.

Lemma total_weight_nonneg (fs : list RedactionFlag) : 0 <= total_weight fs.
Proof.
  induction fs as [|f fs IH] using rev_ind.
  - unfold total_weight. simpl. apply Qle_refl.
  - rewrite total_weight_snoc.
    apply Qle_trans with (0 + 0); [rewrite Qplus_0_r; apply Qle_refl|].
    apply Qplus_le_compat; [exact IH | apply Qlt_le_weak, weight_pos].
Qed.

Lemma total_weight_snoc_le (fs : list RedactionFlag) (f : RedactionFlag) :
  total_weight fs <= total_weight (List.app fs [f]).
Proof.
  rewrite total_weight_snoc.
  rewrite <- (Qplus_0_r (total_weight fs)) at 1.
  apply Qplus_le_compat; [apply Qle_refl | apply Qlt_le_weak, weight_pos].
Qed.

(** The report [add_flag] returns. *)
Lemma add_flag_unfold (r : RedactionReport) (f : RedactionFlag) :
  add_flag r f =
  mkReport (List.app (flags r) [f])
           (Qmin 1 (total_weight (List.app (flags r) [f])))
           (summary r)
           (Qgeb (Qmin 1 (total_weight (List.app (flags r) [f]))) (3 # 10)).
Proof.
  unfold add_flag, _recalculate_score. simpl.
  destruct (List.app (flags r) [f]) eqn:E; [|reflexivity].
  destruct (flags r); discriminate E.
Qed.

Lemma add_flag_flags (r : RedactionReport) (f : RedactionFlag) :
  flags (add_flag r f) = List.app (flags r) [f].
Proof. rewrite add_flag_unfold. reflexivity. Qed.

Lemma add_flags_flags (fs : list RedactionFlag) :
  forall r, flags (fold_left add_flag fs r) = List.app (flags r) fs.
Proof.
  induction fs as [|f fs IH]; intros r; simpl.
  - rewrite app_nil_r. reflexivity.
  - rewrite IH, add_flag_flags, <- app_assoc. reflexivity.
Qed.

Lemma capped_score_bounds (t : Q) : 0 <= t -> 0 <= Qmin 1 t /\ Qmin 1 t <= 1.
Proof.
  intros Ht. split.
  - apply Q.min_glb; [discriminate | exact Ht].
  - apply Q.le_min_l.
Qed.

Lemma add_flag_score_pos (r : RedactionReport) (f : RedactionFlag) :
  0 < risk_score (add_flag r f).
Proof.
  rewrite add_flag_unfold. simpl. rewrite total_weight_snoc.
  apply Q.min_glb_lt; [reflexivity|].
  apply Qlt_le_trans with (0 + weight (flag_severity f)).
  - rewrite Qplus_0_l. apply weight_pos.
  - apply Qplus_le_compat; [apply total_weight_nonneg | apply Qle_refl].
Qed.

End ScoreFacts.

(** C6. After each [add_flag], on any report and after any earlier
    additions, the risk score is the minimum of 1.0 and the sum over all
    flags of the weights (high 0.4, medium 0.2, low 0.1, anything else 0.1);
    it lies in [0, 1]; it does not decrease when a further flag is added (nor
    from a fresh report to the first flag); and [appeal_recommended] is [True]
    exactly when the score is at least 0.3. *)
Theorem risk_score_after_add_flag (r : RedactionReport) (fs : list RedactionFlag)
    (f : RedactionFlag) :
  let r' := add_flag (fold_left add_flag fs r) f in
  (weight "high" = (4 # 10)%Q /\ weight "medium" = (2 # 10)%Q /\
   weight "low" = (1 # 10)%Q /\
   forall sev, sev <> "high"%string -> sev <> "medium"%string ->
               weight sev = (1 # 10)%Q) /\
  flags r' = List.app (flags r) (List.app fs [f]) /\
  risk_score r' = Qmin 1 (total_weight (flags r')) /\
  total_weight (flags r')
    = fold_left (fun acc g => (acc + weight (flag_severity g))%Q) (flags r') 0%Q /\
  (0 <= risk_score r')%Q /\ (risk_score r' <= 1)%Q /\
  (appeal_recommended r' = true <-> (3 # 10 <= risk_score r')%Q) /\
  (forall g, (risk_score r' <= risk_score (add_flag r' g))%Q) /\
  (risk_score (fold_left add_flag fs new_report)
   <= risk_score (add_flag (fold_left add_flag fs new_report) f))%Q.
Proof.
  intros r'. split; [|split; [|split; [|split; [|split; [|split; [|split; [|split]]]]]]].
  - repeat split. intros sev H1 H2. unfold weight.
    apply String.eqb_neq in H1, H2. rewrite H1, H2.
    destruct (sev =? "low")%string; reflexivity.
  - unfold r'. rewrite add_flag_flags, add_flags_flags, app_assoc. reflexivity.
  - unfold r'. rewrite add_flag_unfold. reflexivity.
  - reflexivity.
  - unfold r'. rewrite add_flag_unfold. simpl.
    apply capped_score_bounds, total_weight_nonneg.
  - unfold r'. rewrite add_flag_unfold. simpl.
    apply capped_score_bounds, total_weight_nonneg.
  - unfold r'. rewrite add_flag_unfold. simpl. unfold Qgeb.
    apply Qle_bool_iff.
  - intros g. rewrite (add_flag_unfold r' g). simpl.
    unfold r' at 1. rewrite add_flag_unfold. simpl.
    apply Q.min_le_compat_l.
    unfold r'. rewrite add_flag_flags. apply total_weight_snoc_le.
  - destruct fs as [|f0 fs0] using rev_ind.
    + change (fold_left add_flag [] new_report) with new_report.
      change (risk_score new_report) with 0%Q.
      apply Qlt_le_weak, add_flag_score_pos.
    + rewrite fold_left_app. simpl.
      rewrite (add_flag_unfold (add_flag _ f0) f). simpl.
      rewrite (add_flag_unfold _ f0) at 1. simpl.
      apply Q.min_le_compat_l.
      rewrite add_flag_flags. apply total_weight_snoc_le.
Qed.

Lemma risk_score_after_add_flag_witness :
  let r' := add_flag (fold_left add_flag [mkFlag "low" Blanket_Denial None] new_report)
                     (mkFlag "medium" No_Partial_Releases None) in
  appeal_recommended r' = true /\ (risk_score r' <= 1)%Q /\
  weight "critical" = (1 # 10)%Q.
Proof.
  destruct (risk_score_after_add_flag new_report
              [mkFlag "low" Blanket_Denial None]
              (mkFlag "medium" No_Partial_Releases None))
    as ((_ & _ & _ & Hw) & _ & _ & _ & _ & H1 & Ha & _).
  split; [|split].
  - apply Ha. vm_compute. discriminate.
  - exact H1.
  - apply Hw; discriminate.
Defined.

(* ------------------------------------------------------------------ *)
(** * Properties of the float quotient *)
(* ------------------------------------------------------------------ *)

Section DoubleFacts.

Local Open Scope Z_scope.

Lemma div_half_even_bounds (N d : Z) :
  0 < d -> 0 <= N ->
  0 <= div_half_even N d /\
  2 * (div_half_even N d * d) <= 2 * N + d /\
  2 * N <= 2 * (div_half_even N d * d) + d.
Proof.
  intros Hd HN. unfold div_half_even.
  pose proof (Z.div_mod N d ltac:(lia)) as E.
  pose proof (Z.mod_pos_bound N d Hd) as Hr.
  pose proof (Z.div_pos N d HN Hd) as Hq.
  set (q := N / d) in *. set (r := N mod d) in *.
  assert (E' : N = q * d + r) by lia. clearbody q r. clear E.
  destruct (2 * r <? d) eqn:E1; [apply Z.ltb_lt in E1; nia|].
  apply Z.ltb_ge in E1.
  destruct (d <? 2 * r) eqn:E2; [apply Z.ltb_lt in E2; nia|].
  apply Z.ltb_ge in E2.
  destruct (Z.even q); nia.
Qed.

(** The exponent of a quotient below 1. *)
Lemma quotient_exponent_below_1 (n d : Z) :
  0 < n -> n < d ->
  exists j, 1 <= j /\ quotient_exponent n d = - j /\
            d <= n * 2 ^ j /\ n * 2 ^ (j - 1) < d.
Proof.
  intros Hn Hlt. unfold quotient_exponent.
  pose proof (Z.log2_spec n Hn) as [Ha1 Ha2].
  pose proof (Z.log2_spec d ltac:(lia)) as [Hb1 Hb2].
  pose proof (Z.log2_le_mono n d ltac:(lia)) as Hab.
  pose proof (Z.log2_nonneg n) as Ha0.
  set (a := Z.log2 n) in *. set (b := Z.log2 d) in *. clearbody a b.
  replace (Z.succ a) with (a + 1) in Ha2 by lia.
  replace (Z.succ b) with (b + 1) in Hb2 by lia.
  rewrite Z.pow_add_r in Ha2, Hb2 by lia. change (2 ^ 1) with 2 in *.
  destruct (Z.eq_dec a b) as [<-|Hne].
  - replace (a - a) with 0 by lia. cbn [Z.leb Z.compare Z.pow].
    change (2 ^ 0) with 1. rewrite Z.mul_1_r.
    assert (E : (d <=? n) = false) by (apply Z.leb_gt; lia). rewrite E.
    exists 1. split; [lia|]. split; [reflexivity|].
    change (2 ^ 1) with 2. change (2 ^ (1 - 1)) with 1. lia.
  - assert (Hj : 1 <= b - a) by lia.
    assert (E0 : (0 <=? a - b) = false) by (apply Z.leb_gt; lia). rewrite E0.
    replace (- (a - b)) with (b - a) by lia.
    assert (Hp : 2 ^ b = 2 ^ a * 2 ^ (b - a)).
    { rewrite <- Z.pow_add_r by lia. f_equal. lia. }
    assert (Hp1 : 2 ^ (b - a) = 2 * 2 ^ (b - a - 1)).
    { replace (b - a) with (1 + (b - a - 1)) at 1 by lia.
      rewrite Z.pow_add_r by lia. reflexivity. }
    assert (Hp2 : 2 ^ (b - a + 1) = 2 * 2 ^ (b - a)).
    { rewrite Z.pow_add_r by lia. change (2 ^ 1) with 2. lia. }
    assert (Hpos : 0 < 2 ^ (b - a - 1)) by (apply Z.pow_pos_nonneg; lia).
    assert (Hposa : 0 < 2 ^ a) by (apply Z.pow_pos_nonneg; lia).
    destruct (d <=? n * 2 ^ (b - a)) eqn:E.
    + apply Z.leb_le in E. exists (b - a). split; [lia|]. split; [lia|].
      split; [exact E|].
      set (P := 2 ^ (b - a - 1)) in *. set (A := 2 ^ a) in *.
      set (J := 2 ^ (b - a)) in *. set (B := 2 ^ b) in *. clearbody P A J B.
      nia.
    + apply Z.leb_gt in E. exists (b - a + 1). split; [lia|]. split; [lia|].
      replace (b - a + 1 - 1) with (b - a) by lia.
      split; [|exact E]. rewrite Hp2.
      set (P := 2 ^ (b - a - 1)) in *. set (A := 2 ^ a) in *.
      set (J := 2 ^ (b - a)) in *. set (B := 2 ^ b) in *. clearbody P A J B.
      nia.
Qed.

(** Rounding a quotient below 1: the result is [m / 2^j] with at most 53
    bits in [m]; from one half on, [j] is 53. *)
Lemma round_to_double_below_1 (n d : Z) :
  0 < n -> n < d ->
  exists m j,
    53 <= j /\
    round_to_double n d = Ok (Qmake m (Z.to_pos (2 ^ j))) /\
    0 <= m <= 2 ^ 53 /\
    (d <= 2 * n -> j = 53 /\ m = div_half_even (n * 2 ^ 53) d) /\
    (2 * n < d -> 2 * m <= 2 ^ j).
Proof.
  intros Hn Hlt.
  destruct (quotient_exponent_below_1 n d Hn Hlt) as (jj & Hjj & He & Hlo & Hhi).
  unfold round_to_double. rewrite He.
  set (j' := Z.min jj 1022).
  assert (Emax : Z.max (- jj) (-1022) = - j') by (unfold j'; lia).
  rewrite Emax. cbv zeta.
  assert (Hj' : 1 <= j' <= jj) by (unfold j'; lia).
  assert (Ek : (0 <=? - j' - 52) = false) by (apply Z.leb_gt; lia).
  rewrite Ek. replace (- (- j' - 52)) with (j' - 1 + 53) by lia.
  assert (Hmono : 2 ^ (j' - 1) <= 2 ^ (jj - 1)) by (apply Z.pow_le_mono_r; lia).
  assert (Hsplit : 2 ^ (j' - 1 + 53) = 2 ^ (j' - 1) * 2 ^ 53)
    by (apply Z.pow_add_r; lia).
  assert (Hpos : 0 < 2 ^ (j' - 1)) by (apply Z.pow_pos_nonneg; lia).
  assert (HN : n * 2 ^ (j' - 1 + 53) < d * 2 ^ 53).
  { rewrite Hsplit. set (A := 2 ^ (j' - 1)) in *. set (B := 2 ^ (jj - 1)) in *.
    clearbody A B. assert (n * A < d) by nia. nia. }
  destruct (div_half_even_bounds (n * 2 ^ (j' - 1 + 53)) d) as (Hm0 & Hm1 & Hm2);
    [lia | apply Z.mul_nonneg_nonneg; [lia | apply Z.pow_nonneg; lia] |].
  set (m := div_half_even (n * 2 ^ (j' - 1 + 53)) d) in *.
  assert (Hm53 : m <= 2 ^ 53).
  { set (N := n * 2 ^ (j' - 1 + 53)) in *. clearbody m N.
    change (2 ^ 53) with 9007199254740992 in *. nia. }
  assert (Hlog : Z.log2 m <= 53).
  { change 53 with (Z.log2 (2 ^ 53)). apply Z.log2_le_mono. exact Hm53. }
  assert (Eov : (1024 <=? Z.log2 m + (- j' - 52)) = false) by (apply Z.leb_gt; lia).
  rewrite Eov.
  exists m, (j' - 1 + 53). split; [lia|]. split; [reflexivity|].
  split; [lia|]. split.
  - intros Hhalf.
    assert (jj = 1).
    { destruct (Z.eq_dec jj 1) as [E|E]; [exact E|]. exfalso.
      assert (2 ^ 1 <= 2 ^ (jj - 1)) by (apply Z.pow_le_mono_r; lia).
      change (2 ^ 1) with 2 in *. nia. }
    subst jj. assert (j' = 1) by lia.
    unfold m. replace (j' - 1 + 53) with 53 by lia. split; reflexivity.
  - intros Hsmall.
    assert (H54 : 2 ^ 54 <= 2 ^ (j' - 1 + 53)).
    { apply Z.pow_le_mono_r; [lia|].
      assert (2 <= jj).
      { destruct (Z.eq_dec jj 1) as [E|E]; [|lia]. subst jj.
        change (2 ^ 1) with 2 in Hlo. lia. }
      unfold j'. lia. }
    change (2 ^ 54) with 18014398509481984 in H54.
    change (2 ^ 53) with 9007199254740992 in Hm53. lia.
Qed.

Lemma Qgtb_dyadic (m P c : Z) (q : positive) :
  0 < P ->
  Qgtb (Qmake m (Z.to_pos P)) (Qmake c q) = (c * P <? m * Z.pos q).
Proof.
  intros HP. unfold Qgtb, Qle_bool. cbn [Qnum Qden].
  rewrite Z2Pos.id by exact HP. rewrite Z.ltb_antisym. reflexivity.
Qed.

Lemma int_truediv_nonneg (w t : Z) :
  0 < w -> 0 < t -> int_truediv w t = round_to_double w t.
Proof.
  intros Hw Ht. unfold int_truediv.
  assert (Et : (t =? 0) = false) by (apply Z.eqb_neq; lia). rewrite Et.
  assert (E : (w =? 0) = false) by (apply Z.eqb_neq; lia). rewrite E.
  rewrite !Z.abs_eq by lia.
  assert (S : (Z.sgn w * Z.sgn t <? 0) = false).
  { rewrite !Z.sgn_pos by lia. reflexivity. }
  rewrite S. unfold bind. destruct (round_to_double w t); reflexivity.
Qed.

Lemma round_to_double_self (n : Z) :
  0 < n -> round_to_double n n = Ok (Qmake (2 ^ 52) (Z.to_pos (2 ^ 52))).
Proof.
  intros Hn.
  assert (Ee : quotient_exponent n n = 0).
  { unfold quotient_exponent. rewrite Z.sub_diag. cbn [Z.leb Z.compare].
    change (2 ^ 0) with 1. rewrite Z.mul_1_r, Z.leb_refl. reflexivity. }
  assert (Em : div_half_even (n * 2 ^ 52) n = 2 ^ 52).
  { unfold div_half_even.
    replace (n * 2 ^ 52) with (2 ^ 52 * n) by lia.
    rewrite Z.div_mul, Z.mod_mul by lia.
    assert (E : (2 * 0 <? n) = true) by (apply Z.ltb_lt; lia).
    rewrite E. reflexivity. }
  unfold round_to_double. rewrite Ee.
  change (Z.max 0 (-1022)) with 0. cbv zeta.
  change (0 - 52) with (-52). change (0 <=? -52) with false. cbv iota.
  change (- -52) with 52. rewrite Em.
  change (1024 <=? Z.log2 (2 ^ 52) + -52) with false. reflexivity.
Qed.

Lemma double_0_8 : double 8 10 = Qmake 7205759403792794 9007199254740992.
Proof. vm_compute. reflexivity. Qed.

Lemma double_0_5 : double 5 10 = Qmake 4503599627370496 9007199254740992.
Proof. vm_compute. reflexivity. Qed.

(** A quotient of a number by itself is the double 1.0. *)
Lemma int_truediv_self (w : Z) :
  w <> 0 ->
  int_truediv w w = Ok (Qmake (2 ^ 52) (Z.to_pos (2 ^ 52))).
Proof.
  intros Hw. unfold int_truediv.
  assert (E : (w =? 0) = false) by (apply Z.eqb_neq; exact Hw). rewrite E.
  rewrite round_to_double_self by lia. unfold bind, Ok.
  assert (S : (Z.sgn w * Z.sgn w <? 0) = false).
  { apply Z.ltb_ge. destruct w; cbn; lia. }
  rewrite S. reflexivity.
Qed.

(** The quotient of a part by the whole never overflows. *)
Lemma int_truediv_part (w t : Z) :
  0 <= w <= t -> 0 < t -> exists x, int_truediv w t = Ok x.
Proof.
  intros Hw Ht.
  destruct (Z.eq_dec w 0) as [->|Hw0].
  { exists 0%Q. unfold int_truediv.
    assert (Et : (t =? 0) = false) by (apply Z.eqb_neq; lia).
    rewrite Et. reflexivity. }
  destruct (Z.eq_dec w t) as [->|Hwt].
  { eexists. apply int_truediv_self. lia. }
  rewrite int_truediv_nonneg by lia.
  destruct (round_to_double_below_1 w t) as (m & j & _ & H & _); [lia | lia|].
  eexists. exact H.
Qed.

(** Up to 2 * 10^15 pages the rounding of the quotient does not show in the
    comparisons with 0.8 and 0.5. *)
Lemma int_truediv_decisions (w t : Z) :
  0 <= w <= t -> 0 < t <= 2000000000000000 ->
  exists x,
    int_truediv w t = Ok x /\
    Qgtb x (double 8 10) = (4 * t <? 5 * w) /\
    Qgtb x (double 5 10) = (t <? 2 * w).
Proof.
  intros Hw Ht. rewrite double_0_8, double_0_5.
  destruct (Z.eq_dec w 0) as [->|Hw0].
  { exists 0%Q. split.
    { unfold int_truediv.
      assert (Et : (t =? 0) = false) by (apply Z.eqb_neq; lia).
      rewrite Et. reflexivity. }
    split.
    - symmetry. apply Z.ltb_ge. lia.
    - symmetry. apply Z.ltb_ge. lia. }
  destruct (Z.eq_dec w t) as [->|Hwt].
  { eexists. split; [apply int_truediv_self; lia|]. split.
    - symmetry. apply Z.ltb_lt. lia.
    - symmetry. apply Z.ltb_lt. lia. }
  rewrite int_truediv_nonneg by lia.
  destruct (round_to_double_below_1 w t) as (m & j & Hj & H & Hm & Hhalf & Hsmall);
    [lia | lia|].
  exists (Qmake m (Z.to_pos (2 ^ j))). split; [exact H|].
  assert (HP : 0 < 2 ^ j) by (apply Z.pow_pos_nonneg; lia).
  rewrite !Qgtb_dyadic by exact HP.
  destruct (Z_le_gt_dec t (2 * w)) as [Hge|Hlt].
  - destruct (Hhalf Hge) as [-> ->].
    destruct (div_half_even_bounds (w * 2 ^ 53) t) as (_ & Hm1 & Hm2); [lia | lia |].
    set (m := div_half_even (w * 2 ^ 53) t) in *. clearbody m.
    change (2 ^ 53) with 9007199254740992 in *.
    set (mt := m * t) in *.
    split.
    + destruct (4 * t <? 5 * w) eqn:E.
      * apply Z.ltb_lt in E. apply Z.ltb_lt.
        destruct (Z_le_gt_dec m 7205759403792794) as [Hle|Hgt]; [|lia].
        exfalso.
        assert (mt <= 7205759403792794 * t)
          by (apply Z.mul_le_mono_nonneg_r; lia).
        lia.
      * apply Z.ltb_ge in E. apply Z.ltb_ge.
        destruct (Z_le_gt_dec m 7205759403792794) as [Hle|Hgt]; [lia|].
        exfalso.
        assert (7205759403792795 * t <= mt)
          by (apply Z.mul_le_mono_nonneg_r; lia).
        lia.
    + destruct (t <? 2 * w) eqn:E.
      * apply Z.ltb_lt in E. apply Z.ltb_lt.
        destruct (Z_le_gt_dec m 4503599627370496) as [Hle|Hgt]; [|lia].
        exfalso.
        assert (mt <= 4503599627370496 * t)
          by (apply Z.mul_le_mono_nonneg_r; lia).
        lia.
      * apply Z.ltb_ge in E. apply Z.ltb_ge.
        destruct (Z_le_gt_dec m 4503599627370496) as [Hle|Hgt]; [lia|].
        exfalso.
        assert (4503599627370497 * t <= mt)
          by (apply Z.mul_le_mono_nonneg_r; lia).
        lia.
  - specialize (Hsmall ltac:(lia)).
    set (P := 2 ^ j) in *. clearbody P. split.
    + transitivity false; [apply Z.ltb_ge; lia | symmetry; apply Z.ltb_ge; lia].
    + transitivity false; [apply Z.ltb_ge; lia | symmetry; apply Z.ltb_ge; lia].
Qed.

End DoubleFacts.

(* ------------------------------------------------------------------ *)
(** * Properties of the redaction detector *)
(* ------------------------------------------------------------------ *)

Section DetectorFacts.

Local Open Scope Q_scope.

Lemma adds_flags_id : adds_flags (fun r => r).
Proof. split; intros r; [rewrite app_nil_r; reflexivity | auto]. Qed.

Lemma adds_flags_add_flag (f : RedactionFlag) : adds_flags (fun r => add_flag r f).
Proof.
  split; intros r.
  - rewrite !add_flag_flags. reflexivity.
  - intros _. apply add_flag_score_pos.
Qed.

Lemma adds_flags_compose (g h : RedactionReport -> RedactionReport) :
  adds_flags g -> adds_flags h -> adds_flags (fun r => h (g r)).
Proof.
  intros [G1 G2] [H1 H2]. split; intros r.
  - rewrite (H1 (g r)), (G1 r), (H1 (g new_report)), app_assoc. reflexivity.
  - intros Hr. apply H2, G2, Hr.
Qed.

Lemma adds_flags_if (b : bool) (g h : RedactionReport -> RedactionReport) :
  adds_flags g -> adds_flags h -> adds_flags (fun r => if b then g r else h r).
Proof. destruct b; auto. Qed.

Lemma adds_flags_fold {A : Type} (step : RedactionReport -> A -> RedactionReport)
    (l : list A) :
  (forall x, adds_flags (fun r => step r x)) ->
  adds_flags (fun r => fold_left step l r).
Proof.
  intros Hstep. induction l as [|x l IH]; simpl.
  - apply adds_flags_id.
  - apply (adds_flags_compose (fun r => step r x) (fun r => fold_left step l r));
      auto.
Qed.

Lemma uk_patterns_adds_flags (parsed : ParsedResponse) :
  adds_flags (_check_uk_patterns parsed).
Proof.
  unfold _check_uk_patterns. apply adds_flags_fold. intros e.
  apply (adds_flags_compose
           (fun r => if str_in "43" e
                     then add_flag r (mkFlag "medium" Section_43_Commercial (Some e))
                     else r)
           (fun r => if str_in "35" e || str_in "36" e
                     then add_flag r (mkFlag "medium" Policy_Formulation_Exemption (Some e))
                     else r));
    apply adds_flags_if;
    first [apply adds_flags_add_flag | apply adds_flags_id].
Qed.

Lemma india_patterns_adds_flags (parsed : ParsedResponse) :
  adds_flags (_check_india_patterns parsed).
Proof.
  unfold _check_india_patterns. apply adds_flags_fold. intros e.
  apply (adds_flags_compose
           (fun r => if str_in "8(1)(d)" e
                     then add_flag r (mkFlag "medium" Section_8_1_d_Commercial (Some e))
                     else r)
           (fun r => if str_in "8(1)(j)" e
                     then add_flag r (mkFlag "low" Section_8_1_j_Personal (Some e))
                     else r));
    apply adds_flags_if;
    first [apply adds_flags_add_flag | apply adds_flags_id].
Qed.

(** [_check_excessive_withholding] adds the flag it decides on. *)
Lemma check_excessive_withholding_flag (parsed : ParsedResponse)
    (report : RedactionReport) :
  _check_excessive_withholding parsed report
  = bind (page_ratio_flag parsed) (fun o => Ok (add_optional_flag o report)).
Proof.
  unfold _check_excessive_withholding, page_ratio_flag. cbv zeta.
  destruct (pages_released parsed + pages_withheld_full parsed =? 0)%Z;
    [reflexivity|].
  destruct (int_truediv _ _) as [x|e]; [|reflexivity]. cbn [bind].
  destruct (Qgtb x (double 8 10)).
  - destruct (format_int (pages_withheld_full parsed)); [|reflexivity].
    cbn [bind]. destruct (format_int _); reflexivity.
  - destruct (Qgtb x (double 5 10)); reflexivity.
Qed.

Lemma page_ratio_flag_choice (parsed : ParsedResponse) (o : option RedactionFlag) :
  page_ratio_flag parsed = Ok o -> page_ratio_choice o.
Proof.
  unfold page_ratio_flag, page_ratio_choice. cbv zeta.
  destruct (pages_released parsed + pages_withheld_full parsed =? 0)%Z.
  { intros [= <-]. auto. }
  destruct (int_truediv _ _) as [x|e]; [|discriminate]. cbn [bind].
  destruct (Qgtb x (double 8 10)).
  - destruct (format_int (pages_withheld_full parsed)); [|discriminate].
    cbn [bind]. destruct (format_int _); [|discriminate].
    intros [= <-]. auto.
  - destruct (Qgtb x (double 5 10)); intros [= <-]; auto.
Qed.

(** [analyze], with the decision of the page-ratio rule set apart. *)
Lemma analyze_rules_of (parsed : ParsedResponse) (jurisdiction : string) :
  analyze parsed jurisdiction
  = bind (if runs_page_ratio jurisdiction then page_ratio_flag parsed else Ok None)
         (fun o =>
            Ok (mkReport (flags (rules_of parsed jurisdiction o new_report))
                         (risk_score (rules_of parsed jurisdiction o new_report))
                         (_generate_summary (rules_of parsed jurisdiction o new_report))
                         (appeal_recommended
                            (rules_of parsed jurisdiction o new_report)))).
Proof.
  unfold analyze, rules_of, runs_page_ratio. cbv zeta.
  destruct (is_us_jurisdiction jurisdiction); cbn [orb].
  { rewrite check_excessive_withholding_flag.
    destruct (page_ratio_flag parsed); reflexivity. }
  destruct (jurisdiction =? "UK")%string; cbn [orb].
  { rewrite check_excessive_withholding_flag.
    destruct (page_ratio_flag parsed); reflexivity. }
  destruct (jurisdiction =? "India")%string.
  { rewrite check_excessive_withholding_flag.
    destruct (page_ratio_flag parsed); reflexivity. }
  reflexivity.
Qed.

(** What a report that [analyze] returns is made of. *)
Lemma analyze_Ok (parsed : ParsedResponse) (jurisdiction : string)
    (report : RedactionReport) :
  analyze parsed jurisdiction = Ok report ->
  exists o,
    page_ratio_choice o /\
    report = mkReport (flags (rules_of parsed jurisdiction o new_report))
                      (risk_score (rules_of parsed jurisdiction o new_report))
                      (_generate_summary (rules_of parsed jurisdiction o new_report))
                      (appeal_recommended (rules_of parsed jurisdiction o new_report)).
Proof.
  rewrite analyze_rules_of.
  destruct (runs_page_ratio jurisdiction).
  - destruct (page_ratio_flag parsed) as [o|e] eqn:E; [|discriminate].
    cbn [bind]. intros [= <-]. exists o. split; [|reflexivity].
    apply (page_ratio_flag_choice parsed). exact E.
  - cbn [bind Ok]. intros [= <-]. exists None. split; [left|]; reflexivity.
Qed.

Lemma format_int_small (n : Z) :
  (Z.abs n < 10 ^ INT_MAX_STR_DIGITS)%Z -> format_int n = Ok (str_of_int n).
Proof.
  intros H. unfold format_int. apply Z.ltb_lt in H. rewrite H. reflexivity.
Qed.

(** The page-ratio rule returns when the page counts are not negative and
    can be written. *)
Lemma page_ratio_flag_returns (parsed : ParsedResponse) :
  (0 <= pages_released parsed)%Z -> (0 <= pages_withheld_full parsed)%Z ->
  (pages_released parsed + pages_withheld_full parsed
   < 10 ^ INT_MAX_STR_DIGITS)%Z ->
  exists o, page_ratio_flag parsed = Ok o.
Proof.
  intros Hr Hw Hbig. unfold page_ratio_flag. cbv zeta.
  destruct (pages_released parsed + pages_withheld_full parsed =? 0)%Z eqn:E0.
  { eexists. reflexivity. }
  apply Z.eqb_neq in E0.
  destruct (int_truediv_part (pages_withheld_full parsed)
              (pages_released parsed + pages_withheld_full parsed)) as (x & Hx);
    [lia | lia |].
  rewrite Hx. rewrite !format_int_small by lia. cbv [bind Ok].
  destruct (Qgtb x (double 8 10)); [eexists; reflexivity|].
  destruct (Qgtb x (double 5 10)); eexists; reflexivity.
Qed.

(** Up to 2 * 10^15 pages the rule decides by the exact ratio. *)
Lemma page_ratio_flag_bounded (parsed : ParsedResponse) :
  (0 <= pages_released parsed)%Z -> (0 <= pages_withheld_full parsed)%Z ->
  (0 < pages_released parsed + pages_withheld_full parsed <= 2000000000000000)%Z ->
  page_ratio_flag parsed
  = Ok (if (4 * (pages_released parsed + pages_withheld_full parsed)
            <? 5 * pages_withheld_full parsed)%Z
        then Some (mkFlag "high" Excessive_Withholding None)
        else if (pages_released parsed + pages_withheld_full parsed
                 <? 2 * pages_withheld_full parsed)%Z
             then Some (mkFlag "medium" High_Withholding_Rate None)
             else None).
Proof.
  intros Hr Hw Ht. unfold page_ratio_flag. cbv zeta.
  assert (E0 : (pages_released parsed + pages_withheld_full parsed =? 0)%Z = false)
    by (apply Z.eqb_neq; lia).
  rewrite E0.
  destruct (int_truediv_decisions (pages_withheld_full parsed)
              (pages_released parsed + pages_withheld_full parsed))
    as (x & Hx & H8 & H5); [lia | lia |].
  rewrite Hx.
  assert (Hsmall : (2000000000000000 < 10 ^ INT_MAX_STR_DIGITS)%Z).
  { apply Z.lt_trans with (10 ^ 16)%Z; [reflexivity|].
    apply Z.pow_lt_mono_r; unfold INT_MAX_STR_DIGITS; lia. }
  rewrite !format_int_small by lia. cbv [bind Ok]. rewrite H8, H5.
  destruct (4 * (pages_released parsed + pages_withheld_full parsed)
            <? 5 * pages_withheld_full parsed)%Z; [reflexivity|].
  destruct (pages_released parsed + pages_withheld_full parsed
            <? 2 * pages_withheld_full parsed)%Z; reflexivity.
Qed.

(** The exact ratio and the thresholds, in whole pages. *)
Lemma ratio_lt (a b w t : Z) :
  (0 < t)%Z -> (0 < b)%Z ->
  (inject_Z a / inject_Z b < inject_Z w / inject_Z t) <-> (a * t < b * w)%Z.
Proof.
  intros Ht Hb.
  destruct t as [|t|t]; try lia. destruct b as [|b|b]; try lia.
  unfold Qlt, Qdiv, Qmult, Qinv, inject_Z. cbn [Qnum Qden].
  rewrite !Pos.mul_1_l, !Z.mul_1_r. lia.
Qed.

Lemma ratio_le (a b w t : Z) :
  (0 < t)%Z -> (0 < b)%Z ->
  (inject_Z w / inject_Z t <= inject_Z a / inject_Z b) <-> (b * w <= a * t)%Z.
Proof.
  intros Ht Hb.
  destruct t as [|t|t]; try lia. destruct b as [|b|b]; try lia.
  unfold Qle, Qdiv, Qmult, Qinv, inject_Z. cbn [Qnum Qden].
  rewrite !Pos.mul_1_l, !Z.mul_1_r. lia.
Qed.

(** [analyze] for the United Kingdom and for India. *)
Lemma analyze_uk_india (parsed : ParsedResponse) (j : string)
    (o : option RedactionFlag) :
  j = "UK"%string \/ j = "India"%string ->
  page_ratio_flag parsed = Ok o ->
  exists report,
    analyze parsed j = Ok report /\
    flags report = List.app (flags (add_optional_flag o new_report))
                            (citation_flags j parsed) /\
    (0 < risk_score (add_optional_flag o new_report) -> 0 < risk_score report).
Proof.
  intros Hj Ho. rewrite analyze_rules_of.
  assert (Er : runs_page_ratio j = true) by (destruct Hj as [-> | ->]; reflexivity).
  rewrite Er, Ho. cbn [bind]. eexists. split; [reflexivity|].
  cbn [flags risk_score]. unfold rules_of, citation_flags.
  destruct Hj as [-> | ->]; simpl.
  - destruct (uk_patterns_adds_flags parsed) as [H1 H2]. split.
    + apply H1.
    + apply H2.
  - destruct (india_patterns_adds_flags parsed) as [H1 H2]. split.
    + apply H1.
    + apply H2.
Qed.

Lemma Qgtb_true (a b : Q) : Qgtb a b = true <-> b < a.
Proof.
  unfold Qgtb. rewrite Bool.negb_true_iff. split.
  - intros H. apply Qnot_le_lt. intros Hle. apply Qle_bool_iff in Hle. congruence.
  - intros H. destruct (Qle_bool a b) eqn:E; [|reflexivity].
    apply Qle_bool_iff in E. exfalso. exact (Qlt_not_le _ _ H E).
Qed.

Lemma Qgtb_false (a b : Q) : Qgtb a b = false <-> a <= b.
Proof.
  unfold Qgtb. rewrite Bool.negb_false_iff. apply Qle_bool_iff.
Qed.

End DetectorFacts.

(** C10, as the code has it. For "UK" and for "India", [analyze] runs the
    excessive-withholding page-ratio rule before the jurisdiction's citation
    rules. For page counts that are not negative and add up to no more than
    2 * 10^15: with released + withheld-full > 0, the report starts with a
    high-severity flag when withheld-full / (released + withheld-full) > 0.8
    and with a medium-severity flag when the ratio is in (0.5, 0.8]; in both
    cases the risk score is positive, whatever the citation rules add (also
    when they add nothing). *)
Theorem uk_india_page_ratio_rule (parsed : ParsedResponse) (j : string) :
  j = "UK"%string \/ j = "India"%string ->
  (0 <= pages_released parsed)%Z -> (0 <= pages_withheld_full parsed)%Z ->
  (0 < pages_released parsed + pages_withheld_full parsed <= 2000000000000000)%Z ->
  let ratio :=
    (inject_Z (pages_withheld_full parsed)
     / inject_Z (pages_released parsed + pages_withheld_full parsed))%Q in
  exists report,
    analyze parsed j = Ok report /\
    ((8 # 10 < ratio)%Q ->
       flags report
       = mkFlag "high" Excessive_Withholding None :: citation_flags j parsed /\
       (0 < risk_score report)%Q) /\
    ((5 # 10 < ratio)%Q /\ (ratio <= 8 # 10)%Q ->
       flags report
       = mkFlag "medium" High_Withholding_Rate None :: citation_flags j parsed /\
       (0 < risk_score report)%Q) /\
    ((ratio <= 5 # 10)%Q ->
       flags report = citation_flags j parsed).
Proof.
  intros Hj Hr Hw Htotal ratio.
  pose proof (page_ratio_flag_bounded parsed Hr Hw Htotal) as Ho.
  destruct (analyze_uk_india parsed j _ Hj Ho) as (report & Ha & Hflags & Hscore).
  exists report. split; [exact Ha|].
  set (w := pages_withheld_full parsed) in *.
  set (t := (pages_released parsed + w)%Z) in *.
  assert (H8 : (8 # 10 < ratio)%Q <-> (8 * t < 10 * w)%Z).
  { apply (ratio_lt 8 10 w t); lia. }
  assert (H8' : (ratio <= 8 # 10)%Q <-> (10 * w <= 8 * t)%Z).
  { apply (ratio_le 8 10 w t); lia. }
  assert (H5 : (5 # 10 < ratio)%Q <-> (5 * t < 10 * w)%Z).
  { apply (ratio_lt 5 10 w t); lia. }
  assert (H5' : (ratio <= 5 # 10)%Q <-> (10 * w <= 5 * t)%Z).
  { apply (ratio_le 5 10 w t); lia. }
  split; [|split].
  - intros H. apply H8 in H.
    assert (E : (4 * t <? 5 * w)%Z = true) by (apply Z.ltb_lt; lia).
    rewrite E in Hflags, Hscore. cbn [add_optional_flag] in Hflags, Hscore.
    split; [exact Hflags | apply Hscore, add_flag_score_pos].
  - intros [H1 H2]. apply H5 in H1. apply H8' in H2.
    assert (E : (4 * t <? 5 * w)%Z = false) by (apply Z.ltb_ge; lia).
    assert (E' : (t <? 2 * w)%Z = true) by (apply Z.ltb_lt; lia).
    rewrite E, E' in Hflags, Hscore. cbn [add_optional_flag] in Hflags, Hscore.
    split; [exact Hflags | apply Hscore, add_flag_score_pos].
  - intros H. apply H5' in H.
    assert (E : (4 * t <? 5 * w)%Z = false) by (apply Z.ltb_ge; lia).
    assert (E' : (t <? 2 * w)%Z = false) by (apply Z.ltb_ge; lia).
    rewrite E, E' in Hflags. exact Hflags.
Qed.

Lemma uk_india_page_ratio_rule_witness :
  (citation_flags "UK" (pages_only 1 9) = [] /\
   exists report,
     analyze (pages_only 1 9) "UK" = Ok report /\
     flags report = [mkFlag "high" Excessive_Withholding None] /\
     (0 < risk_score report)%Q) /\
  (citation_flags "India" (pages_only 4 6) = [] /\
   exists report,
     analyze (pages_only 4 6) "India" = Ok report /\
     flags report = [mkFlag "medium" High_Withholding_Rate None] /\
     (0 < risk_score report)%Q).
Proof.
  split.
  - split; [reflexivity|].
    destruct (uk_india_page_ratio_rule (pages_only 1 9) "UK")
      as (report & Ha & H & _ & _).
    + left. reflexivity.
    + simpl. lia.
    + simpl. lia.
    + simpl. lia.
    + exists report. split; [exact Ha|]. apply H. reflexivity.
  - split; [reflexivity|].
    destruct (uk_india_page_ratio_rule (pages_only 4 6) "India")
      as (report & Ha & _ & H & _).
    + right. reflexivity.
    + simpl. lia.
    + simpl. lia.
    + simpl. lia.
    + exists report. split; [exact Ha|]. apply H. split; [reflexivity | discriminate].
Defined.

(** C10 as stated fails: the ratio is a float. With 8 * 10^15 + 1 of
    10^16 + 1 pages withheld the exact ratio is above 0.8, the quotient
    rounds to the double 0.8, and the flag is of medium severity. With page
    counts that may be negative the quotient can also be too large for a
    float, and [analyze] raises [OverflowError]. *)
Lemma uk_india_page_ratio_rounding :
  (0 < 2000000000000000 + 8000000000000001)%Z /\
  (8 # 10 < inject_Z 8000000000000001
            / inject_Z (2000000000000000 + 8000000000000001))%Q /\
  (exists report,
     analyze (pages_only 2000000000000000 8000000000000001) "UK" = Ok report /\
     flags report = [mkFlag "medium" High_Withholding_Rate None]) /\
  ~ (exists report,
       analyze (pages_only 2000000000000000 8000000000000001) "UK" = Ok report /\
       flags report
       = mkFlag "high" Excessive_Withholding None
         :: citation_flags "UK" (pages_only 2000000000000000 8000000000000001)) /\
  analyze (pages_only (1 - 2 ^ 1100) (2 ^ 1100)) "India" = Raise OverflowError.
Proof.
  assert (Ha : exists report,
             analyze (pages_only 2000000000000000 8000000000000001) "UK" = Ok report /\
             flags report = [mkFlag "medium" High_Withholding_Rate None]).
  { eexists. split; [vm_compute; reflexivity|]. reflexivity. }
  split; [lia|]. split; [reflexivity|]. split; [exact Ha|]. split.
  - intros (report & H1 & H2). destruct Ha as (report' & H1' & H2').
    rewrite H1 in H1'. inversion H1'; subst report'.
    rewrite H2 in H2'. discriminate H2'.
  - vm_compute. reflexivity.
Qed.

(* ------------------------------------------------------------------ *)
(** * Properties of the deadline calculator: rule resolution *)
(* ------------------------------------------------------------------ *)

Section StringFacts.

Lemma prefix_refl_app (k s : string) : String.prefix k (k ++ s) = true.
Proof.
  induction k as [|c k IH]; simpl.
  - destruct s; reflexivity.
  - destruct (ascii_dec c c); [exact IH | congruence].
Qed.

Lemma prefix_app_r (k s t : string) :
  String.prefix k s = true -> String.prefix k (s ++ t) = true.
Proof.
  revert s. induction k as [|c k IH]; intros s H.
  - destruct (s ++ t)%string; reflexivity.
  - destruct s as [|x s]; simpl in *; [discriminate|].
    destruct (ascii_dec c x); [apply IH; exact H | discriminate].
Qed.

Lemma str_in_unfold (k s : string) :
  str_in k s = String.prefix k s ||
               match s with EmptyString => false | String _ s' => str_in k s' end.
Proof. destruct s; reflexivity. Qed.

Lemma str_in_prefix (k s : string) : String.prefix k s = true -> str_in k s = true.
Proof. intros H. rewrite str_in_unfold, H. reflexivity. Qed.

Lemma str_in_app_left (k p s : string) : str_in k s = true -> str_in k (p ++ s) = true.
Proof.
  intros H. induction p as [|c p IH]; simpl; [exact H|].
  rewrite IH. apply Bool.orb_true_r.
Qed.

Lemma str_in_app_right (k s t : string) : str_in k s = true -> str_in k (s ++ t) = true.
Proof.
  induction s as [|c s IH]; intros H.
  - rewrite str_in_unfold in H. rewrite Bool.orb_false_r in H.
    apply str_in_prefix. apply (prefix_app_r k "" t H).
  - rewrite str_in_unfold in H. apply Bool.orb_true_iff in H.
    destruct H as [H|H].
    + apply str_in_prefix. apply (prefix_app_r k (String c s) t H).
    + change (String c s ++ t)%string with (String c (s ++ t)).
      rewrite str_in_unfold, (IH H). apply Bool.orb_true_r.
Qed.

Lemma str_in_self (k : string) : str_in k k = true.
Proof.
  apply str_in_prefix. rewrite <- (prefix_refl_app k "").
  f_equal. induction k as [|c k IH]; simpl; congruence.
Qed.

(** Every joined item occurs in the joined string. *)
Lemma str_in_join (sep k : string) (l : list string) :
  In k l -> str_in k (join sep l) = true.
Proof.
  unfold join. induction l as [|x l IH]; intros H; [destruct H|].
  destruct H as [->|H].
  - destruct l as [|y l]; simpl.
    + apply str_in_self.
    + apply str_in_app_right, str_in_self.
  - destruct l as [|y l]; [destruct H|].
    change (concat sep (x :: y :: l)) with (x ++ sep ++ concat sep (y :: l))%string.
    apply str_in_app_left, str_in_app_left, IH, H.
Qed.

End StringFacts.

(** C7. Rule resolution first tries an exact match against the registered
    rules; failing that, a jurisdiction with the prefix "US-State" resolves to
    the generic rule of 10 business days with the US holiday calendar and no
    extension; a jurisdiction matching neither fails with an error whose
    message names every known jurisdiction. *)
Theorem get_rule_resolution (self : DeadlineCalculator) (jurisdiction : string) :
  (forall rule, Dict.get (rules self) jurisdiction = Some rule ->
     _get_rule self jurisdiction = Ok rule) /\
  (Dict.get (rules self) jurisdiction = None ->
   startswith jurisdiction "US-State" = true ->
     _get_rule self jurisdiction = Ok state_fallback_rule /\
     initial_days state_fallback_rule = 10 /\
     day_type state_fallback_rule = "business" /\
     holiday_fn state_fallback_rule = Some _is_us_federal_holiday /\
     extension_days state_fallback_rule = 0 /\
     (forall fuel filed,
        calculate fuel self jurisdiction filed
        = add_business_days fuel filed 10 (Some _is_us_federal_holiday)) /\
     (forall fuel d, calculate_extension fuel self jurisdiction d = Some (Ok None))) /\
  (Dict.get (rules self) jurisdiction = None ->
   startswith jurisdiction "US-State" = false ->
     exists msg,
       _get_rule self jurisdiction = Raise (ValueError msg) /\
       msg = ("No deadline rules for jurisdiction '" ++ jurisdiction ++ "'. Known: "
              ++ join ", " (list_jurisdictions self))%string /\
       (forall k, In k (list_jurisdictions self) -> str_in k msg = true) /\
       (forall fuel filed,
          calculate fuel self jurisdiction filed = Some (Raise (ValueError msg)))).
Proof.
  split; [|split].
  - intros rule H. unfold _get_rule. rewrite H. reflexivity.
  - intros H Hp.
    assert (G : _get_rule self jurisdiction = Ok state_fallback_rule)
      by (unfold _get_rule; rewrite H, Hp; reflexivity).
    repeat split; try assumption.
    + intros fuel filed. unfold calculate. rewrite G. reflexivity.
    + intros fuel d. unfold calculate_extension. rewrite G. reflexivity.
  - intros H Hp. eexists. split; [|split; [|split]].
    + unfold _get_rule. rewrite H, Hp. reflexivity.
    + reflexivity.
    + intros k Hk. unfold unknown_jurisdiction_message.
      repeat apply str_in_app_left. apply str_in_join. exact Hk.
    + intros fuel filed. unfold calculate, _get_rule. rewrite H, Hp. reflexivity.
Qed.

Lemma get_rule_resolution_witness :
  _get_rule default_calculator "UK"
  = Ok (mkRule 20 "business" (Some _is_uk_bank_holiday) 0 "business") /\
  _get_rule default_calculator "US-State-IA" = Ok state_fallback_rule /\
  (exists msg,
     _get_rule default_calculator "Atlantis" = Raise (ValueError msg) /\
     str_in "India" msg = true).
Proof.
  split; [|split].
  - destruct (get_rule_resolution default_calculator "UK") as (H & _).
    apply H. reflexivity.
  - destruct (get_rule_resolution default_calculator "US-State-IA") as (_ & H & _).
    apply H; reflexivity.
  - destruct (get_rule_resolution default_calculator "Atlantis") as (_ & _ & H).
    destruct H as (msg & H1 & _ & H3 & _); [reflexivity | reflexivity |].
    exists msg. split; [exact H1|].
    apply H3. simpl. auto.
Defined.

(* ------------------------------------------------------------------ *)
(** * Properties of the exemption extraction *)
(* ------------------------------------------------------------------ *)

Section ExtractionFacts.



Lemma insert_sorted_perm (x : string) (l : list string) :
  Permutation (insert_sorted x l) (x :: l).
Proof.
  induction l as [|y l IH]; simpl.
  - apply Permutation_refl.
  - destruct (x <=? y)%string.
    + apply Permutation_refl.
    + eapply perm_trans; [apply perm_skip, IH | apply perm_swap].
Qed.

Lemma sorted_perm (l : list string) : Permutation (sorted l) l.
Proof.
  induction l as [|x l IH]; simpl.
  - apply Permutation_refl.
  - eapply perm_trans; [apply insert_sorted_perm | apply perm_skip, IH].
Qed.

Lemma leb_false_flip (x y : string) : (x <=? y)%string = false -> (y <=? x)%string = true.
Proof.
  intros H. destruct (String.leb_total x y) as [E|E]; congruence.
Qed.

Lemma insert_sorted_ascending (x : string) (l : list string) :
  ascending l -> ascending (insert_sorted x l).
Proof.
  unfold ascending. induction l as [|y l IH]; intros H; simpl.
  - constructor; constructor.
  - destruct (x <=? y)%string eqn:E.
    + constructor; [exact H | constructor; exact E].
    + inversion H as [|? ? Hs Hd]; subst.
      constructor; [apply IH, Hs|].
      destruct l as [|z l]; simpl.
      * constructor. apply leb_false_flip, E.
      * destruct (x <=? z)%string.
        -- constructor. apply leb_false_flip, E.
        -- inversion Hd; subst. constructor. assumption.
Qed.

Lemma sorted_ascending (l : list string) : ascending (sorted l).
Proof.
  induction l as [|x l IH]; simpl.
  - constructor.
  - apply insert_sorted_ascending, IH.
Qed.

Lemma leb_neq_ltb (x y : string) :
  (x <=? y)%string = true -> x <> y -> (x <? y)%string = true.
Proof.
  unfold String.leb, String.ltb. intros H Hne.
  destruct (x ?= y)%string eqn:E; try reflexivity; try discriminate.
  apply String.compare_eq_iff in E. contradiction.
Qed.

Lemma ascending_nodup_strict (l : list string) :
  ascending l -> NoDup l -> strictly_ascending l.
Proof.
  unfold ascending, strictly_ascending.
  induction l as [|x l IH]; intros Hs Hn; [constructor|].
  inversion Hs as [|? ? Hs' Hd]; subst. inversion Hn as [|? ? Hx Hn']; subst.
  constructor; [apply IH; assumption|].
  destruct l as [|y l]; constructor.
  inversion Hd; subst. apply leb_neq_ltb; [assumption|].
  intros ->. apply Hx. left. reflexivity.
Qed.

(** [sorted(set(l))]: the distinct elements of [l] in strictly ascending
    order. *)
Lemma sorted_set_of (l : list string) :
  strictly_ascending (sorted (set_of l)) /\ NoDup (sorted (set_of l)) /\
  forall s, In s (sorted (set_of l)) <-> In s l.
Proof.
  assert (N : NoDup (sorted (set_of l))).
  { apply (Permutation_NoDup (Permutation_sym (sorted_perm _))).
    apply NoDup_nodup. }
  split; [|split].
  - apply ascending_nodup_strict; [apply sorted_ascending | exact N].
  - exact N.
  - intros s. unfold set_of. split; intros H.
    + apply (Permutation_in _ (sorted_perm _)) in H.
      apply nodup_In in H. exact H.
    + apply (Permutation_in _ (Permutation_sym (sorted_perm _))).
      apply nodup_In. exact H.
Qed.




Lemma NoDup_app_disjoint {A : Type} (l1 l2 : list A) :
  NoDup l1 -> NoDup l2 -> (forall x, In x l1 -> ~ In x l2) -> NoDup (List.app l1 l2).
Proof.
  induction l1 as [|x l1 IH]; intros H1 H2 Hd; simpl; [exact H2|].
  inversion H1; subst. constructor.
  - rewrite in_app_iff. intros [H|H]; [contradiction|].
    apply (Hd x); [left; reflexivity | exact H].
  - apply IH; auto. intros y Hy. apply Hd. right. exact Hy.
Qed.


End ExtractionFacts.




(** An "Exemption N(letter)" citation, which the theorem above leaves out:
    its normal form is built as "(b)(" + "7(C)" + ")", so it is not
    recognised as the "(b)(7)(C)" already in the list. *)
Example exemption_with_letter :
  _extract_exemptions "(b)(7)(C) applies, see Exemption 7(C)." "US-Federal"
  = ["(b)(7)(C)"; "(b)(7(C))"]%string.
Proof. reflexivity. Qed.

(* ------------------------------------------------------------------ *)
(** * Properties of the deadline calculator: business days *)
(* ------------------------------------------------------------------ *)

Section BusinessDayFacts.

Variable hol : option (date -> bool).

Lemma business_days_after_bounds (start : Z) (n : nat) :
  0 <= business_days_after hol start n <= Z.of_nat n.
Proof.
  revert start. induction n as [|n IH]; intros start.
  - simpl. lia.
  - specialize (IH (start + 1)). cbn [business_days_after].
    destruct (is_business_day hol (mkdate (start + 1))); lia.
Qed.

(** The loop of [add_business_days], started at [current] with [added] days
    counted so far, when at least [days - added] business days lie among the
    next [n] days and those days are representable: it stops on the business
    day that completes the count. *)
Lemma add_business_days_loop_correct (fuel : nat) :
  forall (current : date) (added days : Z) (n : nat),
    0 <= toordinal current ->
    toordinal current + Z.of_nat n <= MAXORDINAL ->
    added < days ->
    days - added <= business_days_after hol (toordinal current) n ->
    (n <= fuel)%nat ->
    exists (d : date) (m : nat),
      add_business_days_loop fuel current added days hol = Some (Ok d) /\
      toordinal d = toordinal current + Z.of_nat m /\
      (1 <= m <= n)%nat /\
      is_business_day hol d = true /\
      business_days_after hol (toordinal current) m = days - added.
Proof.
  induction fuel as [|fuel IH]; intros current added days n H0 Hmax Hlt Hroom Hfuel.
  - assert (n = O) by lia. subst n. simpl in Hroom. lia.
  - destruct n as [|n]; [simpl in Hroom; lia|].
    cbn [add_business_days_loop].
    apply Z.ltb_lt in Hlt. rewrite Hlt. apply Z.ltb_lt in Hlt.
    unfold date_add_days.
    assert (Hin : (MINORDINAL <=? toordinal current + 1)
                  && (toordinal current + 1 <=? MAXORDINAL) = true).
    { apply Bool.andb_true_iff. unfold MINORDINAL. split; apply Z.leb_le; lia. }
    rewrite Hin. unfold Ok.
    set (next := mkdate (toordinal current + 1)).
    cbn [business_days_after] in Hroom. fold next in Hroom.
    assert (Hnext : toordinal next = toordinal current + 1) by reflexivity.
    assert (Hstep : forall added',
               added' < days ->
               days - added' <= business_days_after hol (toordinal current + 1) n ->
               business_days_after hol (toordinal current) 1 = added' - added ->
               exists (d : date) (m : nat),
                 add_business_days_loop fuel next added' days hol = Some (inl d) /\
                 toordinal d = toordinal current + Z.of_nat m /\
                 (1 <= m <= S n)%nat /\
                 is_business_day hol d = true /\
                 business_days_after hol (toordinal current) m = days - added).
    { intros added' Hlt' Hroom' Hone.
      destruct (IH next added' days n) as (d & m & Hd & Hord & Hm & Hb & Hc);
        try (rewrite Hnext); try lia.
      exists d, (S m). split; [exact Hd|]. split; [lia|]. split; [lia|].
      split; [exact Hb|].
      cbn [business_days_after]. cbn [business_days_after] in Hone.
      rewrite Hnext in Hc. lia. }
    unfold is_business_day in Hroom.
    destruct (_is_weekend next) eqn:Ew.
    + cbn [negb andb] in Hroom.
      apply Hstep; [lia | lia |].
      cbn [business_days_after]. unfold is_business_day. fold next.
      rewrite Ew. cbn [negb andb]. lia.
    + destruct (holiday_test hol next) eqn:Eh; cbn [negb andb] in Hroom.
      * apply Hstep; [lia | lia |].
        cbn [business_days_after]. unfold is_business_day. fold next.
        rewrite Ew, Eh. cbn [negb andb]. lia.
      * assert (Hone : business_days_after hol (toordinal current) 1 = 1).
        { cbn [business_days_after]. unfold is_business_day. fold next.
          rewrite Ew, Eh. cbn [negb andb]. lia. }
        destruct (Z_lt_le_dec (added + 1) days) as [Hmore|Hdone].
        -- apply Hstep; lia.
        -- exists next, 1%nat.
           split.
           { assert (E : (added + 1 <? days) = false) by (apply Z.ltb_ge; lia).
             destruct fuel; cbn [add_business_days_loop]; rewrite E; reflexivity. }
           split; [rewrite Hnext; lia|]. split; [lia|].
           split; [unfold is_business_day; rewrite Ew, Eh; reflexivity|].
           lia.
Qed.

(** More fuel does not change a result. *)
Lemma add_business_days_loop_fuel (fuel : nat) :
  forall (current : date) (added days : Z) (x : result date) (fuel' : nat),
    add_business_days_loop fuel current added days hol = Some x ->
    (fuel <= fuel')%nat ->
    add_business_days_loop fuel' current added days hol = Some x.
Proof.
  induction fuel as [|fuel IH]; intros current added days x fuel' H Hle.
  - cbn [add_business_days_loop] in H.
    destruct (added <? days) eqn:E; [discriminate|].
    destruct fuel'; cbn [add_business_days_loop]; rewrite E; exact H.
  - destruct fuel' as [|fuel']; [lia|].
    cbn [add_business_days_loop] in *.
    destruct (added <? days); [|exact H].
    destruct (date_add_days current 1) as [next|e]; [|exact H].
    destruct (_is_weekend next); [apply IH; [exact H | lia]|].
    destruct (holiday_test hol next); apply IH; try exact H; lia.
Qed.

(** The loop always ends: it returns or raises within as many iterations as
    there are days left up to [date.max]. *)
Lemma add_business_days_loop_terminates (fuel : nat) :
  forall (current : date) (added days : Z),
    (Z.to_nat (MAXORDINAL - toordinal current) < fuel)%nat ->
    add_business_days_loop fuel current added days hol <> None.
Proof.
  induction fuel as [|fuel IH]; intros current added days Hfuel; [lia|].
  cbn [add_business_days_loop].
  destruct (added <? days); [|discriminate].
  unfold date_add_days.
  destruct ((MINORDINAL <=? toordinal current + 1)
            && (toordinal current + 1 <=? MAXORDINAL)) eqn:E; [|discriminate].
  apply Bool.andb_true_iff in E. destruct E as [_ E]. apply Z.leb_le in E.
  assert (Hnext : (Z.to_nat (MAXORDINAL - (toordinal current + 1)) < fuel)%nat) by lia.
  unfold Ok. set (next := mkdate (toordinal current + 1)).
  destruct (_is_weekend next); [apply IH; exact Hnext|].
  destruct (holiday_test hol next); apply IH; exact Hnext.
Qed.

(** [add_business_days] from [filed], when at least [days] business days
    follow it up to the representable date [last]. *)
Lemma add_business_days_spec (filed last : date) (days : Z) (fuel : nat) :
  1 <= days ->
  date_ok filed -> date_ok last ->
  days <= business_days_between hol filed last ->
  (Z.to_nat (toordinal last - toordinal filed) <= fuel)%nat ->
  exists deadline,
    add_business_days fuel filed days hol = Some (Ok deadline) /\
    _is_weekend deadline = false /\
    holiday_test hol deadline = false /\
    toordinal filed < toordinal deadline <= toordinal last /\
    business_days_between hol filed deadline = days.
Proof.
  intros HN [Hf1 Hf2] [Hl1 Hl2] Hroom Hfuel.
  unfold business_days_between in Hroom.
  set (n := Z.to_nat (toordinal last - toordinal filed)) in *.
  assert (Hpos : (0 < n)%nat).
  { destruct n; [simpl in Hroom; lia | lia]. }
  unfold MINORDINAL in *.
  destruct (add_business_days_loop_correct fuel filed 0 days n)
    as (d & m & Hd & Hord & Hm & Hb & Hc); try lia.
  exists d. split; [exact Hd|].
  unfold is_business_day in Hb. apply Bool.andb_true_iff in Hb.
  destruct Hb as [Hw Hh].
  apply Bool.negb_true_iff in Hw. apply Bool.negb_true_iff in Hh.
  split; [exact Hw|]. split; [exact Hh|]. split; [lia|].
  unfold business_days_between.
  replace (Z.to_nat (toordinal d - toordinal filed)) with m by lia.
  lia.
Qed.

End BusinessDayFacts.

(** C3, as the code has it. For every jurisdiction whose registered rule
    counts business days with an initial period N >= 1, and every filing date
    that is followed by at least N business days no later than some
    representable date [last] (a date up to date.max, 9999-12-31), the
    computed deadline is neither a Saturday or Sunday nor a holiday of the
    jurisdiction, and the number of business days strictly after the filing
    date and up to and including the deadline is N. *)
Theorem business_deadline (self : DeadlineCalculator) (jurisdiction : string)
    (rule : Rule) (filed last : date) (fuel : nat) :
  Dict.get (rules self) jurisdiction = Some rule ->
  day_type rule = "business"%string ->
  1 <= initial_days rule ->
  date_ok filed -> date_ok last ->
  initial_days rule <= business_days_between (holiday_fn rule) filed last ->
  (Z.to_nat (toordinal last - toordinal filed) <= fuel)%nat ->
  exists deadline,
    calculate fuel self jurisdiction filed = Some (Ok deadline) /\
    _is_weekend deadline = false /\
    holiday_test (holiday_fn rule) deadline = false /\
    toordinal filed < toordinal deadline <= toordinal last /\
    business_days_between (holiday_fn rule) filed deadline = initial_days rule.
Proof.
  intros Hrule Htype HN Hfiled Hlast Hroom Hfuel.
  unfold calculate, _get_rule. rewrite Hrule. unfold Ok at 1.
  rewrite Htype. cbn match.
  apply add_business_days_spec; assumption.
Qed.

Lemma business_deadline_witness :
  exists deadline,
    calculate 40 default_calculator "US-Federal" d_2025_02_07 = Some (Ok deadline) /\
    _is_weekend deadline = false /\
    holiday_test (Some _is_us_federal_holiday) deadline = false /\
    toordinal d_2025_02_07 < toordinal deadline <= toordinal d_2025_03_19 /\
    business_days_between (Some _is_us_federal_holiday) d_2025_02_07 deadline = 20.
Proof.
  apply (business_deadline default_calculator "US-Federal"
           (mkRule 20 "business" (Some _is_us_federal_holiday) 10 "business")
           d_2025_02_07 d_2025_03_19 40).
  - reflexivity.
  - reflexivity.
  - simpl. lia.
  - unfold date_ok, MINORDINAL, MAXORDINAL. simpl. lia.
  - unfold date_ok, MINORDINAL, MAXORDINAL. simpl. lia.
  - apply Z.leb_le. vm_compute. reflexivity.
  - apply Nat.leb_le. vm_compute. reflexivity.
Defined.

(** C3 as stated fails for "every filing date": from the last day a [date]
    can hold, the first step of the loop already leaves the range of [date]
    and the computation raises [OverflowError] instead of returning a
    deadline. *)
Lemma business_deadline_overflow :
  (forall fuel,
     calculate (S fuel) default_calculator "US-Federal" date_max
     = Some (Raise OverflowError)) /\
  ~ (forall (self : DeadlineCalculator) (jurisdiction : string) (rule : Rule)
            (filed : date),
       Dict.get (rules self) jurisdiction = Some rule ->
       day_type rule = "business"%string ->
       1 <= initial_days rule ->
       date_ok filed ->
       exists fuel deadline,
         calculate fuel self jurisdiction filed = Some (Ok deadline) /\
         _is_weekend deadline = false /\
         holiday_test (holiday_fn rule) deadline = false /\
         business_days_between (holiday_fn rule) filed deadline = initial_days rule).
Proof.
  assert (G : forall fuel,
             calculate (S fuel) default_calculator "US-Federal" date_max
             = Some (Raise OverflowError)) by (intros fuel; reflexivity).
  split; [exact G|].
  intros H.
  destruct (H default_calculator "US-Federal"
              (mkRule 20 "business" (Some _is_us_federal_holiday) 10 "business")
              date_max eq_refl eq_refl)
    as (fuel & deadline & Hc & _).
  - simpl. lia.
  - unfold date_ok, date_max, MINORDINAL, MAXORDINAL. simpl. lia.
  - destruct fuel as [|fuel].
    + vm_compute in Hc. discriminate Hc.
    + rewrite G in Hc. discriminate Hc.
Qed.

(* ------------------------------------------------------------------ *)
(** * The built-in holiday calendars leave room for a deadline *)
(* ------------------------------------------------------------------ *)

Section CalendarCycle.

(** The Gregorian calendar repeats every 400 years, a whole number of weeks. *)
Lemma divmod_div_mod (a b : Z) : divmod a b = (a / b, a mod b).
Proof. unfold divmod, Z.div, Z.modulo. destruct (Z.div_eucl a b); reflexivity. Qed.

Lemma ord2ymd_cycle (o : Z) :
  _ord2ymd (o + _DI400Y)
  = (fst (fst (_ord2ymd o)) + 400, snd (fst (_ord2ymd o)), snd (_ord2ymd o)).
Proof.
  unfold _ord2ymd. rewrite !divmod_div_mod.
  replace (o + _DI400Y - 1) with (o - 1 + 1 * _DI400Y) by lia.
  rewrite Z_div_plus, Z_mod_plus by (unfold _DI400Y; lia).
  cbv zeta.
  set (n := (o - 1) mod _DI400Y).
  destruct ((n mod _DI100Y mod _DI4Y / 365 =? 4) || (n / _DI100Y =? 4)).
  - cbn [fst snd]. f_equal. f_equal. lia.
  - match goal with |- context [if ?c then _ else _] => destruct c end;
      cbn [fst snd]; f_equal; f_equal; lia.
Qed.

Lemma month_cycle (o : Z) : month (mkdate (o + _DI400Y)) = month (mkdate o).
Proof. unfold month. cbn [toordinal]. rewrite ord2ymd_cycle. reflexivity. Qed.

Lemma day_cycle (o : Z) : day (mkdate (o + _DI400Y)) = day (mkdate o).
Proof. unfold day. cbn [toordinal]. rewrite ord2ymd_cycle. reflexivity. Qed.

Lemma weekday_cycle (o : Z) : weekday (mkdate (o + _DI400Y)) = weekday (mkdate o).
Proof.
  unfold weekday. cbn [toordinal].
  replace (o + _DI400Y + 6) with (o + 6 + 20871 * 7) by (unfold _DI400Y; lia).
  apply Z_mod_plus. lia.
Qed.

Lemma cyclic_us : cyclic (Some _is_us_federal_holiday).
Proof.
  intros o. unfold holiday_test, _is_us_federal_holiday.
  rewrite month_cycle, day_cycle, weekday_cycle. reflexivity.
Qed.

Lemma cyclic_uk : cyclic (Some _is_uk_bank_holiday).
Proof.
  intros o. unfold holiday_test, _is_uk_bank_holiday.
  rewrite month_cycle, day_cycle, weekday_cycle. reflexivity.
Qed.

Lemma cyclic_none : cyclic None.
Proof. intros o. reflexivity. Qed.

Variable hol : option (date -> bool).
Hypothesis hol_cyclic : cyclic hol.

Lemma is_business_day_cycle (o : Z) :
  is_business_day hol (mkdate (o + _DI400Y)) = is_business_day hol (mkdate o).
Proof.
  unfold is_business_day, _is_weekend.
  rewrite weekday_cycle, hol_cyclic. reflexivity.
Qed.

Lemma business_days_after_cycle (n : nat) :
  forall start,
    business_days_after hol (start + _DI400Y) n = business_days_after hol start n.
Proof.
  induction n as [|n IH]; intros start; cbn [business_days_after]; [reflexivity|].
  replace (start + _DI400Y + 1) with (start + 1 + _DI400Y) by lia.
  rewrite is_business_day_cycle, IH. reflexivity.
Qed.

Lemma business_days_after_cycles (n k : nat) (start : Z) :
  business_days_after hol (start + Z.of_nat k * _DI400Y) n
  = business_days_after hol start n.
Proof.
  induction k as [|k IH].
  - f_equal. lia.
  - replace (start + Z.of_nat (S k) * _DI400Y)
      with (start + Z.of_nat k * _DI400Y + _DI400Y) by lia.
    rewrite business_days_after_cycle. exact IH.
Qed.

End CalendarCycle.

Section IncrementalCalendar.

(** [bump] follows [divmod] when its argument grows by one or falls back to
    zero; the flag tells which of the two the remainder does. *)
Lemma bump_spec (b a : Z) (inc : bool) :
  0 < b -> 0 <= a ->
  let a' := if inc then a + 1 else 0 in
  fst (bump b (divmod a b) inc) = divmod a' b /\
  snd (divmod a' b) = (if snd (bump b (divmod a b) inc)
                       then snd (divmod a b) + 1 else 0) /\
  0 <= a'.
Proof.
  intros Hb Ha. cbv zeta. rewrite !divmod_div_mod. unfold bump.
  destruct inc; cbn [fst snd].
  - pose proof (Z.div_mod a b ltac:(lia)) as E.
    pose proof (Z.mod_pos_bound a b Hb) as R.
    destruct (a mod b + 1 =? b) eqn:C; cbn [fst snd].
    + apply Z.eqb_eq in C.
      assert (Q : (a + 1) / b = a / b + 1).
      { symmetry. apply (Z.div_unique (a + 1) b (a / b + 1) 0); lia. }
      assert (M : (a + 1) mod b = 0).
      { symmetry. apply (Z.mod_unique (a + 1) b (a / b + 1) 0); lia. }
      rewrite Q, M. repeat split; lia.
    + apply Z.eqb_neq in C.
      assert (Q : (a + 1) / b = a / b).
      { symmetry. apply (Z.div_unique (a + 1) b (a / b) (a mod b + 1)); lia. }
      assert (M : (a + 1) mod b = a mod b + 1).
      { symmetry. apply (Z.mod_unique (a + 1) b (a / b) (a mod b + 1)); lia. }
      rewrite Q, M. repeat split; lia.
  - rewrite Z.div_0_l, Z.mod_0_l by lia. repeat split; lia.
Qed.

Lemma divmod_snd_nonneg (a b : Z) : 0 < b -> 0 <= snd (divmod a b).
Proof.
  intros Hb. rewrite divmod_div_mod. cbn [snd]. apply Z.mod_pos_bound, Hb.
Qed.

Lemma next_digits_of (n : Z) : 0 <= n -> next_digits (digits_of n) = digits_of (n + 1).
Proof.
  intros Hn. unfold next_digits, digits_of. cbn [d400 d100 d4 d1 d7].
  destruct (bump_spec _DI400Y n true) as (A1 & A2 & A3);
    [unfold _DI400Y; lia | exact Hn |].
  destruct (bump _DI400Y (divmod n _DI400Y) true) as [a i0]. cbn [fst snd] in *.
  destruct (bump_spec _DI100Y (snd (divmod n _DI400Y)) i0) as (B1 & B2 & B3);
    [unfold _DI100Y; lia | apply divmod_snd_nonneg; unfold _DI400Y; lia |].
  destruct (bump _DI100Y (divmod (snd (divmod n _DI400Y)) _DI100Y) i0) as [b i1].
  cbn [fst snd] in *.
  destruct (bump_spec _DI4Y (snd (divmod (snd (divmod n _DI400Y)) _DI100Y)) i1)
    as (C1 & C2 & C3);
    [unfold _DI4Y; lia | apply divmod_snd_nonneg; unfold _DI100Y; lia |].
  destruct (bump _DI4Y
              (divmod (snd (divmod (snd (divmod n _DI400Y)) _DI100Y)) _DI4Y) i1)
    as [c i2].
  cbn [fst snd] in *.
  destruct (bump_spec 365
              (snd (divmod (snd (divmod (snd (divmod n _DI400Y)) _DI100Y)) _DI4Y))
              i2) as (D1 & D2 & D3);
    [lia | apply divmod_snd_nonneg; unfold _DI4Y; lia |].
  destruct (bump 365 _ i2) as [d i3]. cbn [fst snd] in *.
  destruct (bump_spec 7 n true) as (W1 & _ & _); [lia | exact Hn |].
  destruct (bump 7 (divmod n 7) true) as [w i4]. cbn [fst snd] in *.
  rewrite <- A2 in B1, B2. rewrite <- B2 in C1, C2. rewrite <- C2 in D1.
  rewrite A1, B1, C1, D1, W1. reflexivity.
Qed.

Lemma month_day_weekday_digits (n : Z) :
  month_day_weekday (n + 1)
  = (month_day_of_digits (digits_of n), snd (d7 (digits_of n))).
Proof.
  unfold month_day_weekday, _ord2ymd, month_day_of_digits, digits_of.
  cbn [d400 d100 d4 d1 d7].
  replace (n + 1 - 1) with n by lia.
  replace (n + 1 + 6) with (n + 1 * 7) by lia.
  rewrite Z_mod_plus by lia.
  rewrite (divmod_div_mod n 7). cbn [snd].
  destruct (divmod n _DI400Y) as [n400 r400]. cbn [snd].
  destruct (divmod r400 _DI100Y) as [n100 r100]. cbn [fst snd].
  destruct (divmod r100 _DI4Y) as [n4 r4]. cbn [fst snd].
  destruct (divmod r4 365) as [n1 r1].
  destruct ((n1 =? 4) || (n100 =? 4)); [reflexivity|].
  match goal with |- context [if ?c then _ else _] => destruct c end; reflexivity.
Qed.

Lemma table_from_digits (k : nat) :
  forall n, 0 <= n ->
    table_from (digits_of n) k = map month_day_weekday (ordinals n k).
Proof.
  induction k as [|k IH]; intros n Hn; [reflexivity|].
  cbn [table_from ordinals map].
  rewrite month_day_weekday_digits, next_digits_of by exact Hn.
  rewrite IH by lia. reflexivity.
Qed.

End IncrementalCalendar.

Lemma cycle_table_spec :
  cycle_table = map month_day_weekday (ordinals 0 (Z.to_nat _DI400Y + 40)).
Proof. unfold cycle_table. apply table_from_digits. lia. Qed.

Section Windows.

Variable bd : Z -> bool.

Lemma count_true_ordinals (width : nat) :
  forall start extra,
    count_true width (map bd (ordinals start (width + extra)))
    = count_true width (map bd (ordinals start width)).
Proof.
  induction width as [|w IH]; intros start extra; [destruct extra; reflexivity|].
  cbn [Nat.add ordinals map count_true]. rewrite IH. reflexivity.
Qed.

Lemma count_true_nonneg (width : nat) : forall l, 0 <= count_true width l.
Proof.
  induction width as [|w IH]; intros l; [simpl; lia|].
  destruct l as [|b l]; cbn [count_true]; [lia|].
  specialize (IH l). destruct b; lia.
Qed.

Lemma at_least_count (width : nat) :
  forall need l, at_least need width l = true -> Z.of_nat need <= count_true width l.
Proof.
  induction width as [|w IH]; intros need l H.
  - destruct need; [simpl; lia | discriminate H].
  - destruct need as [|k].
    + pose proof (count_true_nonneg (S w) l). lia.
    + destruct l as [|b l]; [discriminate H|].
      cbn [at_least] in H. cbn [count_true].
      destruct b; apply IH in H; lia.
Qed.

Lemma windows_sound (need width n : nat) :
  forall start,
    windows need width n (map bd (ordinals start (n + width))) = true ->
    forall i, (i < n)%nat ->
      Z.of_nat need
      <= count_true width (map bd (ordinals (start + Z.of_nat i) width)).
Proof.
  induction n as [|n IH]; intros start H i Hi; [lia|].
  cbn [Nat.add ordinals map windows tl] in H.
  apply Bool.andb_true_iff in H. destruct H as [H1 H2].
  destruct i as [|i].
  - replace (start + Z.of_nat 0) with start by lia.
    apply at_least_count in H1.
    change (bd (start + 1) :: map bd (ordinals (start + 1) (n + width)))
      with (map bd (ordinals start (S (n + width)))) in H1.
    replace (S (n + width)) with (width + S n)%nat in H1 by lia.
    rewrite count_true_ordinals in H1. exact H1.
  - replace (start + Z.of_nat (S i)) with (start + 1 + Z.of_nat i) by lia.
    apply IH; [exact H2 | lia].
Qed.

End Windows.

Lemma business_by_rule_us (o : Z) :
  business_by_rule us_federal_holiday_rule (month_day_weekday o)
  = is_business_day (Some _is_us_federal_holiday) (mkdate o).
Proof.
  unfold business_by_rule, month_day_weekday, is_business_day, holiday_test,
    _is_us_federal_holiday, _is_weekend, month, day, weekday. cbn [toordinal].
  destruct (_ord2ymd o) as [[y m] d]. reflexivity.
Qed.

Lemma business_by_rule_uk (o : Z) :
  business_by_rule uk_bank_holiday_rule (month_day_weekday o)
  = is_business_day (Some _is_uk_bank_holiday) (mkdate o).
Proof.
  unfold business_by_rule, month_day_weekday, is_business_day, holiday_test,
    _is_uk_bank_holiday, _is_weekend, month, day, weekday. cbn [toordinal].
  destruct (_ord2ymd o) as [[y m] d]. reflexivity.
Qed.

Lemma business_by_rule_none (o : Z) :
  business_by_rule no_holiday_rule (month_day_weekday o)
  = is_business_day None (mkdate o).
Proof.
  unfold business_by_rule, month_day_weekday, is_business_day, holiday_test,
    _is_weekend, weekday. cbn [toordinal].
  destruct (_ord2ymd o) as [[y m] d]. reflexivity.
Qed.

Lemma business_days_after_count (hol : option (date -> bool))
    (rule : Z -> Z -> Z -> bool) :
  (forall o, business_by_rule rule (month_day_weekday o)
             = is_business_day hol (mkdate o)) ->
  forall n start,
    business_days_after hol start n
    = count_true n (map (fun o => business_by_rule rule (month_day_weekday o))
                        (ordinals start n)).
Proof.
  intros Hbd. induction n as [|n IH]; intros start; [reflexivity|].
  cbn [business_days_after ordinals map count_true]. rewrite IH, Hbd. reflexivity.
Qed.

(** Every stretch of 40 days that starts in the cycle holds enough business
    days for each built-in rule. *)
Lemma cycle_checks :
  let flags_of rule := map (business_by_rule rule) cycle_table in
  windows 20 40 (Z.to_nat _DI400Y) (flags_of us_federal_holiday_rule)
  && windows 20 40 (Z.to_nat _DI400Y) (flags_of uk_bank_holiday_rule)
  && windows 15 40 (Z.to_nat _DI400Y) (flags_of no_holiday_rule) = true.
Proof. vm_cast_no_check (eq_refl true). Qed.

Lemma enough_business_days (hol : option (date -> bool))
    (rule : Z -> Z -> Z -> bool) (need width cycle : nat)
    (table : list (Z * Z * Z)) :
  cyclic hol ->
  (forall o, business_by_rule rule (month_day_weekday o)
             = is_business_day hol (mkdate o)) ->
  Z.of_nat cycle = _DI400Y ->
  table = map month_day_weekday (ordinals 0 (cycle + width)) ->
  windows need width cycle (map (business_by_rule rule) table) = true ->
  forall start, 0 <= start -> Z.of_nat need <= business_days_after hol start width.
Proof.
  intros Hc Hbd Hcycle Htable Hw start Hs.
  assert (Hr : 0 <= start mod _DI400Y < _DI400Y)
    by (apply Z.mod_pos_bound; unfold _DI400Y; lia).
  assert (Hq : 0 <= start / _DI400Y)
    by (apply Z.div_pos; unfold _DI400Y; lia).
  pose proof (Z_div_mod_eq_full start _DI400Y) as E.
  replace start
    with (start mod _DI400Y + Z.of_nat (Z.to_nat (start / _DI400Y)) * _DI400Y)
    by (rewrite Z2Nat.id by exact Hq; lia).
  rewrite (business_days_after_cycles hol Hc).
  rewrite (business_days_after_count hol rule Hbd).
  subst table. rewrite map_map in Hw.
  pose proof (windows_sound _ need width cycle 0 Hw
                (Z.to_nat (start mod _DI400Y))) as G.
  rewrite Z2Nat.id in G by apply Hr. rewrite Z.add_0_l in G.
  apply G. apply Nat2Z.inj_lt. rewrite Z2Nat.id by apply Hr.
  rewrite Hcycle. apply Hr.
Qed.

(** The built-in business-day rules: at least as many business days as the
    rule counts lie within any 40 days. *)
Lemma builtin_rules_have_room (start : Z) :
  0 <= start ->
  20 <= business_days_after (Some _is_us_federal_holiday) start 40 /\
  20 <= business_days_after (Some _is_uk_bank_holiday) start 40 /\
  15 <= business_days_after None start 40.
Proof.
  intros Hs. pose proof cycle_checks as C. cbv zeta beta in C.
  apply Bool.andb_true_iff in C. destruct C as [C C3].
  apply Bool.andb_true_iff in C. destruct C as [C1 C2].
  assert (Hcycle : Z.of_nat (Z.to_nat _DI400Y) = _DI400Y)
    by (apply Z2Nat.id; unfold _DI400Y; lia).
  split; [|split].
  - exact (enough_business_days _ _ 20%nat 40%nat _ _ cyclic_us business_by_rule_us
             Hcycle cycle_table_spec C1 start Hs).
  - exact (enough_business_days _ _ 20%nat 40%nat _ _ cyclic_uk business_by_rule_uk
             Hcycle cycle_table_spec C2 start Hs).
  - exact (enough_business_days _ _ 15%nat 40%nat _ _ cyclic_none
             business_by_rule_none Hcycle cycle_table_spec C3 start Hs).
Qed.

(** For the built-in rules (and the state fallback) no assumption on the
    holidays is needed: every filing date up to 40 days before date.max gets
    its deadline within those 40 days. *)
Corollary builtin_business_deadline (jurisdiction : string) (rule : Rule)
    (filed : date) (fuel : nat) :
  _get_rule default_calculator jurisdiction = Ok rule ->
  day_type rule = "business"%string ->
  date_ok filed ->
  toordinal filed + 40 <= MAXORDINAL ->
  (40 <= fuel)%nat ->
  exists deadline,
    calculate fuel default_calculator jurisdiction filed = Some (Ok deadline) /\
    _is_weekend deadline = false /\
    holiday_test (holiday_fn rule) deadline = false /\
    toordinal filed < toordinal deadline <= toordinal filed + 40 /\
    business_days_between (holiday_fn rule) filed deadline = initial_days rule.
Proof.
  intros Hrule Htype Hfiled Hmax Hfuel.
  assert (Hroom : 1 <= initial_days rule /\
                  initial_days rule
                  <= business_days_after (holiday_fn rule) (toordinal filed) 40).
  { destruct Hfiled as [Hf _]. unfold MINORDINAL in Hf.
    destruct (builtin_rules_have_room (toordinal filed)) as (Hus & Huk & Heu);
      [lia|].
    unfold _get_rule, default_calculator, new_calculator in Hrule.
    cbn [rules JURISDICTION_RULES Dict.get] in Hrule.
    repeat match type of Hrule with
           | context [if ?c then _ else _] => destruct c; cbn match in Hrule
           end;
      inversion Hrule; subst; unfold state_fallback_rule in *;
      cbn [initial_days holiday_fn day_type] in *;
      try discriminate Htype; split; lia. }
  destruct Hroom as [HN Hroom].
  unfold calculate. rewrite Hrule. unfold Ok at 1. rewrite Htype. cbn match.
  destruct (add_business_days_spec (holiday_fn rule) filed
              (mkdate (toordinal filed + 40)) (initial_days rule) fuel)
    as (deadline & H); try assumption.
  - unfold date_ok in *. cbn [toordinal]. lia.
  - unfold business_days_between. cbn [toordinal].
    replace (Z.to_nat (toordinal filed + 40 - toordinal filed)) with 40%nat by lia.
    exact Hroom.
  - cbn [toordinal]. lia.
  - exists deadline. cbn [toordinal] in H. exact H.
Qed.

(* ------------------------------------------------------------------ *)
(** * The deadline calculator: arithmetic of business days *)
(* ------------------------------------------------------------------ *)

Section BusinessDayAlgebra.

Variable hol : option (date -> bool).

Lemma business_days_after_app (n m : nat) :
  forall start,
    business_days_after hol start (n + m)
    = business_days_after hol start n
      + business_days_after hol (start + Z.of_nat n) m.
Proof.
  induction n as [|n IH]; intros start.
  - replace (start + Z.of_nat 0) with start by lia.
    cbn [Nat.add business_days_after]. lia.
  - cbn [Nat.add business_days_after]. rewrite IH.
    replace (start + 1 + Z.of_nat n) with (start + Z.of_nat (S n)) by lia. lia.
Qed.

(** The last of [m >= 1] days counts when it is a business day. *)
Lemma business_days_after_last (m : nat) (start : Z) :
  business_days_after hol start (S m)
  = business_days_after hol start m
    + (if is_business_day hol (mkdate (start + Z.of_nat (S m))) then 1 else 0).
Proof.
  replace (S m) with (m + 1)%nat at 1 by lia.
  rewrite business_days_after_app. cbn [business_days_after].
  replace (start + Z.of_nat m + 1) with (start + Z.of_nat (S m)) by lia. lia.
Qed.

Lemma business_days_after_mono (n m : nat) (start : Z) :
  (n <= m)%nat -> business_days_after hol start n <= business_days_after hol start m.
Proof.
  intros H. replace m with (n + (m - n))%nat by lia.
  rewrite business_days_after_app.
  pose proof (business_days_after_bounds hol (start + Z.of_nat n) (m - n)). lia.
Qed.

(** What a returned date says about the loop of [add_business_days]. *)
Lemma add_business_days_loop_sound (fuel : nat) :
  forall (current : date) (added days : Z) (d : date),
    add_business_days_loop fuel current added days hol = Some (Ok d) ->
    added < days ->
    exists m : nat,
      (1 <= m <= fuel)%nat /\
      toordinal d = toordinal current + Z.of_nat m /\
      0 <= toordinal current /\ toordinal d <= MAXORDINAL /\
      is_business_day hol d = true /\
      business_days_after hol (toordinal current) m = days - added.
Proof.
  induction fuel as [|fuel IH]; intros current added days d H Hlt;
    cbn [add_business_days_loop] in H;
    pose proof Hlt as Hlt'; apply Z.ltb_lt in Hlt'; rewrite Hlt' in H;
    [discriminate|].
  unfold date_add_days in H.
  destruct ((MINORDINAL <=? toordinal current + 1)
            && (toordinal current + 1 <=? MAXORDINAL)) eqn:Er; [|discriminate].
  apply Bool.andb_true_iff in Er. destruct Er as [Er0 Er].
  apply Z.leb_le in Er0. apply Z.leb_le in Er. unfold MINORDINAL in Er0.
  unfold Ok in H. set (next := mkdate (toordinal current + 1)) in *.
  assert (Hstep : forall added',
             added' < days ->
             add_business_days_loop fuel next added' days hol = Some (inl d) ->
             business_days_after hol (toordinal current) 1 = added' - added ->
             exists m : nat,
               (1 <= m <= S fuel)%nat /\
               toordinal d = toordinal current + Z.of_nat m /\
               0 <= toordinal current /\ toordinal d <= MAXORDINAL /\
               is_business_day hol d = true /\
               business_days_after hol (toordinal current) m = days - added).
  { intros added' Hlt2 Hrun Hone.
    destruct (IH next added' days d Hrun Hlt2) as (m & Hm & Hord & _ & Hmax & Hb & Hc).
    assert (Hnext : toordinal next = toordinal current + 1) by reflexivity.
    rewrite Hnext in Hord, Hc.
    exists (S m). split; [lia|]. split; [lia|]. split; [lia|].
    split; [exact Hmax|]. split; [exact Hb|].
    cbn [business_days_after] in *. fold next. fold next in Hone. lia. }
  assert (Hone : business_days_after hol (toordinal current) 1
                 = if is_business_day hol next then 1 else 0).
  { cbn [business_days_after]. fold next. lia. }
  unfold is_business_day in Hone.
  destruct (_is_weekend next) eqn:Ew.
  - cbn [negb andb] in Hone. apply (Hstep added); [exact Hlt | exact H | lia].
  - destruct (holiday_test hol next) eqn:Eh; cbn [negb andb] in Hone.
    + apply (Hstep added); [exact Hlt | exact H | lia].
    + destruct (Z_lt_le_dec (added + 1) days) as [Hmore|Hdone].
      * apply (Hstep (added + 1)); [exact Hmore | exact H | lia].
      * assert (E : (added + 1 <? days) = false) by (apply Z.ltb_ge; lia).
        assert (Hd : d = next).
        { destruct fuel; cbn [add_business_days_loop] in H; rewrite E in H;
            inversion H; reflexivity. }
        subst d. exists 1%nat. split; [lia|]. split; [reflexivity|].
        split; [lia|]. split; [exact Er|].
        split; [unfold is_business_day; rewrite Ew, Eh; reflexivity|]. lia.
Qed.

(** With nothing to count the loop returns at once. *)
Lemma add_business_days_loop_done (fuel : nat) (current : date) (added days : Z) :
  days <= added ->
  add_business_days_loop fuel current added days hol = Some (Ok current).
Proof.
  intros H. assert (E : (added <? days) = false) by (apply Z.ltb_ge; lia).
  destruct fuel; cbn [add_business_days_loop]; rewrite E; reflexivity.
Qed.

(** A business day at the end of a longer stretch adds to the count. *)
Lemma business_days_after_lt (start : Z) (a b : nat) :
  (a < b)%nat ->
  is_business_day hol (mkdate (start + Z.of_nat b)) = true ->
  business_days_after hol start a < business_days_after hol start b.
Proof.
  intros Hab Hb. destruct b as [|b]; [lia|].
  rewrite (business_days_after_last b), Hb.
  pose proof (business_days_after_mono a b start). lia.
Qed.

(** The loop raises nothing but [OverflowError]. *)
Lemma add_business_days_loop_raises (fuel : nat) :
  forall (current : date) (added days : Z) (e : exn),
    add_business_days_loop fuel current added days hol = Some (Raise e) ->
    e = OverflowError.
Proof.
  induction fuel as [|fuel IH]; intros current added days e H;
    cbn [add_business_days_loop] in H; destruct (added <? days);
    try discriminate H.
  unfold date_add_days in H.
  destruct ((MINORDINAL <=? toordinal current + 1)
            && (toordinal current + 1 <=? MAXORDINAL)).
  - unfold Ok in H.
    destruct (_is_weekend _); [exact (IH _ _ _ _ H)|].
    destruct (holiday_test hol _); exact (IH _ _ _ _ H).
  - inversion H. reflexivity.
Qed.

(** The day [add_business_days] returns is settled by the count. *)
Lemma business_day_count_unique (start : Z) (m1 m2 : nat) :
  is_business_day hol (mkdate (start + Z.of_nat m1)) = true ->
  is_business_day hol (mkdate (start + Z.of_nat m2)) = true ->
  (1 <= m1)%nat -> (1 <= m2)%nat ->
  business_days_after hol start m1 = business_days_after hol start m2 ->
  m1 = m2.
Proof.
  intros H1 H2 L1 L2 E.
  destruct (Nat.lt_trichotomy m1 m2) as [Hlt|[Heq|Hgt]]; [|exact Heq|].
  - pose proof (business_days_after_lt start m1 m2 Hlt H2). lia.
  - pose proof (business_days_after_lt start m2 m1 Hgt H1). lia.
Qed.

(** A positive count [days] takes at least [days] days. *)
Lemma add_business_days_at_least (start d : date) (days : Z) (fuel : nat) :
  1 <= days ->
  add_business_days fuel start days hol = Some (Ok d) ->
  toordinal start + days <= toordinal d.
Proof.
  unfold add_business_days. intros Hd H.
  destruct (add_business_days_loop_sound fuel _ _ _ _ H)
    as (m & Hm & Ho & _ & _ & _ & Hc); [lia|].
  pose proof (business_days_after_bounds hol (toordinal start) m). lia.
Qed.

Lemma date_ext (a b : date) : toordinal a = toordinal b -> a = b.
Proof. destruct a, b. cbn [toordinal]. intros ->. reflexivity. Qed.

End BusinessDayAlgebra.

(** X1. Counting [a] business days and then [b] more is counting [a + b]
    business days at once: [add_business_days(add_business_days(s, a), b)]
    is [add_business_days(s, a + b)] for counts that are not negative. *)
Theorem add_business_days_compose (hol : option (date -> bool))
    (start d1 d2 : date) (a b : Z) (f1 f2 : nat) :
  0 <= a -> 0 <= b ->
  add_business_days f1 start a hol = Some (Ok d1) ->
  add_business_days f2 d1 b hol = Some (Ok d2) ->
  add_business_days (f1 + f2) start (a + b) hol = Some (Ok d2).
Proof.
  unfold add_business_days. intros Ha Hb H1 H2.
  destruct (Z.eq_dec a 0) as [->|Ha0].
  { rewrite add_business_days_loop_done in H1 by lia.
    inversion H1; subst d1. cbn [Z.add].
    eapply add_business_days_loop_fuel; [exact H2 | lia]. }
  destruct (Z.eq_dec b 0) as [->|Hb0].
  { rewrite add_business_days_loop_done in H2 by lia.
    inversion H2; subst d2. rewrite Z.add_0_r.
    eapply add_business_days_loop_fuel; [exact H1 | lia]. }
  destruct (add_business_days_loop_sound hol f1 _ _ _ _ H1)
    as (m1 & Hm1 & Ho1 & Hs0 & _ & Hb1 & Hc1); [lia|].
  destruct (add_business_days_loop_sound hol f2 _ _ _ _ H2)
    as (m2 & Hm2 & Ho2 & _ & Hmax & Hb2 & Hc2); [lia|].
  assert (Hcount : business_days_after hol (toordinal start) (m1 + m2) = a + b).
  { rewrite business_days_after_app, <- Ho1. lia. }
  destruct (add_business_days_loop_correct hol (f1 + f2) start 0 (a + b) (m1 + m2))
    as (d & m & Hd & Ho & Hm & Hbd & Hc); try lia.
  rewrite Hd. f_equal. f_equal. apply date_ext.
  assert (m = (m1 + m2)%nat); [|lia].
  apply (business_day_count_unique hol (toordinal start)); try lia.
  - rewrite <- Ho. destruct d; exact Hbd.
  - replace (toordinal start + Z.of_nat (m1 + m2)) with (toordinal d2) by lia.
    destruct d2; exact Hb2.
Qed.

Lemma add_business_days_compose_witness :
  add_business_days 40 d_2025_02_07 20 (Some _is_us_federal_holiday)
  = Some (Ok d_2025_03_10) /\
  add_business_days 20 d_2025_03_10 10 (Some _is_us_federal_holiday)
  = Some (Ok d_2025_03_24) /\
  add_business_days (40 + 20) d_2025_02_07 (20 + 10) (Some _is_us_federal_holiday)
  = Some (Ok d_2025_03_24).
Proof.
  split; [reflexivity|]. split; [reflexivity|].
  apply (add_business_days_compose _ d_2025_02_07 d_2025_03_10 d_2025_03_24);
    [lia | lia | reflexivity | reflexivity].
Defined.

(** X2. A later start never gives an earlier result, and two starts with no
    business day from the first to the second (a Friday and the Sunday after
    it) give the same result. *)
Theorem add_business_days_monotone (hol : option (date -> bool))
    (s1 s2 d1 d2 : date) (days : Z) (f1 f2 : nat) :
  toordinal s1 <= toordinal s2 ->
  add_business_days f1 s1 days hol = Some (Ok d1) ->
  add_business_days f2 s2 days hol = Some (Ok d2) ->
  toordinal d1 <= toordinal d2 /\
  (1 <= days -> business_days_between hol s1 s2 = 0 -> d1 = d2).
Proof.
  unfold add_business_days. intros Hs H1 H2.
  destruct (Z_lt_le_dec 0 days) as [Hpos|Hnon].
  2:{ rewrite add_business_days_loop_done in H1, H2 by exact Hnon.
      inversion H1; inversion H2; subst. split; [exact Hs | lia]. }
  destruct (add_business_days_loop_sound hol f1 _ _ _ _ H1 Hpos)
    as (m1 & Hm1 & Ho1 & _ & _ & Hb1 & Hc1).
  destruct (add_business_days_loop_sound hol f2 _ _ _ _ H2 Hpos)
    as (m2 & Hm2 & Ho2 & _ & _ & Hb2 & Hc2).
  set (k := Z.to_nat (toordinal s2 - toordinal s1)).
  assert (Hk : toordinal s2 = toordinal s1 + Z.of_nat k) by (unfold k; lia).
  assert (Hsum : business_days_after hol (toordinal s1) (k + m2)
                 = business_days_after hol (toordinal s1) k + days).
  { rewrite business_days_after_app, <- Hk. lia. }
  pose proof (business_days_after_bounds hol (toordinal s1) k) as Hkb.
  split.
  - destruct (Z_le_gt_dec (toordinal d1) (toordinal d2)) as [Hle|Hgt]; [exact Hle|].
    exfalso.
    assert (Hlt : (k + m2 < m1)%nat) by lia.
    pose proof (business_days_after_lt hol (toordinal s1) (k + m2) m1 Hlt) as G.
    rewrite <- Ho1 in G. destruct d1 as [o1]. cbn [toordinal] in *.
    specialize (G Hb1). lia.
  - intros _ Hzero. unfold business_days_between in Hzero. fold k in Hzero.
    apply date_ext.
    assert (m1 = (k + m2)%nat); [|lia].
    apply (business_day_count_unique hol (toordinal s1)); try lia.
    + rewrite <- Ho1. destruct d1; exact Hb1.
    + replace (toordinal s1 + Z.of_nat (k + m2)) with (toordinal d2) by lia.
      destruct d2; exact Hb2.
Qed.

Lemma add_business_days_monotone_witness :
  add_business_days 40 d_2025_02_07 20 (Some _is_us_federal_holiday)
  = Some (Ok d_2025_03_10) /\
  add_business_days 40 (mkdate 739291) 20 (Some _is_us_federal_holiday)
  = Some (Ok d_2025_03_10) /\
  toordinal d_2025_03_10 <= toordinal d_2025_03_10 /\
  (1 <= 20 ->
   business_days_between (Some _is_us_federal_holiday) d_2025_02_07 (mkdate 739291) = 0 ->
   d_2025_03_10 = d_2025_03_10).
Proof.
  split; [reflexivity|]. split; [reflexivity|].
  apply (add_business_days_monotone (Some _is_us_federal_holiday)
           d_2025_02_07 (mkdate 739291) d_2025_03_10 d_2025_03_10 20 40 40).
  - simpl. lia.
  - reflexivity.
  - reflexivity.
Defined.

(** X3. [add_business_days] with a positive count always ends: it returns a
    date when that many business days are left up to date.max, and raises
    [OverflowError] when they are not. *)
Theorem add_business_days_outcome (hol : option (date -> bool)) (start : date)
    (days : Z) (fuel : nat) :
  1 <= days -> date_ok start ->
  (Z.to_nat (MAXORDINAL - toordinal start) < fuel)%nat ->
  (days <= business_days_between hol start date_max ->
   exists d, add_business_days fuel start days hol = Some (Ok d)) /\
  (business_days_between hol start date_max < days ->
   add_business_days fuel start days hol = Some (Raise OverflowError)).
Proof.
  intros Hd Hs Hfuel. split.
  - intros Hroom.
    destruct (add_business_days_spec hol start date_max days fuel)
      as (d & H & _); try assumption.
    + unfold date_ok, date_max, MINORDINAL, MAXORDINAL. cbn [toordinal]. lia.
    + unfold date_max. cbn [toordinal]. lia.
    + exists d. exact H.
  - intros Hfew. unfold add_business_days.
    pose proof (add_business_days_loop_terminates hol fuel start 0 days Hfuel) as Ht.
    destruct (add_business_days_loop fuel start 0 days hol) as [[d|e]|] eqn:E;
      [| |congruence].
    + exfalso.
      destruct (add_business_days_loop_sound hol fuel _ _ _ _ E)
        as (m & Hm & Ho & _ & Hmax & _ & Hc); [lia|].
      unfold business_days_between, date_max in Hfew. cbn [toordinal] in Hfew.
      pose proof (business_days_after_mono hol m
                    (Z.to_nat (MAXORDINAL - toordinal start)) (toordinal start)).
      lia.
    + apply add_business_days_loop_raises in E. subst e. reflexivity.
Qed.

Lemma add_business_days_outcome_witness :
  (20 <= business_days_between None (mkdate (MAXORDINAL - 50)) date_max ->
   exists d, add_business_days 60 (mkdate (MAXORDINAL - 50)) 20 None = Some (Ok d)) /\
  (business_days_between None (mkdate (MAXORDINAL - 2)) date_max < 3 ->
   add_business_days 3 (mkdate (MAXORDINAL - 2)) 3 None = Some (Raise OverflowError)).
Proof.
  split.
  - apply (add_business_days_outcome None (mkdate (MAXORDINAL - 50)) 20 60).
    + lia.
    + unfold date_ok, MINORDINAL, MAXORDINAL. simpl. lia.
    + apply Nat.ltb_lt. vm_compute. reflexivity.
  - apply (add_business_days_outcome None (mkdate (MAXORDINAL - 2)) 3 3).
    + lia.
    + unfold date_ok, MINORDINAL, MAXORDINAL. simpl. lia.
    + apply Nat.ltb_lt. vm_compute. reflexivity.
Defined.

(** X4. A count that is not positive returns the start date itself, also
    when it is a Saturday, a Sunday or a holiday; a positive count [days]
    returns a date at least [days] days later. *)
Theorem add_business_days_not_before (hol : option (date -> bool)) (start : date)
    (days : Z) (fuel : nat) :
  (days <= 0 -> add_business_days fuel start days hol = Some (Ok start)) /\
  (forall d, 1 <= days -> add_business_days fuel start days hol = Some (Ok d) ->
             toordinal start + days <= toordinal d).
Proof.
  unfold add_business_days. split.
  - intros H. apply add_business_days_loop_done. exact H.
  - intros d Hd H. fold (add_business_days fuel start days hol) in H.
    exact (add_business_days_at_least hol start d days fuel Hd H).
Qed.

Lemma add_business_days_not_before_witness :
  add_business_days 5 (mkdate 739290) 0 None = Some (Ok (mkdate 739290)) /\
  _is_weekend (mkdate 739290) = true /\
  toordinal d_2025_02_07 + 20 <= toordinal d_2025_03_10.
Proof.
  split; [|split; [reflexivity|]].
  - destruct (add_business_days_not_before None (mkdate 739290) 0 5) as [H _].
    apply H. lia.
  - destruct (add_business_days_not_before (Some _is_us_federal_holiday)
                d_2025_02_07 20 40) as [_ H].
    apply H; [lia | reflexivity].
Defined.

(** * The default calculator *)

Lemma default_rule_cases (jurisdiction : string) (rule : Rule) :
  _get_rule default_calculator jurisdiction = Ok rule ->
  rule = mkRule 20 "business" (Some _is_us_federal_holiday) 10 "business" \/
  rule = mkRule 30 "calendar" None 0 "calendar" \/
  rule = mkRule 20 "business" (Some _is_uk_bank_holiday) 0 "business" \/
  rule = mkRule 15 "business" None 15 "business" \/
  rule = state_fallback_rule.
Proof.
  unfold _get_rule, default_calculator, new_calculator.
  cbn [rules JURISDICTION_RULES Dict.get]. intros H.
  repeat match type of H with
         | context [if ?c then _ else _] => destruct c; cbn match in H
         end;
    inversion H; subst; auto 6.
Qed.

(** What [add_business_days] can do when the fuel reaches date.max: return
    a date or raise [OverflowError]. *)
Lemma add_business_days_ends (hol : option (date -> bool)) (start : date)
    (days : Z) (fuel : nat) :
  (Z.to_nat (MAXORDINAL - toordinal start) < fuel)%nat ->
  (exists d, add_business_days fuel start days hol = Some (Ok d)) \/
  add_business_days fuel start days hol = Some (Raise OverflowError).
Proof.
  intros Hfuel. unfold add_business_days.
  pose proof (add_business_days_loop_terminates hol fuel start 0 days Hfuel) as Ht.
  destruct (add_business_days_loop fuel start 0 days hol) as [[d|e]|] eqn:E;
    [left; exists d; reflexivity | right | congruence].
  apply add_business_days_loop_raises in E. subst e. reflexivity.
Qed.

(** X5. With the built-in rules: where [_get_rule] fails, [calculate] raises
    the same error, whatever the filing date; where it finds a rule, every
    filing date up to 40 days before date.max gets a deadline, no earlier
    than the rule's period and no later than 40 days after the filing date;
    for a filing date closer to date.max, [calculate] returns a deadline or
    raises [OverflowError]. *)
Theorem calculate_default_outcome (jurisdiction : string) (filed : date)
    (fuel : nat) :
  (forall e, _get_rule default_calculator jurisdiction = Raise e ->
     calculate fuel default_calculator jurisdiction filed = Some (Raise e)) /\
  (forall rule, _get_rule default_calculator jurisdiction = Ok rule ->
     date_ok filed -> toordinal filed + 40 <= MAXORDINAL -> (40 <= fuel)%nat ->
     exists deadline,
       calculate fuel default_calculator jurisdiction filed = Some (Ok deadline) /\
       toordinal filed + initial_days rule <= toordinal deadline
                                           <= toordinal filed + 40) /\
  (forall rule, _get_rule default_calculator jurisdiction = Ok rule ->
     (Z.to_nat (MAXORDINAL - toordinal filed) < fuel)%nat ->
     (exists deadline,
        calculate fuel default_calculator jurisdiction filed = Some (Ok deadline)) \/
     calculate fuel default_calculator jurisdiction filed
     = Some (Raise OverflowError)).
Proof.
  split; [|split].
  - intros e Hrule. unfold calculate. unfold Raise in Hrule. rewrite Hrule.
    reflexivity.
  - intros rule Hrule Hfiled Hmax Hfuel. unfold Ok in Hrule.
    destruct (String.eqb (day_type rule) "business") eqn:Htype.
    + apply String.eqb_eq in Htype.
      destruct (builtin_business_deadline jurisdiction rule filed fuel)
        as (deadline & Hc & _ & _ & Hrange & Hcount); try assumption.
      exists deadline. split; [exact Hc|].
      unfold business_days_between in Hcount.
      pose proof (business_days_after_bounds (holiday_fn rule) (toordinal filed)
                    (Z.to_nat (toordinal deadline - toordinal filed))).
      lia.
    + unfold calculate. rewrite Hrule, Htype.
      destruct (default_rule_cases _ _ Hrule) as [->|[->|[->|[->| ->]]]];
        try discriminate Htype.
      unfold add_calendar_days, date_add_days. cbn [initial_days].
      destruct Hfiled as [Hlo Hhi]. unfold MINORDINAL in *.
      assert (E : (1 <=? toordinal filed + 30) && (toordinal filed + 30 <=? MAXORDINAL)
                  = true).
      { apply Bool.andb_true_iff. split; apply Z.leb_le; lia. }
      rewrite E. eexists. split; [reflexivity|]. cbn [toordinal]. lia.
  - intros rule Hrule Hfuel. unfold calculate. unfold Ok in Hrule. rewrite Hrule.
    cbv zeta. destruct (String.eqb (day_type rule) "business").
    + apply add_business_days_ends. exact Hfuel.
    + unfold add_calendar_days, date_add_days.
      destruct ((MINORDINAL <=? toordinal filed + initial_days rule)
                && (toordinal filed + initial_days rule <=? MAXORDINAL));
        [left; eexists; reflexivity | right; reflexivity].
Qed.

Lemma calculate_default_outcome_witness :
  (exists deadline,
     calculate 40 default_calculator "UK" d_2025_02_07 = Some (Ok deadline) /\
     toordinal d_2025_02_07 + 20 <= toordinal deadline <= toordinal d_2025_02_07 + 40) /\
  (exists msg,
     calculate 40 default_calculator "Mars" d_2025_02_07
     = Some (Raise (ValueError msg))) /\
  calculate 40 default_calculator "India" (mkdate (MAXORDINAL - 10))
  = Some (Raise OverflowError).
Proof.
  split; [|split].
  - destruct (calculate_default_outcome "UK" d_2025_02_07 40) as (_ & H & _).
    apply (H (mkRule 20 "business" (Some _is_uk_bank_holiday) 0 "business")).
    + reflexivity.
    + unfold date_ok, MINORDINAL, MAXORDINAL. simpl. lia.
    + unfold MAXORDINAL. simpl. lia.
    + lia.
  - destruct (calculate_default_outcome "Mars" d_2025_02_07 40) as (H & _).
    eexists. apply H. reflexivity.
  - reflexivity.
Defined.

(** X6. With the built-in rules, [calculate_extension] returns [None] for a
    rule without extension, whatever the original deadline. For a rule with
    an extension and an original deadline up to 40 days before date.max it
    returns the business day that completes the extension period, counted
    from the original deadline and within 40 days of it; for an original
    deadline closer to date.max it returns a date or raises
    [OverflowError]. *)
Theorem calculate_extension_default (jurisdiction : string) (rule : Rule)
    (original_deadline : date) (fuel : nat) :
  _get_rule default_calculator jurisdiction = Ok rule ->
  (extension_days rule = 0 ->
   calculate_extension fuel default_calculator jurisdiction original_deadline
   = Some (Ok None)) /\
  (extension_days rule <> 0 ->
   date_ok original_deadline ->
   toordinal original_deadline + 40 <= MAXORDINAL ->
   (40 <= fuel)%nat ->
   exists extended,
     calculate_extension fuel default_calculator jurisdiction original_deadline
     = Some (Ok (Some extended)) /\
     _is_weekend extended = false /\
     holiday_test (holiday_fn rule) extended = false /\
     toordinal original_deadline < toordinal extended
                                 <= toordinal original_deadline + 40 /\
     business_days_between (holiday_fn rule) original_deadline extended
     = extension_days rule) /\
  (extension_days rule <> 0 ->
   (Z.to_nat (MAXORDINAL - toordinal original_deadline) < fuel)%nat ->
   (exists extended,
      calculate_extension fuel default_calculator jurisdiction original_deadline
      = Some (Ok (Some extended))) \/
   calculate_extension fuel default_calculator jurisdiction original_deadline
   = Some (Raise OverflowError)).
Proof.
  intros Hrule. unfold calculate_extension. rewrite Hrule.
  unfold Ok. cbv beta iota zeta. split; [|split].
  - intros ->. reflexivity.
  - intros Hext Hd Hmax Hfuel.
    destruct Hd as [Hlo Hhi]. pose proof Hlo as Hlo'. unfold MINORDINAL in Hlo'.
    destruct (builtin_rules_have_room (toordinal original_deadline))
      as (Hus & _ & Heu); [lia|].
    assert (Hroom : 1 <= extension_days rule /\
                    extension_type rule = "business" /\
                    extension_days rule
                    <= business_days_after (holiday_fn rule)
                         (toordinal original_deadline) 40).
    { destruct (default_rule_cases _ _ Hrule) as [->|[->|[->|[->| ->]]]];
        unfold state_fallback_rule in *;
        cbn [extension_days extension_type holiday_fn] in *;
        try (exfalso; apply Hext; reflexivity);
        (split; [lia|]; split; [reflexivity|]; lia). }
    destruct Hroom as (Hpos & Htype & Hroom).
    assert (E : (extension_days rule =? 0) = false) by (apply Z.eqb_neq; exact Hext).
    rewrite E, Htype. cbn match.
    destruct (add_business_days_spec (holiday_fn rule) original_deadline
                (mkdate (toordinal original_deadline + 40)) (extension_days rule) fuel)
      as (extended & Ha & H); try assumption.
    + split; assumption.
    + unfold date_ok. cbn [toordinal]. lia.
    + unfold business_days_between. cbn [toordinal].
      replace (Z.to_nat (toordinal original_deadline + 40 - toordinal original_deadline))
        with 40%nat by lia.
      exact Hroom.
    + cbn [toordinal]. lia.
    + exists extended. rewrite Ha. split; [reflexivity|].
      cbn [toordinal] in H. exact H.
  - intros Hext Hfuel.
    assert (E : (extension_days rule =? 0) = false) by (apply Z.eqb_neq; exact Hext).
    rewrite E.
    destruct (String.eqb (extension_type rule) "business").
    + destruct (add_business_days_ends (holiday_fn rule) original_deadline
                  (extension_days rule) fuel Hfuel) as [(d & Hd)|Hr].
      * rewrite Hd. left. exists d. reflexivity.
      * rewrite Hr. right. reflexivity.
    + unfold add_calendar_days, date_add_days.
      destruct ((MINORDINAL <=? toordinal original_deadline + extension_days rule)
                && (toordinal original_deadline + extension_days rule <=? MAXORDINAL));
        [left; eexists; reflexivity | right; reflexivity].
Qed.

Lemma calculate_extension_default_witness :
  calculate_extension 40 default_calculator "India" d_2025_03_10 = Some (Ok None) /\
  (exists extended,
    calculate_extension 40 default_calculator "US-Federal" d_2025_03_10
    = Some (Ok (Some extended)) /\
    _is_weekend extended = false /\
    holiday_test (Some _is_us_federal_holiday) extended = false /\
    toordinal d_2025_03_10 < toordinal extended <= toordinal d_2025_03_10 + 40 /\
    business_days_between (Some _is_us_federal_holiday) d_2025_03_10 extended = 10) /\
  calculate_extension 5 default_calculator "US-Federal" date_max
  = Some (Raise OverflowError).
Proof.
  assert (Hd : date_ok d_2025_03_10)
    by (unfold date_ok, MINORDINAL, MAXORDINAL; simpl; lia).
  assert (Hm : toordinal d_2025_03_10 + 40 <= MAXORDINAL)
    by (unfold MAXORDINAL; simpl; lia).
  split; [|split].
  - destruct (calculate_extension_default "India"
                (mkRule 30 "calendar" None 0 "calendar") d_2025_03_10 40
                eq_refl) as [H _].
    apply H. reflexivity.
  - destruct (calculate_extension_default "US-Federal"
                (mkRule 20 "business" (Some _is_us_federal_holiday) 10 "business")
                d_2025_03_10 40 eq_refl) as (_ & H & _).
    apply H; [discriminate | exact Hd | exact Hm | lia].
  - reflexivity.
Defined.

(* ------------------------------------------------------------------ *)
(** * The deadline calculator: custom rules *)
(* ------------------------------------------------------------------ *)

Section DictFacts.

Context {V : Type}.

Lemma dict_get_set (d : Dict.dict V) (k k' : string) (v : V) :
  Dict.get (Dict.set d k v) k'
  = if (k =? k')%string then Some v else Dict.get d k'.
Proof.
  induction d as [|[k0 v0] d IH]; cbn [Dict.set Dict.get].
  - destruct (k =? k')%string; reflexivity.
  - destruct (k0 =? k)%string eqn:E0.
    + apply String.eqb_eq in E0. subst k0. cbn [Dict.get].
      destruct (k =? k')%string; reflexivity.
    + cbn [Dict.get]. rewrite IH.
      destruct (k0 =? k')%string eqn:E1; [|reflexivity].
      apply String.eqb_eq in E1. subst k0. rewrite String.eqb_sym, E0. reflexivity.
Qed.

Lemma dict_mem_set (d : Dict.dict V) (k k' : string) (v : V) :
  Dict.mem (Dict.set d k v) k' = (k =? k')%string || Dict.mem d k'.
Proof.
  unfold Dict.mem. rewrite dict_get_set. destruct (k =? k')%string; reflexivity.
Qed.

Lemma dict_keys_set (d : Dict.dict V) (k : string) (v : V) :
  Dict.keys (Dict.set d k v)
  = List.app (Dict.keys d) (if Dict.mem d k then [] else [k]).
Proof.
  unfold Dict.keys, Dict.mem.
  induction d as [|[k0 v0] d IH]; cbn [Dict.set Dict.get map]; [reflexivity|].
  destruct (k0 =? k)%string; cbn [map fst].
  - rewrite app_nil_r. reflexivity.
  - rewrite IH. reflexivity.
Qed.

Lemma dict_get_none_keys (d : Dict.dict V) (k : string) :
  Dict.get d k = None <-> ~ In k (Dict.keys d).
Proof.
  unfold Dict.keys. induction d as [|[k0 v0] d IH]; cbn [Dict.get map fst In].
  - tauto.
  - destruct (k0 =? k)%string eqn:E.
    + apply String.eqb_eq in E. split; [discriminate | intros H; exfalso; auto].
    + apply String.eqb_neq in E. rewrite IH. tauto.
Qed.

(** [d.update(other)]: a key of [other] gets the value [other] gives it, any
    other key keeps the value it has in [d]. *)
Lemma dict_get_update (other : Dict.dict V) :
  forall (d : Dict.dict V) (k : string),
    NoDup (Dict.keys other) ->
    Dict.get (Dict.update d other) k
    = match Dict.get other k with
      | Some v => Some v
      | None => Dict.get d k
      end.
Proof.
  unfold Dict.update.
  induction other as [|[k0 v0] other IH]; intros d k Hnd; [reflexivity|].
  cbn [fold_left fst snd Dict.get]. cbn [Dict.keys map fst] in Hnd.
  inversion Hnd as [|? ? Hnot Hnd']; subst.
  rewrite IH by exact Hnd'. rewrite dict_get_set.
  destruct (k0 =? k)%string eqn:E; [|reflexivity].
  apply String.eqb_eq in E. subst k0.
  apply dict_get_none_keys in Hnot. rewrite Hnot. reflexivity.
Qed.

(** The keys after [d.update(other)]: those of [d] in their order, then the
    new keys in the order of [other]. *)
Lemma dict_keys_update (other : Dict.dict V) :
  forall d : Dict.dict V,
    NoDup (Dict.keys other) ->
    Dict.keys (Dict.update d other)
    = List.app (Dict.keys d)
               (filter (fun k => negb (Dict.mem d k)) (Dict.keys other)).
Proof.
  unfold Dict.update.
  induction other as [|[k0 v0] other IH]; intros d Hnd.
  - cbn [fold_left Dict.keys map filter]. rewrite app_nil_r. reflexivity.
  - cbn [fold_left fst snd]. cbn [Dict.keys map fst] in Hnd.
    inversion Hnd as [|? ? Hnot Hnd']; subst.
    rewrite IH by exact Hnd'. rewrite dict_keys_set.
    change (Dict.keys ((k0, v0) :: other)) with (k0 :: Dict.keys other).
    cbn [filter]. rewrite <- app_assoc. f_equal.
    assert (E : filter (fun k => negb (Dict.mem (Dict.set d k0 v0) k)) (Dict.keys other)
                = filter (fun k => negb (Dict.mem d k)) (Dict.keys other)).
    { apply filter_ext_in. intros k Hk. rewrite dict_mem_set.
      destruct (k0 =? k)%string eqn:E; [|reflexivity].
      apply String.eqb_eq in E. subst k0. contradiction. }
    rewrite E. destruct (Dict.mem d k0); reflexivity.
Qed.

End DictFacts.

(** X7. [DeadlineCalculator(custom_rules)]: a custom rule replaces the
    built-in rule of its jurisdiction, a jurisdiction without custom rule
    resolves as it does without custom rules, and the jurisdictions are
    listed with the built-in ones first, followed by the new ones. *)
Theorem custom_rules_override (custom : Dict.dict Rule) (jurisdiction : string) :
  NoDup (Dict.keys custom) ->
  Dict.get (rules (new_calculator (Some custom))) jurisdiction
  = match Dict.get custom jurisdiction with
    | Some rule => Some rule
    | None => Dict.get JURISDICTION_RULES jurisdiction
    end /\
  (forall rule, Dict.get custom jurisdiction = Some rule ->
                _get_rule (new_calculator (Some custom)) jurisdiction = Ok rule) /\
  (forall rule, Dict.get custom jurisdiction = None ->
                _get_rule default_calculator jurisdiction = Ok rule ->
                _get_rule (new_calculator (Some custom)) jurisdiction = Ok rule) /\
  list_jurisdictions (new_calculator (Some custom))
  = List.app ["US-Federal"; "India"; "UK"; "EU"]
      (filter (fun k => negb (Dict.mem JURISDICTION_RULES k)) (Dict.keys custom)).
Proof.
  intros Hnd. set (calc := new_calculator (Some custom)).
  assert (Hrules : rules calc = Dict.update JURISDICTION_RULES custom).
  { unfold calc, new_calculator. destruct custom; reflexivity. }
  assert (Hget : Dict.get (rules calc) jurisdiction
                 = match Dict.get custom jurisdiction with
                   | Some rule => Some rule
                   | None => Dict.get JURISDICTION_RULES jurisdiction
                   end).
  { rewrite Hrules. apply dict_get_update. exact Hnd. }
  split; [exact Hget|]. split; [|split].
  - intros rule H. unfold _get_rule. rewrite Hget, H. reflexivity.
  - intros rule H Hdef. unfold _get_rule in *. rewrite Hget, H.
    change (rules default_calculator) with JURISDICTION_RULES in Hdef.
    destruct (Dict.get JURISDICTION_RULES jurisdiction); [exact Hdef|].
    destruct (startswith jurisdiction "US-State"); [exact Hdef | discriminate Hdef].
  - unfold list_jurisdictions. rewrite Hrules.
    rewrite dict_keys_update by exact Hnd. reflexivity.
Qed.

Lemma custom_rules_override_witness :
  _get_rule (new_calculator (Some sample_custom_rules)) "UK"
  = Ok (mkRule 25 "calendar" None 0 "calendar") /\
  _get_rule (new_calculator (Some sample_custom_rules)) "EU"
  = Ok (mkRule 15 "business" None 15 "business") /\
  list_jurisdictions (new_calculator (Some sample_custom_rules))
  = ["US-Federal"; "India"; "UK"; "EU"; "US-State-IA"].
Proof.
  assert (Hnd : NoDup (Dict.keys sample_custom_rules)).
  { repeat constructor; simpl; intuition discriminate. }
  destruct (custom_rules_override sample_custom_rules "UK" Hnd) as (_ & H1 & _ & H3).
  destruct (custom_rules_override sample_custom_rules "EU" Hnd) as (_ & _ & H2 & _).
  split; [apply H1; reflexivity|].
  split; [apply H2; reflexivity|].
  exact H3.
Defined.

(* ------------------------------------------------------------------ *)
(** * The request tracker: updates, listings and statistics *)
(* ------------------------------------------------------------------ *)

Section StoreFacts.

Lemma session_get_write_other (db : TrackerDB) (i j : Z) (r' : FOIARequest) :
  j <> i -> j <> id r' ->
  session_get (session_write db i r') j = session_get db j.
Proof.
  intros Hi Hr. unfold session_get, session_write.
  induction db as [|x db IH]; cbn [map find]; [reflexivity|].
  destruct (id x =? i) eqn:E.
  - apply Z.eqb_eq in E.
    assert (E1 : (id r' =? j) = false) by (apply Z.eqb_neq; congruence).
    assert (E2 : (id x =? j) = false) by (apply Z.eqb_neq; congruence).
    rewrite E1, E2. exact IH.
  - destruct (id x =? j); [reflexivity | exact IH].
Qed.

Lemma session_get_none (db : TrackerDB) (i : Z) :
  session_get db i = None <-> forall x, In x db -> id x <> i.
Proof.
  unfold session_get. split.
  - intros H x Hx Hid. apply (find_none _ _ H) in Hx.
    apply Z.eqb_neq in Hx. contradiction.
  - intros H. induction db as [|x db IH]; cbn [find]; [reflexivity|].
    destruct (id x =? i) eqn:E.
    + apply Z.eqb_eq in E. exfalso. apply (H x); [left; reflexivity | exact E].
    + apply IH. intros y Hy. apply H. right. exact Hy.
Qed.

Lemma session_write_In (db : TrackerDB) (i : Z) (r' x : FOIARequest) :
  In x (session_write db i r') ->
  x = r' \/ (In x db /\ id x <> i).
Proof.
  unfold session_write. rewrite in_map_iff. intros (y & Hy & Hin).
  destruct (id y =? i) eqn:E.
  - left. congruence.
  - right. subst x. split; [exact Hin | apply Z.eqb_neq; exact E].
Qed.

Lemma session_write_absent (db : TrackerDB) (i : Z) (r' : FOIARequest) :
  session_get db i = None -> session_write db i r' = db.
Proof.
  rewrite session_get_none. intros H. unfold session_write.
  induction db as [|x db IH]; cbn [map]; [reflexivity|].
  assert (E : (id x =? i) = false)
    by (apply Z.eqb_neq; apply H; left; reflexivity).
  rewrite E, IH; [reflexivity|]. intros y Hy. apply H. right. exact Hy.
Qed.

(** After a flush that passed the constraints, the written row is the one
    found under its (possibly new) key. *)
Lemma session_get_flushed (db : TrackerDB) (i : Z) (r r' : FOIARequest) :
  session_get db i = Some r ->
  flush_ok db i r' = true ->
  session_get (session_write db i r') (id r') = Some r'.
Proof.
  unfold session_get, session_write, flush_ok.
  induction db as [|x db IH]; cbn [find map forallb]; [discriminate|].
  intros Hget Hok. apply Bool.andb_true_iff in Hok. destruct Hok as [Hx Hok].
  destruct (id x =? i) eqn:E.
  - cbn [find]. rewrite Z.eqb_refl. reflexivity.
  - cbn [orb] in Hx. apply Bool.andb_true_iff in Hx. destruct Hx as [Hx _].
    apply Bool.negb_true_iff in Hx. cbn [find]. rewrite Hx.
    apply IH; assumption.
Qed.

Lemma setattr_keeps_status (req req' : FOIARequest) (key : string) (val : pyval) :
  setattr_if_hasattr req key val = inl req' -> status req' = status req.
Proof.
  unfold setattr_if_hasattr. intros H.
  repeat match type of H with
         | (if ?c then _ else _) = _ => destruct c
         end;
    destruct val; simpl in H; inversion H; subst; reflexivity.
Qed.

Lemma setattr_fold_keeps_status (kwargs : list (string * pyval)) :
  forall req req',
    fold_left (fun acc kv => bind acc (fun r => setattr_if_hasattr r (fst kv) (snd kv)))
              kwargs (Ok req) = inl req' ->
    status req' = status req.
Proof.
  induction kwargs as [|kv kwargs IH]; intros req req' H; simpl in H.
  - inversion H. reflexivity.
  - destruct (setattr_if_hasattr req (fst kv) (snd kv)) as [req1|e] eqn:E.
    + apply setattr_keeps_status in E. apply IH in H. congruence.
    + exfalso. eapply setattr_fold_error. exact H.
Qed.

End StoreFacts.



(** X9. [update_status]: a call that returns a request has given it the
    requested status, whatever the keyword arguments; the request is found
    under its key afterwards and the other requests are as before. A call that
    returns [None] has changed nothing. *)
Theorem update_status_result (db db' : TrackerDB) (rid : Z)
    (new_status : RequestStatus) (kwargs : list (string * pyval)) :
  (forall r', update_status db rid new_status kwargs = Ok (db', Some r') ->
     status r' = new_status /\
     get_request db' (id r') = Some r' /\
     (forall i, i <> rid -> i <> id r' -> get_request db' i = get_request db i)) /\
  (update_status db rid new_status kwargs = Ok (db', None) ->
     db' = db /\ get_request db rid = None).
Proof.
  unfold get_request, update_status, Ok. split.
  - intros r' H.
    destruct (existsb _ kwargs); [discriminate|].
    destruct (session_get db rid) as [r|] eqn:Hr; [|discriminate].
    unfold bind in H.
    destruct (fold_left _ kwargs _) as [req2|e] eqn:E; [|discriminate].
    destruct (flush_ok db rid req2) eqn:Hok; [|discriminate].
    inversion H; subst; clear H.
    apply setattr_fold_keeps_status in E. cbn [status set_status] in E.
    split; [exact E|]. split.
    + eapply session_get_flushed; eassumption.
    + intros i Hi Hi'. apply session_get_write_other; assumption.
  - intros H.
    destruct (existsb _ kwargs); [discriminate|].
    destruct (session_get db rid) as [r|] eqn:Hr.
    + unfold bind in H.
      destruct (fold_left _ kwargs _) as [req2|e]; [|discriminate].
      destruct (flush_ok db rid req2); discriminate.
    + inversion H. auto.
Qed.

Lemma update_status_result_witness :
  exists db' r',
    update_status sample_db 1 ACKNOWLEDGED [("id", PyInt 7); ("notes", PyStr "moved")]
    = Ok (db', Some r') /\
    status r' = ACKNOWLEDGED /\
    get_request db' 7 = Some r' /\ get_request db' 1 = None /\
    get_request db' 2 = get_request sample_db 2.
Proof.
  eexists. eexists. split; [reflexivity|].
  match goal with
  | |- status ?r = _ /\ get_request ?d _ = _ /\ _ =>
      destruct (update_status_result sample_db d 1 ACKNOWLEDGED
                  [("id", PyInt 7); ("notes", PyStr "moved")]) as [H _];
      destruct (H r eq_refl) as (H1 & H2 & H3)
  end.
  split; [exact H1|]. split; [exact H2|]. split; [reflexivity|].
  apply H3; simpl; lia.
Defined.

Section AlertMembership.

Lemma check_all_In (db : TrackerDB) (today : date) (a : Alert) :
  In a (check_all db today) <->
  exists r, In r (scanned_requests db) /\ _check_request today r = Some a.
Proof.
  unfold check_all. rewrite <- collect_alerts_In. split; intros H.
  - apply (Permutation_in _ (sort_alerts_perm _)). exact H.
  - apply (Permutation_in _ (Permutation_sym (sort_alerts_perm _))). exact H.
Qed.

Lemma scanned_requests_active (db : TrackerDB) (r : FOIARequest) :
  In r (scanned_requests db) -> In r db /\ In (status r) active_statuses.
Proof.
  intros H. apply scanned_requests_In in H. destruct H as (st & Hst & H).
  apply list_requests_by_status in H. destruct H as [Hin Heq].
  split; [assumption | congruence].
Qed.

(** What [_check_request] puts into an alert. *)
Lemma check_request_alert (today : date) (r : FOIARequest) (a : Alert) :
  _check_request today r = Some a ->
  exists d,
    effective_deadline r = Some d /\
    toordinal d - toordinal today <= 10 /\
    request_id a = id r /\
    days_remaining a = Some (toordinal d - toordinal today) /\
    alert_deadline a = Some d /\
    severity a = (if toordinal d - toordinal today <? 0 then OVERDUE
                  else if toordinal d - toordinal today <=? 2 then URGENT
                  else if toordinal d - toordinal today <=? 5 then WARNING
                  else INFO).
Proof.
  intros Ha. pose proof (check_request_cases today r) as C.
  destruct (effective_deadline r) as [d|]; [|congruence].
  cbv zeta in C. destruct (toordinal d - toordinal today <=? 10) eqn:E; [|congruence].
  destruct C as (a' & Ha' & Hid & Hdays & Hdl & Hsev).
  assert (a' = a) by congruence. subst a'.
  exists d. apply Z.leb_le in E. auto 7.
Qed.

End AlertMembership.

(** X10. [record_response] stores the response data it is given, takes today's
    date when no response date is given, and leaves the other columns of the
    request and the other requests as they are. *)
Theorem record_response_fields (db db' : TrackerDB) (today : date) (rid : Z)
    (docs pages_rcvd pages_wh : Z) (exemptions_txt summary_txt : string)
    (date_resp : option date) (r r' : FOIARequest) :
  get_request db rid = Some r ->
  record_response db today rid docs pages_rcvd pages_wh exemptions_txt
                  summary_txt date_resp = Ok (db', Some r') ->
  (docs_received r' = Some docs /\ pages_received r' = Some pages_rcvd /\
   pages_withheld r' = Some pages_wh /\ exemptions_cited r' = Some exemptions_txt /\
   response_summary r' = Some summary_txt /\
   date_response r' = Some (match date_resp with Some d => d | None => today end)) /\
  (id r' = id r /\ reference_id r' = reference_id r /\ agency r' = agency r /\
   agency_key r' = agency_key r /\ jurisdiction r' = jurisdiction r /\
   topic r' = topic r /\ date_created r' = date_created r /\
   date_filed r' = date_filed r /\ deadline r' = deadline r /\
   date_acknowledged r' = date_acknowledged r /\
   date_extended r' = date_extended r /\
   extended_deadline r' = extended_deadline r /\
   filing_method r' = filing_method r /\
   confirmation_number r' = confirmation_number r /\
   assigned_analyst r' = assigned_analyst r /\ fee_paid r' = fee_paid r /\
   fee_waiver_requested r' = fee_waiver_requested r /\
   fee_waiver_granted r' = fee_waiver_granted r /\
   request_text r' = request_text r /\ notes r' = notes r /\
   appeal_filed r' = appeal_filed r /\ appeal_date r' = appeal_date r /\
   appeal_body r' = appeal_body r /\ appeal_outcome r' = appeal_outcome r) /\
  (forall i, i <> rid -> get_request db' i = get_request db i).
Proof.
  unfold get_request, record_response. intros Hr H. rewrite Hr in H.
  destruct (sqlite_integer rid); cbn [negb] in H; [|discriminate H].
  cbv zeta in H.
  destruct (sqlite_integer docs && sqlite_integer pages_rcvd
            && sqlite_integer pages_wh); [|discriminate H].
  inversion H; subst; clear H.
  split; [|split].
  - destruct (0 <? pages_wh), date_resp; cbn; auto 10.
  - destruct (0 <? pages_wh); cbn; auto 30.
  - intros i Hi. apply session_get_write_other; [exact Hi|].
    apply session_get_id in Hr. destruct Hr as [Hid _].
    destruct (0 <? pages_wh); cbn; congruence.
Qed.

Lemma record_response_fields_witness :
  exists db' r',
    record_response sample_db d_2025_03_10 1 5 100 20 "(b)(4), (b)(6)" "" None
    = Ok (db', Some r') /\
    date_response r' = Some d_2025_03_10 /\
    deadline r' = deadline sample_request /\
    get_request db' 3 = get_request sample_db 3.
Proof.
  eexists. eexists. split; [reflexivity|].
  match goal with
  | |- date_response ?x = _ /\ _ /\ get_request ?d _ = _ =>
      destruct (record_response_fields sample_db d d_2025_03_10 1 5 100 20
                  "(b)(4), (b)(6)" "" None sample_request x eq_refl eq_refl)
        as ((_ & _ & _ & _ & _ & H1) & (_ & _ & _ & _ & _ & _ & _ & _ & H2 & _) & H3)
  end.
  split; [exact H1|]. split; [exact H2|]. apply H3. lia.
Defined.

(** X11. Once a response is recorded the request raises no alert any more, on
    whatever day the alerts are checked; with nothing withheld it is never
    overdue again, while a partial response leaves it overdue as soon as its
    effective deadline has passed. *)
Theorem record_response_silences (db db' : TrackerDB) (today : date) (rid : Z)
    (docs pages_rcvd pages_wh : Z) (exemptions_txt summary_txt : string)
    (date_resp : option date) (r' : FOIARequest) (day : date) :
  record_response db today rid docs pages_rcvd pages_wh exemptions_txt
                  summary_txt date_resp = Ok (db', Some r') ->
  (forall a, In a (check_all db' day) -> request_id a <> rid) /\
  (pages_wh <= 0 ->
     is_overdue r' day = false /\
     forall x, In x (get_overdue db' day) -> id x <> rid) /\
  (0 < pages_wh ->
     forall d, effective_deadline r' = Some d ->
       (is_overdue r' day = true <-> toordinal d < toordinal day) /\
       (toordinal d < toordinal day -> In r' (get_overdue db' day))).
Proof.
  unfold record_response. intros H.
  destruct (sqlite_integer rid); cbn [negb] in H; [|discriminate H].
  destruct (session_get db rid) as [r|] eqn:Hr; [|discriminate].
  cbv zeta in H.
  destruct (sqlite_integer docs && sqlite_integer pages_rcvd
            && sqlite_integer pages_wh); [|discriminate H].
  inversion H; subst; clear H.
  set (r' := if 0 <? pages_wh then _ else _).
  assert (Hst : status r' = if 0 <? pages_wh then PARTIAL_RESPONSE else COMPLETE).
  { unfold r'. destruct (0 <? pages_wh); reflexivity. }
  assert (Hrows : forall x, In x (session_write db rid r') -> id x = rid -> x = r').
  { intros x Hx Hid. apply session_write_In in Hx.
    destruct Hx as [Hx|[_ Hx]]; [exact Hx | contradiction]. }
  assert (Hin : In r' (session_write db rid r')).
  { apply session_get_id in Hr. destruct Hr as [Hid Hin'].
    unfold session_write. apply in_map_iff. exists r. split; [|exact Hin'].
    apply Z.eqb_eq in Hid. rewrite Hid. reflexivity. }
  split; [|split].
  - intros a Ha Hid. apply check_all_In in Ha. destruct Ha as (x & Hx & Hc).
    apply scanned_requests_active in Hx. destruct Hx as [Hx Hact].
    apply check_request_alert in Hc. destruct Hc as (d & _ & _ & Hreq & _).
    assert (x = r') by (apply Hrows; [exact Hx | congruence]). subst x.
    rewrite Hst in Hact. unfold active_statuses in Hact.
    destruct (0 <? pages_wh); simpl in Hact; intuition discriminate.
  - intros Hle.
    assert (E : (0 <? pages_wh) = false) by (apply Z.ltb_ge; exact Hle).
    rewrite E in Hst.
    assert (Hov : is_overdue r' day = false).
    { rewrite is_overdue_unfold, Hst. reflexivity. }
    split; [exact Hov|].
    intros x Hx Hid. rewrite get_overdue_filter in Hx. apply filter_In in Hx.
    destruct Hx as [Hx Ho].
    assert (x = r') by (apply Hrows; assumption). subst x. congruence.
  - intros Hpos d Hd.
    assert (E : (0 <? pages_wh) = true) by (apply Z.ltb_lt; exact Hpos).
    rewrite E in Hst.
    assert (Hov : is_overdue r' day = (toordinal d <? toordinal day)).
    { rewrite is_overdue_unfold, Hst, Hd. reflexivity. }
    split.
    + rewrite Hov. apply Z.ltb_lt.
    + intros Hlt. rewrite get_overdue_filter. apply filter_In.
      split; [exact Hin|]. rewrite Hov. apply Z.ltb_lt. exact Hlt.
Qed.

Lemma record_response_silences_witness :
  exists db' r',
    record_response sample_db d_2025_03_10 1 5 100 20 "(b)(4)" "" None
    = Ok (db', Some r') /\
    (forall a, In a (check_all db' d_2025_03_24) -> request_id a <> 1) /\
    In r' (get_overdue db' d_2025_03_24).
Proof.
  eexists. eexists. split; [reflexivity|].
  match goal with
  | |- _ /\ In ?x (get_overdue ?d _) =>
      destruct (record_response_silences sample_db d d_2025_03_10 1 5 100 20
                  "(b)(4)" "" None x d_2025_03_24 eq_refl) as (H1 & _ & H3)
  end.
  split; [exact H1|].
  destruct (H3 ltac:(lia) d_2025_03_10 eq_refl) as [_ H]. apply H. simpl. lia.
Defined.

Section OrderFacts.

Context {A : Type} (R : A -> A -> Prop).

Lemma StronglySorted_firstn (n : nat) (l : list A) :
  StronglySorted R l -> StronglySorted R (firstn n l).
Proof.
  revert n. induction l as [|x l IH]; intros n H.
  - rewrite firstn_nil. constructor.
  - destruct n as [|n]; cbn [firstn]; [constructor|].
    inversion H as [|? ? Hs Hall]; subst. constructor.
    + apply IH. exact Hs.
    + rewrite Forall_forall in *. intros y Hy. apply Hall.
      rewrite <- (firstn_skipn n l). apply in_or_app. left. exact Hy.
Qed.

Lemma StronglySorted_skipn (n : nat) (l : list A) :
  StronglySorted R l -> StronglySorted R (skipn n l).
Proof.
  revert n. induction l as [|x l IH]; intros n H.
  - rewrite skipn_nil. constructor.
  - destruct n as [|n]; cbn [skipn]; [exact H|].
    inversion H; subst. apply IH. assumption.
Qed.

End OrderFacts.

Lemma firstn_plus {A : Type} (n m : nat) (l : list A) :
  firstn (n + m) l = List.app (firstn n l) (firstn m (skipn n l)).
Proof.
  revert l. induction n as [|n IH]; intros l; [reflexivity|].
  destruct l as [|x l]; cbn [Nat.add firstn skipn app].
  - rewrite firstn_nil. reflexivity.
  - rewrite IH. reflexivity.
Qed.

Lemma skipn_plus {A : Type} (n m : nat) (l : list A) :
  skipn (n + m) l = skipn m (skipn n l).
Proof.
  revert l. induction n as [|n IH]; intros l; [reflexivity|].
  destruct l as [|x l]; cbn [Nat.add skipn].
  - rewrite skipn_nil. reflexivity.
  - apply IH.
Qed.

Lemma insert_created_desc_sorted (r : FOIARequest) (l : list FOIARequest) :
  StronglySorted (fun x y => date_created y <= date_created x) l ->
  StronglySorted (fun x y => date_created y <= date_created x)
                 (insert_created_desc r l).
Proof.
  induction l as [|x l IH]; intros H; cbn [insert_created_desc].
  - repeat constructor.
  - inversion H as [|? ? Hs Hall]; subst.
    destruct (date_created x <=? date_created r) eqn:E.
    + apply Z.leb_le in E. constructor; [exact H|].
      constructor; [exact E|].
      rewrite Forall_forall in *. intros y Hy. specialize (Hall y Hy). lia.
    + apply Z.leb_gt in E. constructor; [apply IH; exact Hs|].
      rewrite Forall_forall in *. intros y Hy.
      apply (Permutation_in _ (insert_created_desc_perm r l)) in Hy.
      destruct Hy as [<-|Hy]; [lia | apply Hall; exact Hy].
Qed.

Lemma order_by_created_desc_sorted (l : list FOIARequest) :
  StronglySorted (fun x y => date_created y <= date_created x)
                 (order_by_created_desc l).
Proof.
  induction l as [|x l IH]; cbn [order_by_created_desc fold_right].
  - constructor.
  - apply insert_created_desc_sorted. exact IH.
Qed.

Lemma list_requests_filtered (db : TrackerDB) (jurisdiction0 : option string)
    (status0 : option RequestStatus) (agency0 : option string) :
  exists q,
    (forall limit offset,
       list_requests db jurisdiction0 status0 agency0 limit offset
       = firstn limit (skipn offset (order_by_created_desc q))) /\
    (forall r, In r q <->
               In r db /\ passes_filters jurisdiction0 status0 agency0 r) /\
    (List.length q <= List.length db)%nat.
Proof.
  unfold list_requests, passes_filters.
  eexists. split; [intros; reflexivity|]. split.
  - intros r.
    destruct jurisdiction0 as [[|c j]|], status0 as [st|], agency0 as [[|c' a]|];
      cbn [truthy_str];
      repeat rewrite filter_In;
      unfold status_eqb;
      try destruct (RequestStatus_eq_dec (status r) st);
      rewrite ?String.eqb_eq;
      intuition congruence.
  - destruct jurisdiction0 as [[|c j]|], status0 as [st|], agency0 as [[|c' a]|];
      cbn [truthy_str];
      repeat (eapply Nat.le_trans; [apply filter_length_le|]);
      apply Nat.le_refl.
Qed.

Section LikeFacts.

Lemma sql_like_star (p s : string) :
  sql_like (String "%" p) s
  = sql_like p s || match s with
                    | EmptyString => false
                    | String _ s' => sql_like (String "%" p) s'
                    end.
Proof. destruct s; reflexivity. Qed.

Lemma sql_like_percent (s : string) : sql_like "%" s = true.
Proof.
  induction s as [|c s IH]; [reflexivity|].
  rewrite sql_like_star. rewrite IH. apply Bool.orb_true_r.
Qed.

Lemma no_wildcard_cons (c : ascii) (a : string) :
  no_wildcard (String c a) = true ->
  Ascii.eqb c "%" = false /\ Ascii.eqb c "_" = false /\ no_wildcard a = true.
Proof.
  unfold no_wildcard. cbn [str_in String.prefix].
  destruct (ascii_dec "%" c) as [<-|H1].
  { destruct a; discriminate. }
  destruct (ascii_dec "_" c) as [<-|H2].
  { destruct a; cbn; rewrite ?Bool.andb_false_r; discriminate. }
  cbn [orb]. intros H. split; [|split; [|exact H]].
  - apply Ascii.eqb_neq. congruence.
  - apply Ascii.eqb_neq. congruence.
Qed.

(** Without wildcards, [a%] matches the texts that start with [a], up to
    ASCII case. *)
Lemma sql_like_prefix (a : string) :
  forall s, no_wildcard a = true ->
    sql_like (a ++ "%") s = String.prefix (sqlite_lower a) (sqlite_lower s).
Proof.
  induction a as [|c a IH]; intros s Hw.
  - cbn [append sqlite_lower]. rewrite sql_like_percent.
    destruct (sqlite_lower s); reflexivity.
  - apply no_wildcard_cons in Hw. destruct Hw as (H1 & H2 & Hw).
    cbn [append sql_like]. rewrite H1.
    destruct s as [|x s]; [reflexivity|].
    rewrite H2. cbn [orb sqlite_lower String.prefix].
    rewrite (IH s Hw).
    destruct (ascii_dec (sqlite_lower_char c) (sqlite_lower_char x)) as [E|E].
    + rewrite E, Ascii.eqb_refl. reflexivity.
    + apply Ascii.eqb_neq in E. rewrite E. reflexivity.
Qed.

(** Without wildcards, [%a%] matches the texts that hold [a], up to ASCII
    case. *)
Lemma ilike_substring (a col : string) :
  no_wildcard a = true ->
  ilike col ("%" ++ a ++ "%") = str_in (sqlite_lower a) (sqlite_lower col).
Proof.
  intros Hw. unfold ilike. change ("%" ++ a ++ "%") with (String "%" (a ++ "%")).
  induction col as [|x col IH].
  - rewrite sql_like_star, sql_like_prefix by exact Hw.
    cbn [sqlite_lower str_in]. reflexivity.
  - rewrite sql_like_star, sql_like_prefix by exact Hw. rewrite IH.
    cbn [sqlite_lower]. rewrite (str_in_unfold _ (String _ _)).
    reflexivity.
Qed.

Lemma passes_filters_iff (jurisdiction0 : option string)
    (status0 : option RequestStatus) (agency0 : option string) (r : FOIARequest) :
  passes_filters jurisdiction0 status0 agency0 r <->
  (forall j, jurisdiction0 = Some j -> j <> "" -> jurisdiction r = j) /\
  (forall st, status0 = Some st -> status r = st) /\
  (forall a, agency0 = Some a -> a <> "" ->
             ilike (agency r) ("%" ++ a ++ "%") = true).
Proof.
  unfold passes_filters. split.
  - intros (Hj & Hs & Ha). split; [|split].
    + intros j -> Hne. destruct j; [congruence | exact Hj].
    + intros st ->. exact Hs.
    + intros a -> Hne. destruct a; [congruence | exact Ha].
  - intros (Hj & Hs & Ha). split; [|split].
    + destruct jurisdiction0 as [[|c j]|]; auto. apply Hj; [reflexivity | discriminate].
    + destruct status0; auto.
    + destruct agency0 as [[|c a]|]; auto. apply Ha; [reflexivity | discriminate].
Qed.

End LikeFacts.

(** X12. [list_requests] returns rows of the table that pass the filters
    given, newest first, and no more than [limit] of them; with no offset
    and a limit that is large enough, all such rows. A filter that is [None]
    or an empty string filters nothing; the jurisdiction and the status are
    compared for equality; the agency is matched against the pattern
    [%agency%] by ILIKE, so that [%] and [_] in the filter text are
    wildcards, and a filter text without them selects the agencies that hold
    it, up to ASCII case. *)
Theorem list_requests_ordered (db : TrackerDB) (jurisdiction0 : option string)
    (status0 : option RequestStatus) (agency0 : option string)
    (limit offset : nat) :
  StronglySorted (fun x y => date_created y <= date_created x)
    (list_requests db jurisdiction0 status0 agency0 limit offset) /\
  (List.length (list_requests db jurisdiction0 status0 agency0 limit offset)
   <= limit)%nat /\
  (forall r, In r (list_requests db jurisdiction0 status0 agency0 limit offset) ->
     In r db /\
     (forall j, jurisdiction0 = Some j -> j <> "" -> jurisdiction r = j) /\
     (forall st, status0 = Some st -> status r = st) /\
     (forall a, agency0 = Some a -> a <> "" ->
                ilike (agency r) ("%" ++ a ++ "%") = true)) /\
  ((List.length db <= limit)%nat ->
   forall r, In r db ->
     (forall j, jurisdiction0 = Some j -> j <> "" -> jurisdiction r = j) ->
     (forall st, status0 = Some st -> status r = st) ->
     (forall a, agency0 = Some a -> a <> "" ->
                ilike (agency r) ("%" ++ a ++ "%") = true) ->
     In r (list_requests db jurisdiction0 status0 agency0 limit 0)) /\
  (forall a col, no_wildcard a = true ->
     ilike col ("%" ++ a ++ "%") = str_in (sqlite_lower a) (sqlite_lower col)).
Proof.
  destruct (list_requests_filtered db jurisdiction0 status0 agency0)
    as (q & Heq & Hq & Hsub).
  rewrite !Heq. split; [|split; [|split; [|split]]].
  - apply StronglySorted_firstn, StronglySorted_skipn, order_by_created_desc_sorted.
  - apply firstn_le_length.
  - intros r H. apply In_firstn, In_skipn in H.
    apply (Permutation_in _ (order_by_created_desc_perm _)) in H.
    apply Hq in H. destruct H as [Hin Hp]. split; [exact Hin|].
    apply passes_filters_iff. exact Hp.
  - intros Hlen r Hin Hj Hs Ha. cbn [skipn].
    rewrite firstn_all2.
    + apply (Permutation_in _ (Permutation_sym (order_by_created_desc_perm _))).
      apply Hq. split; [exact Hin|]. apply passes_filters_iff. auto.
    + rewrite (Permutation_length (order_by_created_desc_perm _)). lia.
  - intros a col Hw. apply ilike_substring. exact Hw.
Qed.

Lemma list_requests_ordered_witness :
  In sample_request
     (list_requests sample_db (Some "US-Federal") (Some FILED) (Some "usda") 100 0) /\
  In sample_request (list_requests sample_db None None (Some "U_DA") 100 0) /\
  ilike "USDA-APHIS" "%usda%" = str_in "usda" "usda-aphis".
Proof.
  split; [|split].
  - destruct (list_requests_ordered sample_db (Some "US-Federal") (Some FILED)
                (Some "usda") 100 0) as (_ & _ & _ & H & _).
    apply H.
    + simpl. lia.
    + simpl. auto.
    + intros j [= <-] _. reflexivity.
    + intros st [= <-]. reflexivity.
    + intros a [= <-] _. reflexivity.
  - destruct (list_requests_ordered sample_db None None (Some "U_DA") 100 0)
      as (_ & _ & _ & H & _).
    apply H.
    + simpl. lia.
    + simpl. auto.
    + intros j [=].
    + intros st [=].
    + intros a [= <-] _. reflexivity.
  - destruct (list_requests_ordered sample_db None None None 0 0)
      as (_ & _ & _ & _ & H).
    apply (H "usda" "USDA-APHIS"). reflexivity.
Defined.

(** X13. Paging: a page of [n] rows followed by the next [m] rows is the page
    of [n + m] rows. *)
Theorem list_requests_pages (db : TrackerDB) (jurisdiction0 : option string)
    (status0 : option RequestStatus) (agency0 : option string)
    (n m offset : nat) :
  list_requests db jurisdiction0 status0 agency0 (n + m) offset
  = List.app (list_requests db jurisdiction0 status0 agency0 n offset)
             (list_requests db jurisdiction0 status0 agency0 m (offset + n)).
Proof.
  destruct (list_requests_filtered db jurisdiction0 status0 agency0)
    as (q & Heq & _).
  rewrite !Heq, skipn_plus. apply firstn_plus.
Qed.

Section StatsFacts.

Lemma status_value_inj (a b : RequestStatus) :
  status_value a = status_value b -> a = b.
Proof. destruct a, b; simpl; intros H; try reflexivity; discriminate H. Qed.

Lemma dict_set_fresh {V : Type} (d : Dict.dict V) (k : string) (v : V) :
  Dict.mem d k = false -> Dict.set d k v = List.app d [(k, v)].
Proof.
  unfold Dict.mem. induction d as [|[k0 v0] d IH]; cbn [Dict.get Dict.set app].
  - reflexivity.
  - destruct (k0 =? k)%string; [discriminate|]. intros H. rewrite IH by exact H.
    reflexivity.
Qed.

Lemma dict_mem_app {V : Type} (d1 d2 : Dict.dict V) (k : string) :
  Dict.mem (List.app d1 d2) k = Dict.mem d1 k || Dict.mem d2 k.
Proof.
  unfold Dict.mem. induction d1 as [|[k0 v0] d1 IH]; cbn [app Dict.get].
  - destruct (Dict.get d2 k); reflexivity.
  - destruct (k0 =? k)%string; [reflexivity | exact IH].
Qed.

Variable db : TrackerDB.

Lemma by_status_fold (l : list RequestStatus) :
  forall acc : Dict.dict Z,
    NoDup l ->
    (forall st, In st l -> Dict.mem acc (status_value st) = false) ->
    fold_left
      (fun by_status st =>
         let count := count_status db st in
         if 0 <? count then Dict.set by_status (status_value st) count
         else by_status)
      l acc
    = List.app acc (flat_map (status_entry db) l).
Proof.
  induction l as [|a l IH]; intros acc Hnd Hfresh.
  - cbn [fold_left flat_map]. rewrite app_nil_r. reflexivity.
  - inversion Hnd as [|? ? Hnot Hnd']; subst.
    cbn [fold_left flat_map]. cbv zeta. unfold status_entry at 1.
    destruct (0 <? count_status db a).
    + rewrite dict_set_fresh by (apply Hfresh; left; reflexivity).
      rewrite IH; [rewrite <- app_assoc; reflexivity | exact Hnd' |].
      intros st Hst. rewrite dict_mem_app, (Hfresh st) by (right; exact Hst).
      unfold Dict.mem. cbn [Dict.get orb].
      destruct (status_value a =? status_value st)%string eqn:E; [|reflexivity].
      apply String.eqb_eq, status_value_inj in E. subst. contradiction.
    + rewrite IH; [reflexivity | exact Hnd' |].
      intros st Hst. apply Hfresh. right. exact Hst.
Qed.

Lemma all_statuses_NoDup : NoDup all_statuses.
Proof.
  unfold all_statuses.
  repeat (constructor; [simpl; intuition discriminate|]). constructor.
Qed.

Lemma all_statuses_In (st : RequestStatus) : In st all_statuses.
Proof. destruct st; simpl; auto 20. Qed.

Lemma by_status_entries (today : date) :
  by_status (get_stats db today) = flat_map (status_entry db) all_statuses.
Proof.
  unfold get_stats. cbn [by_status].
  rewrite by_status_fold; [reflexivity | apply all_statuses_NoDup | reflexivity].
Qed.

Lemma get_entries (l : list RequestStatus) (st : RequestStatus) :
  Dict.get (flat_map (status_entry db) l) (status_value st)
  = if existsb (status_eqb st) l && (0 <? count_status db st)
    then Some (count_status db st) else None.
Proof.
  induction l as [|a l IH]; cbn [flat_map existsb]; [reflexivity|].
  unfold status_entry at 1. unfold status_eqb at 1.
  destruct (RequestStatus_eq_dec st a) as [<-|Hne].
  - cbn [orb andb]. destruct (0 <? count_status db st) eqn:E.
    + cbn [app Dict.get]. rewrite String.eqb_refl. reflexivity.
    + cbn [app]. rewrite IH, Bool.andb_false_r. reflexivity.
  - cbn [orb]. destruct (0 <? count_status db a).
    + cbn [app Dict.get].
      destruct (status_value a =? status_value st)%string eqn:E; [|exact IH].
      apply String.eqb_eq, status_value_inj in E. congruence.
    + exact IH.
Qed.

Lemma sum_values_app (d1 d2 : Dict.dict Z) :
  sum_values (List.app d1 d2) = sum_values d1 + sum_values d2.
Proof.
  unfold sum_values. induction d1 as [|[k v] d1 IH]; cbn [app map snd fold_right].
  - reflexivity.
  - rewrite IH. lia.
Qed.

Lemma count_status_nonneg (st : RequestStatus) : 0 <= count_status db st.
Proof. unfold count_status. lia. Qed.

Lemma sum_entries (l : list RequestStatus) :
  sum_values (flat_map (status_entry db) l)
  = fold_right Z.add 0 (map (count_status db) l).
Proof.
  induction l as [|a l IH]; cbn [flat_map map fold_right]; [reflexivity|].
  rewrite sum_values_app, IH. unfold status_entry.
  pose proof (count_status_nonneg a).
  destruct (0 <? count_status db a) eqn:E.
  - unfold sum_values. cbn. lia.
  - apply Z.ltb_ge in E. unfold sum_values. cbn. lia.
Qed.

End StatsFacts.

Ltac eval_status_eqb :=
  repeat match goal with
         | |- context [status_eqb ?a ?b] =>
             let v := eval vm_compute in (status_eqb a b) in
             change (status_eqb a b) with v
         end;
  cbv iota.

Lemma count_status_cons (x : FOIARequest) (db : TrackerDB) (st : RequestStatus) :
  count_status (x :: db) st
  = (if status_eqb (status x) st then 1 else 0) + count_status db st.
Proof.
  unfold count_status. cbn [filter].
  destruct (status_eqb (status x) st); cbn [List.length]; lia.
Qed.

Lemma count_all_statuses (db : TrackerDB) :
  fold_right Z.add 0 (map (count_status db) all_statuses)
  = Z.of_nat (List.length db).
Proof.
  induction db as [|x db IH]; [reflexivity|].
  unfold all_statuses in *. cbn [map fold_right] in *.
  rewrite !count_status_cons. cbn [List.length].
  destruct (status x); eval_status_eqb; lia.
Qed.

(** X14. [get_stats]: [by_status] gives, for each status that has rows, the
    number of its rows, and has no entry for a status without rows; the
    numbers add up to [total], the number of rows; [overdue] counts rows that
    are not in a terminal status. *)
Theorem get_stats_counts (db : TrackerDB) (today : date) :
  total (get_stats db today) = Z.of_nat (List.length db) /\
  (forall st,
     Dict.get (by_status (get_stats db today)) (status_value st)
     = if count_status db st =? 0 then None else Some (count_status db st)) /\
  (forall k v, In (k, v) (by_status (get_stats db today)) ->
               0 < v /\ exists st, k = status_value st) /\
  sum_values (by_status (get_stats db today)) = total (get_stats db today) /\
  0 <= overdue (get_stats db today)
    <= total (get_stats db today)
       - (count_status db COMPLETE + count_status db DENIED
          + count_status db WITHDRAWN + count_status db NO_RESPONSIVE_RECORDS).
Proof.
  split; [reflexivity|]. split; [|split; [|split]].
  - intros st. rewrite by_status_entries, get_entries.
    assert (E : existsb (status_eqb st) all_statuses = true).
    { apply existsb_exists. exists st. split; [apply all_statuses_In|].
      unfold status_eqb. destruct (RequestStatus_eq_dec st st); congruence. }
    rewrite E. cbn [andb]. pose proof (count_status_nonneg db st).
    destruct (0 <? count_status db st) eqn:E1, (count_status db st =? 0) eqn:E2;
      try reflexivity; lia.
  - intros k v H. rewrite by_status_entries in H. apply in_flat_map in H.
    destruct H as (st & _ & H). unfold status_entry in H.
    destruct (0 <? count_status db st) eqn:E; [|contradiction].
    destruct H as [H|[]]. inversion H; subst. split; [lia | exists st; reflexivity].
  - rewrite by_status_entries, sum_entries. apply count_all_statuses.
  - unfold get_stats. cbn [overdue total]. split; [lia|].
    rewrite get_overdue_filter. clear. induction db as [|x db IH].
    + cbn. lia.
    + rewrite !count_status_cons. cbn [filter List.length].
      rewrite is_overdue_unfold. unfold terminal_statuses. cbn [status_in existsb].
      destruct (status x); eval_status_eqb; cbn [orb]; cbv iota; try lia;
        destruct (effective_deadline x) as [d|]; try (cbn [List.length]; lia);
        destruct (toordinal d <? toordinal today); cbn [List.length]; lia.
Qed.



Section KeyFacts.

Lemma reference_ids_In (db : TrackerDB) (s : string) :
  In s (reference_ids db) <-> exists x, In x db /\ reference_id x = Some s.
Proof.
  unfold reference_ids. rewrite in_flat_map. split.
  - intros (x & Hx & H). exists x. split; [exact Hx|].
    destruct (reference_id x) as [t|]; [|contradiction].
    destruct H as [->|[]]. reflexivity.
  - intros (x & Hx & H). exists x. split; [exact Hx|]. rewrite H. left. reflexivity.
Qed.

Lemma flush_ok_other (db : TrackerDB) (i : Z) (r' x : FOIARequest) :
  flush_ok db i r' = true -> In x db -> id x <> i ->
  id x <> id r' /\
  (forall s, reference_id r' = Some s -> reference_id x <> Some s).
Proof.
  unfold flush_ok. rewrite forallb_forall. intros H Hx Hid.
  specialize (H x Hx). apply Bool.orb_true_iff in H. destruct H as [H|H].
  - apply Z.eqb_eq in H. contradiction.
  - apply Bool.andb_true_iff in H. destruct H as [H1 H2].
    apply Bool.negb_true_iff, Z.eqb_neq in H1. split; [exact H1|].
    intros s Hs Hx'. rewrite Hs, Hx' in H2.
    apply Bool.negb_true_iff, String.eqb_neq in H2. congruence.
Qed.

Lemma flush_ok_tail (x : FOIARequest) (db : TrackerDB) (i : Z) (r' : FOIARequest) :
  flush_ok (x :: db) i r' = true -> flush_ok db i r' = true.
Proof.
  unfold flush_ok. cbn [forallb]. intros H.
  apply Bool.andb_true_iff in H. apply H.
Qed.

Lemma NoDup_app_singleton_opt (o : option string) (l : list string) :
  NoDup l -> (forall s, o = Some s -> ~ In s l) ->
  NoDup (List.app (match o with Some s => [s] | None => [] end) l).
Proof.
  intros Hl Ho. destruct o as [s|]; cbn [app]; [|exact Hl].
  constructor; [apply Ho; reflexivity | exact Hl].
Qed.

Lemma NoDup_app_singleton_inv (o : option string) (l : list string) :
  NoDup (List.app (match o with Some s => [s] | None => [] end) l) ->
  NoDup l /\ (forall s, o = Some s -> ~ In s l).
Proof.
  destruct o as [s|]; cbn [app]; intros H.
  - inversion H; subst. split; [assumption|]. intros t Ht. congruence.
  - split; [exact H | discriminate].
Qed.

(** A flush that passed the constraints keeps the keys unique. *)
Lemma session_write_keys_unique (db : TrackerDB) (i : Z) (r r' : FOIARequest) :
  keys_unique db ->
  session_get db i = Some r ->
  flush_ok db i r' = true ->
  keys_unique (session_write db i r').
Proof.
  unfold keys_unique.
  induction db as [|x db IH]; intros [Hid Href] Hget Hok; [discriminate|].
  cbn [map] in Hid. inversion Hid as [|? ? Hx Hid']; subst.
  change (reference_ids (x :: db))
    with (List.app (match reference_id x with Some s => [s] | None => [] end)
                   (reference_ids db)) in Href.
  apply NoDup_app_singleton_inv in Href. destruct Href as [Href' Hxref].
  unfold session_get in Hget. cbn [find] in Hget.
  unfold session_write. cbn [map].
  change (reference_ids (?y :: ?l))
    with (List.app (match reference_id y with Some s => [s] | None => [] end)
                   (reference_ids l)).
  destruct (id x =? i) eqn:E.
  - apply Z.eqb_eq in E.
    assert (Habs : session_get db i = None).
    { apply session_get_none. intros y Hy Hyi. apply Hx.
      apply in_map_iff. exists y. split; [congruence | exact Hy]. }
    fold (session_write db i r'). rewrite (session_write_absent _ _ _ Habs).
    assert (Hoth : forall y, In y db -> id y <> i).
    { apply session_get_none. exact Habs. }
    split.
    + cbn [map]. constructor; [|exact Hid'].
      intros Hin. apply in_map_iff in Hin. destruct Hin as (y & Hy & Hin).
      destruct (flush_ok_other _ _ _ y Hok (or_intror Hin) (Hoth y Hin)) as [G _].
      congruence.
    + apply NoDup_app_singleton_opt; [exact Href'|].
      intros s Hs Hin. apply reference_ids_In in Hin. destruct Hin as (y & Hy & Hys).
      destruct (flush_ok_other _ _ _ y Hok (or_intror Hy) (Hoth y Hy)) as [_ G].
      exact (G s Hs Hys).
  - apply Z.eqb_neq in E. fold (session_write db i r').
    destruct (IH (conj Hid' Href') Hget (flush_ok_tail _ _ _ _ Hok)) as [IH1 IH2].
    destruct (flush_ok_other _ _ _ x Hok (or_introl eq_refl) E) as [G1 G2].
    split.
    + cbn [map]. constructor; [|exact IH1].
      intros Hin. apply in_map_iff in Hin. destruct Hin as (y & Hy & Hin).
      apply session_write_In in Hin. destruct Hin as [->|[Hin _]].
      * congruence.
      * apply Hx. apply in_map_iff. exists y. split; assumption.
    + apply NoDup_app_singleton_opt; [exact IH2|].
      intros s Hs Hin. apply reference_ids_In in Hin. destruct Hin as (y & Hy & Hys).
      apply session_write_In in Hy. destruct Hy as [->|[Hy _]].
      * exact (G2 s Hys Hs).
      * apply (Hxref s Hs). apply reference_ids_In. exists y. split; assumption.
Qed.

(** A row that keeps its keys passes the constraints. *)
Lemma flush_ok_same_keys (db : TrackerDB) (i : Z) (r r' : FOIARequest) :
  keys_unique db ->
  session_get db i = Some r ->
  id r' = id r -> reference_id r' = reference_id r ->
  flush_ok db i r' = true.
Proof.
  unfold keys_unique, flush_ok. intros [Hid Href] Hget Hi Hr.
  apply session_get_id in Hget. destruct Hget as [Hri Hin].
  apply forallb_forall. intros y Hy.
  destruct (id y =? i) eqn:E; [reflexivity|]. cbn [orb].
  apply Z.eqb_neq in E. apply Bool.andb_true_iff. split.
  - apply Bool.negb_true_iff, Z.eqb_neq. congruence.
  - rewrite Hr. destruct (reference_id r) as [a|] eqn:Ea; [|reflexivity].
    destruct (reference_id y) as [b|] eqn:Eb; [|reflexivity].
    apply Bool.negb_true_iff, String.eqb_neq. intros ->.
    clear Hid. induction db as [|x db IH]; [contradiction|].
    change (reference_ids (x :: db))
      with (List.app (match reference_id x with Some s => [s] | None => [] end)
                     (reference_ids db)) in Href.
    apply NoDup_app_singleton_inv in Href. destruct Href as [Href' Hx].
    destruct Hin as [->|Hin], Hy as [->|Hy].
    + congruence.
    + apply (Hx b Ea). apply reference_ids_In. exists y. auto.
    + apply (Hx b Eb). apply reference_ids_In. exists r. auto.
    + apply IH; assumption.
Qed.

Lemma filter_keys_unique (p : FOIARequest -> bool) (db : TrackerDB) :
  keys_unique db -> keys_unique (filter p db).
Proof.
  unfold keys_unique. induction db as [|x db IH]; intros [Hid Href]; [auto|].
  cbn [map] in Hid. inversion Hid as [|? ? Hx Hid']; subst.
  change (reference_ids (x :: db))
    with (List.app (match reference_id x with Some s => [s] | None => [] end)
                   (reference_ids db)) in Href.
  apply NoDup_app_singleton_inv in Href. destruct Href as [Href' Hxref].
  destruct (IH (conj Hid' Href')) as [IH1 IH2].
  cbn [filter]. destruct (p x); [|auto].
  split.
  - cbn [map]. constructor; [|exact IH1].
    intros Hin. apply Hx. apply in_map_iff in Hin. destruct Hin as (y & Hy & Hin).
    apply filter_In in Hin. apply in_map_iff. exists y. tauto.
  - change (reference_ids (x :: filter p db))
      with (List.app (match reference_id x with Some s => [s] | None => [] end)
                     (reference_ids (filter p db))).
    apply NoDup_app_singleton_opt; [exact IH2|].
    intros s Hs Hin. apply (Hxref s Hs). apply reference_ids_In in Hin.
    destruct Hin as (y & Hy & Hys). apply filter_In in Hy.
    apply reference_ids_In. exists y. tauto.
Qed.

End KeyFacts.

(** X16. No operation of the tracker breaks the constraints of the table:
    after [update_status], [record_response], [add_note] and [delete_request]
    the primary keys are still unique, and so are the reference ids. *)
Theorem tracker_keeps_keys_unique (db : TrackerDB) (rid : Z) :
  keys_unique db ->
  (forall new_status kwargs db' res,
     update_status db rid new_status kwargs = Ok (db', res) -> keys_unique db') /\
  (forall today docs pages_rcvd pages_wh exemptions_txt summary_txt date_resp
          db' res,
     record_response db today rid docs pages_rcvd pages_wh
                     exemptions_txt summary_txt date_resp = Ok (db', res) ->
     keys_unique db') /\
  (forall timestamp note, keys_unique (fst (add_note db timestamp rid note))) /\
  keys_unique (fst (delete_request db rid)).
Proof.
  intros Hk. split; [|split; [|split]].
  - intros new_status kwargs db' res H. unfold update_status, Ok in H.
    destruct (existsb _ kwargs); [discriminate|].
    destruct (session_get db rid) as [r|] eqn:Hr.
    + unfold bind in H.
      destruct (fold_left _ kwargs _) as [req2|e]; [|discriminate].
      destruct (flush_ok db rid req2) eqn:Hok; [|discriminate].
      inversion H; subst. eapply session_write_keys_unique; eassumption.
    + inversion H; subst. exact Hk.
  - intros today docs pages_rcvd pages_wh exemptions_txt summary_txt date_resp
           db' res H.
    unfold record_response in H.
    destruct (sqlite_integer rid); cbn [negb] in H; [|discriminate H].
    destruct (session_get db rid) as [r|] eqn:Hr;
      [|inversion H; subst; exact Hk].
    cbv zeta in H.
    destruct (sqlite_integer docs && sqlite_integer pages_rcvd
              && sqlite_integer pages_wh); [|discriminate H].
    inversion H; subst; clear H.
    eapply session_write_keys_unique; [exact Hk | exact Hr |].
    eapply flush_ok_same_keys; [exact Hk | exact Hr | |];
      destruct (0 <? pages_wh); reflexivity.
  - intros. unfold add_note.
    destruct (session_get db rid) as [r|] eqn:Hr; cbn [fst]; [|exact Hk].
    eapply session_write_keys_unique; [exact Hk | exact Hr |].
    eapply flush_ok_same_keys; [exact Hk | exact Hr | |]; reflexivity.
  - unfold delete_request.
    destruct (session_get db rid); cbn [fst]; [|exact Hk].
    apply filter_keys_unique. exact Hk.
Qed.

Lemma sample_db_keys_unique : keys_unique sample_db.
Proof.
  split.
  - simpl. repeat (constructor; [simpl; intuition lia|]). constructor.
  - simpl. constructor.
Qed.

Lemma tracker_keeps_keys_unique_witness :
  keys_unique (fst (delete_request sample_db 2)) /\
  exists db' res,
    record_response sample_db d_2025_03_10 1 5 100 20 "(b)(4)" "" None
    = Ok (db', res) /\ keys_unique db'.
Proof.
  destruct (tracker_keeps_keys_unique sample_db 2 sample_db_keys_unique)
    as (_ & _ & _ & H4).
  destruct (tracker_keeps_keys_unique sample_db 1 sample_db_keys_unique)
    as (_ & H2 & _).
  split; [exact H4|].
  eexists. eexists. split; [reflexivity|].
  exact (H2 d_2025_03_10 5 100 20 "(b)(4)"%string ""%string None _ _ eq_refl).
Defined.

(** X17. With unique keys every request is found under its ID, and under its
    reference id when it has one. *)
Theorem lookup_finds_each_request (db : TrackerDB) (r : FOIARequest) :
  keys_unique db -> In r db ->
  get_request db (id r) = Some r /\
  (forall s, reference_id r = Some s -> get_by_reference db s = Some r).
Proof.
  unfold keys_unique, get_request, session_get, get_by_reference.
  induction db as [|x db IH]; intros [Hid Href] Hin; [contradiction|].
  cbn [map] in Hid. inversion Hid as [|? ? Hx Hid']; subst.
  change (reference_ids (x :: db))
    with (List.app (match reference_id x with Some s => [s] | None => [] end)
                   (reference_ids db)) in Href.
  apply NoDup_app_singleton_inv in Href. destruct Href as [Href' Hxref].
  cbn [find]. destruct Hin as [->|Hin].
  - rewrite Z.eqb_refl. split; [reflexivity|].
    intros s Hs. rewrite Hs, String.eqb_refl. reflexivity.
  - destruct (IH (conj Hid' Href') Hin) as [IH1 IH2]. split.
    + destruct (id x =? id r) eqn:E; [|exact IH1].
      apply Z.eqb_eq in E. exfalso. apply Hx. apply in_map_iff.
      exists r. split; [congruence | exact Hin].
    + intros s Hs. destruct (reference_id x) as [t|] eqn:Et; [|apply IH2; exact Hs].
      destruct (t =? s)%string eqn:E; [|apply IH2; exact Hs].
      apply String.eqb_eq in E. subst t. exfalso. apply (Hxref s eq_refl).
      apply reference_ids_In. exists r. split; assumption.
Qed.

Lemma lookup_finds_each_request_witness :
  get_request sample_db 3
  = Some (set_extended_deadline (Some d_2025_03_24)
            (set_status EXTENDED (set_id 3 sample_request))).
Proof.
  destruct (lookup_finds_each_request sample_db
              (set_extended_deadline (Some d_2025_03_24)
                 (set_status EXTENDED (set_id 3 sample_request)))
              sample_db_keys_unique) as [H _].
  - simpl. auto.
  - exact H.
Defined.

(* ------------------------------------------------------------------ *)
(** * The alert engine: order and content of the alerts *)
(* ------------------------------------------------------------------ *)

Section SortFacts.

Lemma key_leb_total (k1 k2 : Z * Z) : key_leb k1 k2 = false -> key_leb k2 k1 = true.
Proof.
  unfold key_leb. destruct k1 as [a b], k2 as [c d]. cbn [fst snd].
  destruct (a <? c) eqn:E1, (a =? c) eqn:E2, (b <=? d) eqn:E3,
           (c <? a) eqn:E4, (c =? a) eqn:E5, (d <=? b) eqn:E6;
    cbn; try reflexivity; try discriminate; lia.
Qed.

Lemma key_leb_trans (k1 k2 k3 : Z * Z) :
  key_leb k1 k2 = true -> key_leb k2 k3 = true -> key_leb k1 k3 = true.
Proof.
  unfold key_leb. destruct k1 as [a b], k2 as [c d], k3 as [e f]. cbn [fst snd].
  destruct (a <? c) eqn:E1, (a =? c) eqn:E2, (b <=? d) eqn:E3,
           (c <? e) eqn:E4, (c =? e) eqn:E5, (d <=? f) eqn:E6,
           (a <? e) eqn:E7, (a =? e) eqn:E8, (b <=? f) eqn:E9;
    cbn; try reflexivity; try discriminate; lia.
Qed.

Lemma insert_by_key_sorted (a : Alert) (l : list Alert) :
  StronglySorted key_le l -> StronglySorted key_le (insert_by_key a l).
Proof.
  induction l as [|x l IH]; intros H; cbn [insert_by_key].
  - repeat constructor.
  - inversion H as [|? ? Hs Hall]; subst.
    destruct (key_leb (sort_key x) (sort_key a)) eqn:E.
    + constructor; [apply IH; exact Hs|].
      rewrite Forall_forall in *. intros y Hy.
      apply (Permutation_in _ (insert_by_key_perm a l)) in Hy.
      destruct Hy as [<-|Hy]; [exact E | apply Hall; exact Hy].
    + apply key_leb_total in E. constructor; [exact H|].
      constructor; [exact E|].
      rewrite Forall_forall in *. intros y Hy.
      eapply key_leb_trans; [exact E | apply Hall; exact Hy].
Qed.

Lemma sort_alerts_sorted (l : list Alert) : StronglySorted key_le (sort_alerts l).
Proof.
  unfold sort_alerts.
  assert (G : forall acc, StronglySorted key_le acc ->
                          StronglySorted key_le
                            (fold_left (fun acc a => insert_by_key a acc) l acc)).
  { induction l as [|x l IH]; intros acc Hacc; cbn [fold_left]; [exact Hacc|].
    apply IH, insert_by_key_sorted, Hacc. }
  apply G. constructor.
Qed.

Lemma StronglySorted_weaken {A : Type} (R R' : A -> A -> Prop) (l : list A) :
  (forall x y, In x l -> In y l -> R x y -> R' x y) ->
  StronglySorted R l -> StronglySorted R' l.
Proof.
  induction l as [|x l IH]; intros Himp H; [constructor|].
  inversion H as [|? ? Hs Hall]; subst. constructor.
  - apply IH; [|exact Hs]. intros a b Ha Hb. apply Himp; right; assumption.
  - rewrite Forall_forall in *. intros y Hy.
    apply Himp; [left; reflexivity | right; exact Hy | apply Hall; exact Hy].
Qed.

(** An alert of [check_all]: its days remaining are at most 10 and settle
    its severity. *)
Lemma check_all_severity (db : TrackerDB) (today : date) (a : Alert) :
  In a (check_all db today) ->
  exists n, days_remaining a = Some n /\ n <= 10 /\
            severity a = (if n <? 0 then OVERDUE
                          else if n <=? 2 then URGENT
                          else if n <=? 5 then WARNING
                          else INFO).
Proof.
  intros H. apply check_all_In in H. destruct H as (r & _ & H).
  apply check_request_alert in H.
  destruct H as (d & _ & Hle & _ & Hdays & _ & Hsev).
  exists (toordinal d - toordinal today). auto.
Qed.

End SortFacts.

(** X18. [check_all] returns the alerts in the order of its sort key: OVERDUE
    first, then URGENT, WARNING and INFO, and by days remaining within a
    severity. As the severity follows from the days remaining, the whole list
    is in ascending order of the days remaining, the longest overdue first. *)
Theorem check_all_sorted (db : TrackerDB) (today : date) :
  StronglySorted key_le (check_all db today) /\
  StronglySorted
    (fun a b => severity_order (severity a) <= severity_order (severity b) /\
                days_or_zero a <= days_or_zero b)
    (check_all db today).
Proof.
  assert (H : StronglySorted key_le (check_all db today))
    by apply sort_alerts_sorted.
  split; [exact H|].
  revert H. apply StronglySorted_weaken. intros a b Ha Hb Hab.
  destruct (check_all_severity _ _ _ Ha) as (n & Hn & _ & Hs).
  destruct (check_all_severity _ _ _ Hb) as (m & Hm & _ & Ht).
  unfold key_le, key_leb, sort_key, days_or_zero in *. cbn [fst snd] in Hab.
  rewrite Hn, Hm in *. rewrite Hs, Ht in *.
  destruct (n <? 0) eqn:E1, (n <=? 2) eqn:E2, (n <=? 5) eqn:E3,
           (m <? 0) eqn:E4, (m <=? 2) eqn:E5, (m <=? 5) eqn:E6;
    cbn [severity_order] in *;
    try (apply Bool.orb_true_iff in Hab; destruct Hab as [Hab|Hab];
         [apply Z.ltb_lt in Hab
         |apply Bool.andb_true_iff in Hab; destruct Hab as [Hab1 Hab2];
          apply Z.eqb_eq in Hab1; apply Z.leb_le in Hab2]);
    lia.
Qed.

(** X19. [check_overdue] holds the alerts with negative days remaining and
    [check_upcoming(within_days)] those with 1 to [within_days] days left; a
    window of more than 10 days adds nothing, because no alert is raised
    earlier than 10 days before the deadline; and the alert of a deadline that
    is today (URGENT, 0 days left) is in neither list. *)
Theorem overdue_and_upcoming_alerts (db : TrackerDB) (today : date) :
  (forall a, In a (check_overdue db today) <->
             In a (check_all db today) /\
             exists n, days_remaining a = Some n /\ n < 0) /\
  (forall a within_days,
     In a (check_upcoming db today within_days) <->
     In a (check_all db today) /\ severity a <> OVERDUE /\
     exists n, days_remaining a = Some n /\ 0 < n <= within_days) /\
  (forall within_days, 10 <= within_days ->
     check_upcoming db today within_days = check_upcoming db today 10) /\
  (forall a, In a (check_all db today) -> days_remaining a = Some 0 ->
     severity a = URGENT /\ ~ In a (check_overdue db today) /\
     forall within_days, ~ In a (check_upcoming db today within_days)).
Proof.
  split; [|split; [|split]].
  - intros a. unfold check_overdue. rewrite filter_In. split.
    + intros [Ha Hs]. split; [exact Ha|].
      destruct (check_all_severity _ _ _ Ha) as (n & Hn & _ & Hsev).
      exists n. split; [exact Hn|]. rewrite Hsev in Hs.
      destruct (n <? 0) eqn:E; [apply Z.ltb_lt; exact E|].
      destruct (n <=? 2), (n <=? 5); discriminate Hs.
    + intros (Ha & n & Hn & Hlt). split; [exact Ha|].
      destruct (check_all_severity _ _ _ Ha) as (m & Hm & _ & Hsev).
      assert (m = n) by congruence. subst m.
      apply Z.ltb_lt in Hlt. rewrite Hlt in Hsev. rewrite Hsev. reflexivity.
  - intros a w. unfold check_upcoming. rewrite filter_In. split.
    + intros [Ha Hd]. split; [exact Ha|].
      destruct (check_all_severity _ _ _ Ha) as (n & Hn & _ & Hsev).
      rewrite Hn in Hd. apply Bool.andb_true_iff in Hd. destruct Hd as [H1 H2].
      apply Z.ltb_lt in H1. apply Z.leb_le in H2. split.
      * rewrite Hsev. assert (E : (n <? 0) = false) by (apply Z.ltb_ge; lia).
        rewrite E. destruct (n <=? 2), (n <=? 5); discriminate.
      * exists n. auto.
    + intros (Ha & _ & n & Hn & H1 & H2). split; [exact Ha|]. rewrite Hn.
      apply Bool.andb_true_iff. split; [apply Z.ltb_lt | apply Z.leb_le]; assumption.
  - intros w Hw. unfold check_upcoming. apply filter_ext_in. intros a Ha.
    destruct (check_all_severity _ _ _ Ha) as (n & Hn & Hle & _). rewrite Hn.
    f_equal. destruct (n <=? w) eqn:E1, (n <=? 10) eqn:E2; try reflexivity; lia.
  - intros a Ha H0.
    destruct (check_all_severity _ _ _ Ha) as (n & Hn & _ & Hsev).
    assert (n = 0) by congruence. subst n. cbn in Hsev.
    split; [exact Hsev|]. split.
    + unfold check_overdue. rewrite filter_In, Hsev. intros [_ H]. discriminate H.
    + intros w. unfold check_upcoming. rewrite filter_In, H0. intros [_ H].
      discriminate H.
Qed.

Lemma overdue_and_upcoming_alerts_witness :
  exists a,
    In a (check_all sample_db d_2025_03_10) /\ request_id a = 1 /\
    severity a = URGENT /\ ~ In a (check_overdue sample_db d_2025_03_10) /\
    forall within_days, ~ In a (check_upcoming sample_db d_2025_03_10 within_days).
Proof.
  destruct (overdue_and_upcoming_alerts sample_db d_2025_03_10) as (_ & _ & _ & H).
  eexists. split; [left; reflexivity|]. split; [reflexivity|].
  apply H; [left; reflexivity | reflexivity].
Defined.

(** X20. The OVERDUE alerts and the overdue list of the tracker agree on the
    active requests: each OVERDUE alert is about a request [get_overdue]
    returns, and an overdue request in an active status has its OVERDUE alert
    (as long as no status has more than 10000 requests). *)
Theorem overdue_alerts_match_overdue_list (db : TrackerDB) (today : date) :
  (forall a, In a (check_overdue db today) ->
     exists r, In r (get_overdue db today) /\ In (status r) active_statuses /\
               request_id a = id r /\ alert_deadline a = effective_deadline r) /\
  (forall r, In r (get_overdue db today) -> In (status r) active_statuses ->
     (List.length (filter (fun x => status_eqb (status x) (status r)) db)
      <= 10000)%nat ->
     exists a, In a (check_overdue db today) /\ request_id a = id r /\
               alert_deadline a = effective_deadline r).
Proof.
  split.
  - intros a Ha. unfold check_overdue in Ha. apply filter_In in Ha.
    destruct Ha as [Ha Hs]. apply check_all_In in Ha.
    destruct Ha as (r & Hr & Hc). apply scanned_requests_active in Hr.
    destruct Hr as [Hin Hact].
    apply check_request_alert in Hc.
    destruct Hc as (d & Hd & _ & Hid & _ & Hdl & Hsev).
    exists r. split; [|split; [exact Hact|split; [exact Hid|congruence]]].
    rewrite get_overdue_filter. apply filter_In. split; [exact Hin|].
    rewrite is_overdue_unfold, Hd.
    assert (Hnt : status_in (status r) terminal_statuses = false).
    { apply status_in_false. intros Ht. unfold active_statuses, terminal_statuses in *.
      simpl in Hact, Ht.
      destruct (status r); intuition discriminate. }
    rewrite Hnt. rewrite Hsev in Hs.
    destruct (toordinal d - toordinal today <? 0) eqn:E.
    + apply Z.ltb_lt in E. apply Z.ltb_lt. lia.
    + repeat match type of Hs with
             | context [if ?c then _ else _] => destruct c
             end; discriminate Hs.
  - intros r Hr Hact Hlen. rewrite get_overdue_filter in Hr.
    apply filter_In in Hr. destruct Hr as [Hin Ho].
    rewrite is_overdue_unfold in Ho.
    destruct (status_in (status r) terminal_statuses); [discriminate|].
    destruct (effective_deadline r) as [d|] eqn:Hd; [|discriminate].
    apply Z.ltb_lt in Ho.
    pose proof (check_request_cases today r) as C. rewrite Hd in C. cbv zeta in C.
    assert (E : (toordinal d - toordinal today <=? 10) = true)
      by (apply Z.leb_le; lia).
    rewrite E in C. destruct C as (a & Hc & Hid & _ & Hdl & Hsev).
    assert (E0 : (toordinal d - toordinal today <? 0) = true)
      by (apply Z.ltb_lt; lia).
    rewrite E0 in Hsev.
    exists a. split; [|split; [exact Hid | exact Hdl]].
    unfold check_overdue. apply filter_In. split; [|rewrite Hsev; reflexivity].
    apply check_all_In. exists r. split; [|exact Hc].
    apply scanned_requests_In. exists (status r). split; [exact Hact|].
    apply list_requests_by_status; auto.
Qed.

Lemma overdue_alerts_match_overdue_list_witness :
  exists a, In a (check_overdue sample_db d_2025_03_24) /\ request_id a = 1 /\
            alert_deadline a = Some d_2025_03_10.
Proof.
  destruct (overdue_alerts_match_overdue_list sample_db d_2025_03_24) as [_ H].
  apply (H sample_request).
  - left. reflexivity.
  - simpl. auto.
  - apply Nat.leb_le. vm_compute. reflexivity.
Defined.

(** X21. The action an alert suggests goes with its severity: URGENT asks to
    prepare the appeal, WARNING to send a courtesy follow-up, INFO only to
    monitor, and an OVERDUE alert gives the advice for the jurisdiction of the
    request. *)
Theorem suggested_action_by_severity (db : TrackerDB) (today : date) (a : Alert) :
  In a (check_all db today) ->
  match severity a with
  | URGENT =>
      suggested_action a
      = "Prepare appeal materials. Follow up with the agency immediately."
  | WARNING =>
      suggested_action a
      = "Send a courtesy follow-up to the FOIA officer inquiring about status."
  | INFO => suggested_action a = "Monitor. No action required yet."
  | OVERDUE =>
      exists r, In r db /\ id r = request_id a /\
                jurisdiction r = alert_jurisdiction a /\
                suggested_action a = _overdue_action r
  end.
Proof.
  intros Ha. apply check_all_In in Ha. destruct Ha as (r & Hr & Hc).
  apply scanned_requests_active in Hr. destruct Hr as [Hin _].
  unfold _check_request, days_until_deadline in Hc.
  destruct (or_date (extended_deadline r) (deadline r)) as [d|]; [|discriminate].
  set (n := date_sub_days d today) in *. cbn [THRESHOLDS] in Hc.
  unfold _upcoming_action in Hc.
  destruct (n <? 0) eqn:E0.
  - inversion Hc; subst a. cbn. exists r. auto.
  - destruct (n <=? 2) eqn:E2.
    + inversion Hc; subst a. reflexivity.
    + destruct (n <=? 5) eqn:E5.
      * inversion Hc; subst a. reflexivity.
      * destruct (n <=? 10); [|discriminate].
        inversion Hc; subst a. reflexivity.
Qed.

Lemma suggested_action_by_severity_witness :
  exists a, In a (check_all sample_db d_2025_03_08) /\ severity a = URGENT /\
            suggested_action a
            = "Prepare appeal materials. Follow up with the agency immediately.".
Proof.
  eexists. split; [left; reflexivity|]. split; [reflexivity|].
  match goal with
  | |- suggested_action ?a = _ =>
      exact (suggested_action_by_severity sample_db d_2025_03_08 a
               (or_introl eq_refl))
  end.
Defined.

Section NoDupFacts.

Lemma NoDup_firstn {A : Type} (n : nat) (l : list A) : NoDup l -> NoDup (firstn n l).
Proof.
  revert n. induction l as [|x l IH]; intros n H.
  - rewrite firstn_nil. constructor.
  - destruct n as [|n]; cbn [firstn]; [constructor|].
    inversion H; subst. constructor; [|apply IH; assumption].
    intros Hin. apply In_firstn in Hin. contradiction.
Qed.

Lemma same_id_same_row (db : TrackerDB) (r1 r2 : FOIARequest) :
  NoDup (map id db) -> In r1 db -> In r2 db -> id r1 = id r2 -> r1 = r2.
Proof.
  induction db as [|x db IH]; intros Hn H1 H2 E; [contradiction|].
  cbn [map] in Hn. inversion Hn as [|? ? Hx Hn']; subst.
  destruct H1 as [->|H1], H2 as [->|H2].
  - reflexivity.
  - exfalso. apply Hx. rewrite E. apply in_map. exact H2.
  - exfalso. apply Hx. rewrite <- E. apply in_map. exact H1.
  - apply IH; assumption.
Qed.

(** A selection of rows keeps the IDs distinct. *)
Lemma filter_ids_distinct (p : FOIARequest -> bool) (db : TrackerDB) :
  NoDup (map id db) -> NoDup (map id (filter p db)).
Proof.
  induction db as [|x db IH]; intros H; [constructor|].
  cbn [map] in H. inversion H as [|? ? Hx Hn]; subst.
  cbn [filter]. destruct (p x); [|apply IH; exact Hn].
  cbn [map]. constructor; [|apply IH; exact Hn].
  intros Hin. apply Hx. apply in_map_iff in Hin. destruct Hin as (y & Hy & Hin).
  apply filter_In in Hin. apply in_map_iff. exists y. tauto.
Qed.

Lemma list_requests_ids (db : TrackerDB) (st : RequestStatus) (n : nat) :
  NoDup (map id db) ->
  NoDup (map id (list_requests db None (Some st) None n 0)).
Proof.
  intros H. unfold list_requests. cbn [truthy_str skipn].
  rewrite <- firstn_map. apply NoDup_firstn.
  apply (Permutation_NoDup
           (Permutation_map id (Permutation_sym (order_by_created_desc_perm _)))).
  apply filter_ids_distinct. exact H.
Qed.

Lemma scanned_requests_ids (db : TrackerDB) :
  NoDup (map id db) -> NoDup (map id (scanned_requests db)).
Proof.
  intros H. unfold scanned_requests.
  assert (G : forall sts, NoDup sts ->
                NoDup (map id (flat_map
                                 (fun st => list_requests db None (Some st) None 10000 0)
                                 sts))).
  { induction sts as [|st sts IH]; intros Hs; [constructor|].
    inversion Hs as [|? ? Hst Hs']; subst.
    cbn [flat_map]. rewrite map_app. apply NoDup_app_disjoint.
    - apply list_requests_ids. exact H.
    - apply IH. exact Hs'.
    - intros i Hi Hj.
      apply in_map_iff in Hi. destruct Hi as (r1 & E1 & H1).
      apply in_map_iff in Hj. destruct Hj as (r2 & E2 & H2).
      apply list_requests_by_status in H1. destruct H1 as [H1 S1].
      apply in_flat_map in H2. destruct H2 as (st2 & Hst2 & H2).
      apply list_requests_by_status in H2. destruct H2 as [H2 S2].
      assert (r1 = r2) by (apply (same_id_same_row db); congruence).
      subst r2. apply Hst. congruence. }
  apply G. unfold active_statuses.
  repeat (constructor; [simpl; intuition discriminate|]). constructor.
Qed.

Lemma collect_alerts_ids (today : date) (l : list FOIARequest) :
  NoDup (map id l) -> NoDup (map request_id (collect_alerts today l)).
Proof.
  induction l as [|x l IH]; intros H; [constructor|].
  cbn [map] in H. inversion H as [|? ? Hx Hn]; subst.
  cbn [collect_alerts].
  destruct (_check_request today x) as [a|] eqn:E; [|apply IH; exact Hn].
  cbn [map]. constructor; [|apply IH; exact Hn].
  intros Hin. apply in_map_iff in Hin. destruct Hin as (b & Eb & Hb).
  apply collect_alerts_In in Hb. destruct Hb as (r & Hr & Hc).
  apply check_request_alert in E. destruct E as (d & _ & _ & Ea & _).
  apply check_request_alert in Hc. destruct Hc as (d' & _ & _ & Eb' & _).
  apply Hx. apply in_map_iff. exists r. split; [congruence | exact Hr].
Qed.

End NoDupFacts.

(** X22. [check_all] never raises two alerts for one request: with unique
    request IDs in the table, the request IDs of the alerts are distinct. *)
Theorem one_alert_per_request (db : TrackerDB) (today : date) :
  keys_unique db ->
  NoDup (map request_id (check_all db today)) /\
  (List.length (check_all db today) <= List.length db)%nat.
Proof.
  intros [Hid _].
  assert (Hn : NoDup (map request_id (check_all db today))).
  { unfold check_all.
    apply (Permutation_NoDup
             (Permutation_map request_id (Permutation_sym (sort_alerts_perm _)))).
    apply collect_alerts_ids, scanned_requests_ids, Hid. }
  split; [exact Hn|].
  rewrite <- (length_map request_id), <- (length_map id db).
  apply NoDup_incl_length; [exact Hn|].
  intros i Hi. apply in_map_iff in Hi. destruct Hi as (a & Ea & Ha).
  apply check_all_In in Ha. destruct Ha as (r & Hr & Hc).
  apply scanned_requests_active in Hr. destruct Hr as [Hr _].
  apply check_request_alert in Hc. destruct Hc as (d & _ & _ & E & _).
  apply in_map_iff. exists r. split; [congruence | exact Hr].
Qed.

Lemma one_alert_per_request_witness :
  NoDup (map request_id (check_all sample_db d_2025_03_24)) /\
  (List.length (check_all sample_db d_2025_03_24) <= List.length sample_db)%nat.
Proof.
  apply (one_alert_per_request sample_db d_2025_03_24 sample_db_keys_unique).
Defined.

Section WeekFacts.

Variable hol : option (date -> bool).

Lemma weekday_shift (start k : Z) :
  weekday (mkdate (start + k)) = ((start + 6) mod 7 + k) mod 7.
Proof.
  unfold weekday. cbn [toordinal].
  replace (start + k + 6) with (start + 6 + k) by lia.
  rewrite Zplus_mod_idemp_l. reflexivity.
Qed.

(** Two of any seven consecutive days are a Saturday and a Sunday. *)
Lemma business_days_in_a_week (start : Z) : business_days_after hol start 7 <= 5.
Proof.
  cbn [business_days_after]. unfold is_business_day, _is_weekend.
  replace (start + 1 + 1) with (start + 2) by lia.
  replace (start + 2 + 1) with (start + 3) by lia.
  replace (start + 3 + 1) with (start + 4) by lia.
  replace (start + 4 + 1) with (start + 5) by lia.
  replace (start + 5 + 1) with (start + 6) by lia.
  replace (start + 6 + 1) with (start + 7) by lia.
  rewrite !weekday_shift.
  assert (Hw : 0 <= (start + 6) mod 7 < 7) by (apply Z.mod_pos_bound; lia).
  set (w := (start + 6) mod 7) in *.
  assert (Hc : w = 0 \/ w = 1 \/ w = 2 \/ w = 3 \/ w = 4 \/ w = 5 \/ w = 6) by lia.
  clearbody w.
  destruct Hc as [->|[->|[->|[->|[->|[->| ->]]]]]];
    repeat match goal with
           | |- context [(?a + ?b) mod 7] =>
               let v := eval vm_compute in ((a + b) mod 7) in
               change ((a + b) mod 7) with v
           end;
    repeat match goal with
           | |- context [5 <=? ?a] =>
               let v := eval vm_compute in (5 <=? a) in
               change (5 <=? a) with v
           end;
    cbn [negb andb];
    repeat match goal with
           | |- context [if negb ?c then _ else _] => destruct c; cbn [negb]
           end;
    lia.
Qed.

(** Ten business days never fit into ten days. *)
Lemma ten_days_hold_fewer (start : Z) (m : nat) :
  (m <= 10)%nat -> business_days_after hol start m <= 8.
Proof.
  intros Hm. destruct (le_lt_dec 7 m) as [H7|H7].
  - replace m with (7 + (m - 7))%nat by lia.
    rewrite business_days_after_app.
    pose proof (business_days_in_a_week start).
    pose proof (business_days_after_bounds hol (start + Z.of_nat 7) (m - 7)). lia.
  - pose proof (business_days_after_bounds hol start m). lia.
Qed.

End WeekFacts.

(** X23. A request that is filed today and given the deadline the default
    calculator computes raises no alert today and is not overdue, whatever
    its jurisdiction (the US-State fallback of ten business days included):
    the deadline is more than ten days away. *)
Theorem fresh_deadline_raises_no_alert (jurisdiction : string) (filed deadline0 : date)
    (fuel : nat) (req : FOIARequest) :
  calculate fuel default_calculator jurisdiction filed = Some (Ok deadline0) ->
  effective_deadline req = Some deadline0 ->
  10 < toordinal deadline0 - toordinal filed /\
  days_until_deadline req filed = Some (toordinal deadline0 - toordinal filed) /\
  _check_request filed req = None /\
  is_overdue req filed = false.
Proof.
  intros Hcalc Heff.
  assert (Hfar : 10 < toordinal deadline0 - toordinal filed).
  { unfold calculate in Hcalc.
    destruct (_get_rule default_calculator jurisdiction) as [rule|e] eqn:Hrule;
      [|discriminate].
    destruct (default_rule_cases _ _ Hrule) as [->|[->|[->|[->| ->]]]];
      unfold state_fallback_rule in Hcalc;
      cbn [day_type initial_days holiday_fn String.eqb Ascii.eqb Bool.eqb] in Hcalc.
    - apply add_business_days_at_least in Hcalc; lia.
    - unfold add_calendar_days, date_add_days in Hcalc.
      destruct ((MINORDINAL <=? toordinal filed + 30)
                && (toordinal filed + 30 <=? MAXORDINAL)); inversion Hcalc.
      cbn [toordinal]. lia.
    - apply add_business_days_at_least in Hcalc; lia.
    - apply add_business_days_at_least in Hcalc; lia.
    - unfold add_business_days in Hcalc.
      destruct (add_business_days_loop_sound _ _ _ _ _ _ Hcalc)
        as (m & _ & Ho & _ & _ & _ & Hc); [lia|].
      destruct (le_lt_dec m 10) as [Hle|Hgt]; [|lia].
      pose proof (ten_days_hold_fewer (Some _is_us_federal_holiday)
                    (toordinal filed) m Hle). lia. }
  split; [exact Hfar|].
  assert (Hdays : days_until_deadline req filed
                  = Some (toordinal deadline0 - toordinal filed)).
  { unfold days_until_deadline. rewrite or_date_effective, Heff. reflexivity. }
  split; [exact Hdays|]. split.
  - pose proof (check_request_cases filed req) as C. rewrite Heff in C.
    cbv zeta in C.
    assert (E : (toordinal deadline0 - toordinal filed <=? 10) = false)
      by (apply Z.leb_gt; lia).
    rewrite E in C. exact C.
  - rewrite is_overdue_unfold, Heff.
    destruct (status_in (status req) terminal_statuses); [reflexivity|].
    apply Z.ltb_ge. lia.
Qed.

Lemma fresh_deadline_raises_no_alert_witness :
  10 < toordinal d_2025_03_10 - toordinal d_2025_02_07 /\
  days_until_deadline sample_request d_2025_02_07
  = Some (toordinal d_2025_03_10 - toordinal d_2025_02_07) /\
  _check_request d_2025_02_07 sample_request = None /\
  is_overdue sample_request d_2025_02_07 = false.
Proof.
  apply (fresh_deadline_raises_no_alert "US-Federal" d_2025_02_07 d_2025_03_10 40
           sample_request); reflexivity.
Defined.

(* ------------------------------------------------------------------ *)
(** * The appeal generator *)
(* ------------------------------------------------------------------ *)

(** X24. The appeal letter speaks of a constructive denial, in its subject
    ([_determination_type]) and in its account of the facts
    ([_build_denial_details]), for the same requests: those that are overdue
    and have had no partial response. Its default grounds
    ([_default_grounds]) do so for an overdue request with no exemption on
    record. A request in a terminal status never gets any of these texts. *)
Theorem constructive_denial_texts (req : FOIARequest) (today : date) :
  (_determination_type req today
   = "constructive denial (failure to respond within statutory deadline)"
   <-> status req <> PARTIAL_RESPONSE /\ is_overdue req today = true) /\
  (_build_denial_details req today
   = "The agency has failed to respond within the statutory time limit, which constitutes a constructive denial."
   <-> status req <> PARTIAL_RESPONSE /\ is_overdue req today = true) /\
  (_default_grounds req today
   = "The agency failed to respond within the statutory deadline. This failure constitutes a constructive denial and entitles the requester to appeal."
   <-> truthy (exemptions_cited req) = false /\ is_overdue req today = true) /\
  (In (status req) terminal_statuses ->
   _determination_type req today
   <> "constructive denial (failure to respond within statutory deadline)" /\
   _build_denial_details req today
   <> "The agency has failed to respond within the statutory time limit, which constitutes a constructive denial." /\
   _default_grounds req today
   <> "The agency failed to respond within the statutory deadline. This failure constitutes a constructive denial and entitles the requester to appeal.").
Proof.
  assert (Hterm : In (status req) terminal_statuses -> is_overdue req today = false).
  { intros H. rewrite is_overdue_unfold. apply status_in_In in H. rewrite H.
    reflexivity. }
  assert (Hden : status req = DENIED -> is_overdue req today = false).
  { intros H. apply Hterm. rewrite H. simpl. auto. }
  assert (H1 : _determination_type req today
               = "constructive denial (failure to respond within statutory deadline)"
               <-> status req <> PARTIAL_RESPONSE /\ is_overdue req today = true).
  { unfold _determination_type. unfold status_eqb.
    destruct (RequestStatus_eq_dec (status req) DENIED) as [E|E].
    - specialize (Hden E). rewrite Hden. split; [discriminate | intros [_ H]; discriminate H].
    - destruct (RequestStatus_eq_dec (status req) PARTIAL_RESPONSE) as [E'|E'].
      + split; [discriminate | intros [H _]; contradiction].
      + destruct (is_overdue req today); split; try discriminate; auto.
        intros [_ H]. discriminate H. }
  assert (H2 : _build_denial_details req today
               = "The agency has failed to respond within the statutory time limit, which constitutes a constructive denial."
               <-> status req <> PARTIAL_RESPONSE /\ is_overdue req today = true).
  { unfold _build_denial_details. unfold status_eqb.
    destruct (RequestStatus_eq_dec (status req) DENIED) as [E|E].
    - specialize (Hden E). rewrite Hden.
      destruct (truthy (exemptions_cited req)); cbn [andb].
      + split; [cbn; discriminate | intros [_ H]; discriminate H].
      + destruct (RequestStatus_eq_dec (status req) PARTIAL_RESPONSE) as [E'|E'];
          [congruence|].
        split; [discriminate | intros [_ H]; discriminate H].
    - cbn [andb].
      destruct (RequestStatus_eq_dec (status req) PARTIAL_RESPONSE) as [E'|E'].
      + split; [cbn; discriminate | intros [H _]; contradiction].
      + destruct (is_overdue req today); split; try discriminate; auto.
        intros [_ H]. discriminate H. }
  assert (H3 : _default_grounds req today
               = "The agency failed to respond within the statutory deadline. This failure constitutes a constructive denial and entitles the requester to appeal."
               <-> truthy (exemptions_cited req) = false /\ is_overdue req today = true).
  { unfold _default_grounds.
    destruct (truthy (exemptions_cited req)).
    - split; [cbn; discriminate | intros [H _]; discriminate H].
    - destruct (is_overdue req today); split; try discriminate; auto.
      intros [_ H]. discriminate H. }
  split; [exact H1|]. split; [exact H2|]. split; [exact H3|].
  intros Ht. specialize (Hterm Ht). split; [|split].
  - intros H. apply H1 in H. destruct H as [_ H]. congruence.
  - intros H. apply H2 in H. destruct H as [_ H]. congruence.
  - intros H. apply H3 in H. destruct H as [_ H]. congruence.
Qed.

Lemma constructive_denial_texts_witness :
  _determination_type sample_request d_2025_03_24
  = "constructive denial (failure to respond within statutory deadline)" /\
  _determination_type (set_status COMPLETE sample_request) d_2025_03_24
  <> "constructive denial (failure to respond within statutory deadline)".
Proof.
  split.
  - destruct (constructive_denial_texts sample_request d_2025_03_24) as (H & _).
    apply H. split; [discriminate | reflexivity].
  - destruct (constructive_denial_texts (set_status COMPLETE sample_request)
                d_2025_03_24) as (_ & _ & _ & H).
    apply H. simpl. auto.
Defined.

(* ------------------------------------------------------------------ *)
(** * The response parser: determination, fee waiver, exemptions outside the US *)
(* ------------------------------------------------------------------ *)

Section LowerFacts.

Lemma lower_char_idem (c : ascii) : lower_char (lower_char c) = lower_char c.
Proof. destruct c as [[] [] [] [] [] [] [] []]; reflexivity. Qed.

Lemma lower_idem (s : string) : lower (lower s) = lower s.
Proof.
  induction s as [|c s IH]; cbn [lower]; [reflexivity|].
  rewrite lower_char_idem, IH. reflexivity.
Qed.

Lemma lower_app (s t : string) : lower (s ++ t) = lower s ++ lower t.
Proof.
  induction s as [|c s IH]; cbn [lower String.append]; [reflexivity|].
  rewrite IH. reflexivity.
Qed.

Lemma any_in_app (phrases : list string) (p s q : string) :
  any_in phrases s = true -> any_in phrases (p ++ s ++ q) = true.
Proof.
  unfold any_in. rewrite !existsb_exists. intros (k & Hk & H).
  exists k. split; [exact Hk|]. apply str_in_app_left, str_in_app_right, H.
Qed.

End LowerFacts.

(** X25. [_detect_determination] looks at the letters only, not at their case;
    it answers with one of five determinations; and text put before or after a
    letter can only move the answer up in the order full grant, partial grant,
    denial, no records, unknown. *)
Theorem detect_determination_priority (text before after : string) :
  _detect_determination (lower text) = _detect_determination text /\
  In (_detect_determination text)
     ["full_grant"; "partial_grant"; "denial"; "no_records"; "unknown"] /\
  determination_rank (_detect_determination text)
  <= determination_rank (_detect_determination (before ++ text ++ after)).
Proof.
  split; [|split].
  - unfold _detect_determination. rewrite lower_idem. reflexivity.
  - unfold _detect_determination. cbv zeta.
    repeat match goal with |- context [if ?c then _ else _] => destruct c end;
      simpl; auto 6.
  - unfold _detect_determination. cbv zeta. rewrite !lower_app.
    set (l := lower text). set (b := lower before). set (a := lower after).
    repeat match goal with
           | |- context [any_in ?ph l] =>
               let E := fresh "E" in
               destruct (any_in ph l) eqn:E;
               [rewrite (any_in_app ph b l a E)|]
           end;
      repeat match goal with
             | |- context [if ?c then _ else _] => destruct c
             end;
      vm_compute; discriminate.
Qed.

Section SubstringFacts.

Lemma prefix_split (k s : string) :
  String.prefix k s = true -> exists q, s = k ++ q.
Proof.
  revert s. induction k as [|c k IH]; intros s H.
  - exists s. reflexivity.
  - destruct s as [|x s]; cbn [String.prefix] in H; [discriminate|].
    destruct (ascii_dec c x) as [->|]; [|discriminate].
    destruct (IH s H) as (q & ->). exists q. reflexivity.
Qed.

Lemma str_in_split (k s : string) :
  str_in k s = true -> exists p q, s = p ++ k ++ q.
Proof.
  induction s as [|c s IH]; intros H; rewrite str_in_unfold in H;
    apply Bool.orb_true_iff in H; destruct H as [H|H].
  - apply prefix_split in H. destruct H as (q & H). exists "", q. exact H.
  - discriminate.
  - apply prefix_split in H. destruct H as (q & H). exists "", q. exact H.
  - destruct (IH H) as (p & q & ->). exists (String c p), q. reflexivity.
Qed.

Lemma append_assoc (a b c : string) : (a ++ b) ++ c = a ++ (b ++ c).
Proof. induction a as [|x a IH]; cbn [String.append]; congruence. Qed.

(** A string that holds [a ++ b] holds [b]. *)
Lemma str_in_suffix_part (a b s : string) :
  str_in (a ++ b) s = true -> str_in b s = true.
Proof.
  intros H. apply str_in_split in H. destruct H as (p & q & ->).
  rewrite append_assoc.
  apply str_in_app_left, str_in_app_left, str_in_app_right, str_in_self.
Qed.

End SubstringFacts.

(** X26. [_detect_fee_waiver] answers [False] only for a text that speaks of a
    fee waiver, has none of "granted", "approved", "waived" and has "denied"
    or "rejected"; a letter saying that the fee waiver was "not granted" is
    read as a grant, because it holds the word "granted". Without the words
    "fee waiver" the answer is [None]. *)
Theorem detect_fee_waiver_cases (text : string) :
  (_detect_fee_waiver text = Some false <->
   str_in "fee waiver" (lower text) = true /\
   any_in ["granted"; "approved"; "waived"] (lower text) = false /\
   any_in ["denied"; "rejected"] (lower text) = true) /\
  (str_in "fee waiver" (lower text) = true ->
   str_in "not granted" (lower text) = true ->
   _detect_fee_waiver text = Some true) /\
  (str_in "fee waiver" (lower text) = false -> _detect_fee_waiver text = None) /\
  _detect_fee_waiver (lower text) = _detect_fee_waiver text.
Proof.
  unfold _detect_fee_waiver. cbv zeta. rewrite lower_idem.
  set (l := lower text).
  assert (Hng : str_in "not granted" l = true -> str_in "granted" l = true).
  { apply (str_in_suffix_part "not " "granted"). }
  unfold any_in. cbn [existsb].
  destruct (str_in "fee waiver" l), (str_in "granted" l) eqn:Eg,
           (str_in "approved" l), (str_in "waived" l), (str_in "denied" l),
           (str_in "rejected" l), (str_in "not granted" l) eqn:En;
    cbn; try (specialize (Hng eq_refl); discriminate Hng);
    repeat split; intros; try reflexivity; try discriminate;
    repeat match goal with H : _ /\ _ |- _ => destruct H end;
    try discriminate.
Qed.

Lemma detect_fee_waiver_cases_witness :
  _detect_fee_waiver "Your request for a fee waiver was not granted." = Some true.
Proof.
  destruct (detect_fee_waiver_cases "Your request for a fee waiver was not granted.")
    as (_ & H & _).
  apply H; reflexivity.
Defined.

Section OrderOfStrings.

Lemma compare_app (p a b : string) :
  String.compare (p ++ a) (p ++ b) = String.compare a b.
Proof.
  induction p as [|c p IH]; cbn [String.append String.compare]; [reflexivity|].
  assert (E : Ascii.compare c c = Eq) by (unfold Ascii.compare; apply N.compare_refl).
  rewrite E. exact IH.
Qed.

Lemma ltb_app (p a b : string) : (p ++ a <? p ++ b)%string = (a <? b)%string.
Proof. unfold String.ltb. rewrite compare_app. reflexivity. Qed.

Lemma append_inj (p a b : string) : p ++ a = p ++ b -> a = b.
Proof.
  induction p as [|c p IH]; cbn [String.append]; intros H; [exact H|].
  inversion H. auto.
Qed.

Lemma strictly_ascending_map (f : string -> string) (l : list string) :
  (forall a b, In a l -> In b l -> (a <? b)%string = true -> (f a <? f b)%string = true) ->
  strictly_ascending l -> strictly_ascending (map f l).
Proof.
  unfold strictly_ascending. induction l as [|x l IH]; intros Hf H; [constructor|].
  inversion H as [|? ? Hs Hd]; subst. cbn [map]. constructor.
  - apply IH; [|exact Hs]. intros a b Ha Hb. apply Hf; right; assumption.
  - destruct l as [|y l]; cbn [map]; constructor.
    inversion Hd; subst. apply Hf; [left; reflexivity | right; left; reflexivity |].
    assumption.
Qed.

Lemma NoDup_map_In {A B : Type} (f : A -> B) (l : list A) :
  (forall a b, In a l -> In b l -> f a = f b -> a = b) ->
  NoDup l -> NoDup (map f l).
Proof.
  induction l as [|x l IH]; intros Hf H; cbn [map]; [constructor|].
  inversion H as [|? ? Hx Hn]; subst. constructor.
  - intros Hin. apply in_map_iff in Hin. destruct Hin as (y & Hy & Hin).
    apply Hx. rewrite (Hf x y); auto using in_eq, in_cons.
  - apply IH; [|exact Hn]. intros a b Ha Hb. apply Hf; right; assumption.
Qed.

End OrderOfStrings.

Section FindallFacts.

(** Every item [re.findall] returns is what the pattern matched somewhere. *)
Lemma findall_from_In (m : string -> option (string * nat)) (g : string) :
  forall s skip, In g (findall_from m s skip) ->
                 exists s' len, m s' = Some (g, len).
Proof.
  induction s as [|c s IH]; intros skip H; cbn [findall_from] in H; [contradiction|].
  destruct skip as [|k]; [|exact (IH _ H)].
  destruct (m (String c s)) as [[g' len]|] eqn:E; [|exact (IH _ H)].
  destruct H as [<-|H]; [exists (String c s), len; exact E | exact (IH _ H)].
Qed.

Lemma match_uk_section_digits (s g : string) (len : nat) :
  match_uk_section s = Some (g, len) ->
  exists d1, is_digit d1 = true /\
             (g = String d1 "" \/ exists d2, is_digit d2 = true /\ g = String d1 (String d2 "")).
Proof.
  unfold match_uk_section. intros H.
  destruct (lit_section s) as [r|]; [|discriminate].
  destruct (spaces1 r) as [[n [|d1 r1]]|]; try discriminate.
  destruct (is_digit d1) eqn:E1; [|discriminate].
  exists d1. split; [exact E1|].
  destruct r1 as [|d2 r2].
  - inversion H. left. reflexivity.
  - destruct (is_digit d2) eqn:E2; inversion H; [right; exists d2; auto | left; reflexivity].
Qed.

Lemma match_india_section_letter (s g : string) (len : nat) :
  match_india_section s = Some (g, len) ->
  exists l, in_range false "a" "j" l = true /\ g = String l "".
Proof.
  unfold match_india_section. intros H.
  destruct (lit_section s) as [r|]; [|discriminate].
  destruct (spaces1 r) as [[n r1]|]; [|discriminate].
  destruct (lit false "8(1)(" r1) as [[|l [|c r2]]|]; try discriminate.
  destruct c as [[] [] [] [] [] [] [] []]; try discriminate.
  destruct (in_range false "a" "j" l) eqn:E; [|discriminate].
  inversion H. exists l. auto.
Qed.

End FindallFacts.

(** X27. [_extract_exemptions] outside the US. For "UK" the list holds
    "Section N" for each distinct one- or two-digit number N cited, for
    "India" it holds "Section 8(1)(x)" for each distinct clause letter x from
    a to j cited; both lists are duplicate-free and in ascending order of the
    strings (so "Section 40" stands before "Section 5"). For a jurisdiction
    that is neither US, UK nor India the list is empty. *)
Theorem extract_exemptions_uk_india (text : string) :
  (strictly_ascending (_extract_exemptions text "UK") /\
   NoDup (_extract_exemptions text "UK") /\
   (forall e, In e (_extract_exemptions text "UK") <->
              exists m, e = "Section " ++ m /\ In m (findall match_uk_section text)) /\
   (forall m, In m (findall match_uk_section text) ->
              exists d1, is_digit d1 = true /\
                (m = String d1 "" \/
                 exists d2, is_digit d2 = true /\ m = String d1 (String d2 "")))) /\
  (strictly_ascending (_extract_exemptions text "India") /\
   NoDup (_extract_exemptions text "India") /\
   (forall e, In e (_extract_exemptions text "India") <->
              exists l, e = "Section 8(1)(" ++ String l ")" /\
                        In (String l "") (findall match_india_section text)) /\
   (forall m, In m (findall match_india_section text) ->
              exists l, in_range false "a" "j" l = true /\ m = String l "")) /\
  (forall jurisdiction,
     is_us_jurisdiction jurisdiction = false ->
     jurisdiction <> "UK" -> jurisdiction <> "India" ->
     _extract_exemptions text jurisdiction = []).
Proof.
  split; [|split].
  - change (_extract_exemptions text "UK")
      with (map (fun m => "Section " ++ m) (sorted (set_of (findall match_uk_section text)))).
    destruct (sorted_set_of (findall match_uk_section text)) as (Hs & Hn & Hin).
    split; [|split; [|split]].
    + apply strictly_ascending_map; [|exact Hs].
      intros a b _ _ H. rewrite ltb_app. exact H.
    + apply NoDup_map_In; [|exact Hn]. intros a b _ _. apply append_inj.
    + intros e. rewrite in_map_iff. split.
      * intros (m & <- & Hm). exists m. split; [reflexivity | apply Hin; exact Hm].
      * intros (m & -> & Hm). exists m. split; [reflexivity | apply Hin; exact Hm].
    + intros m Hm. apply findall_from_In in Hm. destruct Hm as (s' & len & Hm).
      eapply match_uk_section_digits. exact Hm.
  - change (_extract_exemptions text "India")
      with (map (fun m => "Section 8(1)(" ++ m ++ ")")
                (sorted (set_of (findall match_india_section text)))).
    destruct (sorted_set_of (findall match_india_section text)) as (Hs & Hn & Hin).
    assert (Hl : forall m, In m (findall match_india_section text) ->
                           exists l, in_range false "a" "j" l = true /\ m = String l "").
    { intros m Hm. apply findall_from_In in Hm. destruct Hm as (s' & len & Hm).
      eapply match_india_section_letter. exact Hm. }
    split; [|split; [|split]].
    + apply strictly_ascending_map; [|exact Hs].
      intros a b Ha Hb H. apply Hin, Hl in Ha. apply Hin, Hl in Hb.
      destruct Ha as (x & _ & ->), Hb as (y & _ & ->).
      rewrite ltb_app. unfold String.ltb in *. cbn [String.append String.compare] in *.
      destruct (Ascii.compare x y); try discriminate H; reflexivity.
    + apply NoDup_map_In; [|exact Hn]. intros a b Ha Hb H.
      apply Hin, Hl in Ha. apply Hin, Hl in Hb.
      destruct Ha as (x & _ & ->), Hb as (y & _ & ->).
      apply append_inj in H. inversion H. reflexivity.
    + intros e. rewrite in_map_iff. split.
      * intros (m & <- & Hm). apply Hin in Hm. destruct (Hl m Hm) as (l & _ & ->).
        exists l. split; [reflexivity | exact Hm].
      * intros (l & -> & Hm). exists (String l ""). split; [reflexivity|].
        apply Hin. exact Hm.
    + exact Hl.
  - intros j Hus Huk Hin. unfold _extract_exemptions. rewrite Hus.
    apply String.eqb_neq in Huk. apply String.eqb_neq in Hin.
    rewrite Huk, Hin. reflexivity.
Qed.

Lemma extract_exemptions_uk_india_witness :
  _extract_exemptions "Section 40 and section 5 apply" "EU" = [] /\
  In "Section 5" (_extract_exemptions "Section 40 and section 5 apply" "UK").
Proof.
  destruct (extract_exemptions_uk_india "Section 40 and section 5 apply")
    as ((_ & _ & H & _) & _ & H3).
  split.
  - apply H3; [reflexivity | discriminate | discriminate].
  - apply H. exists "5". split; [reflexivity|]. vm_compute. auto.
Defined.

(* ------------------------------------------------------------------ *)
(** * The redaction detector: the report of analyze *)
(* ------------------------------------------------------------------ *)

Section RuleFacts.

Local Open Scope Q_scope.

Variable P : RedactionFlag -> Prop.

Lemma new_report_consistent : report_consistent new_report.
Proof. split; reflexivity. Qed.

Lemma detection_rule_id : detection_rule P (fun r => r).
Proof. split; [apply adds_flags_id | auto]. Qed.

Lemma detection_rule_add_flag (f : RedactionFlag) :
  P f -> detection_rule P (fun r => add_flag r f).
Proof.
  intros Hf. split; [apply adds_flags_add_flag|]. split.
  - intros r _. rewrite add_flag_unfold. split; reflexivity.
  - intros r Hall. rewrite add_flag_flags. apply Forall_app.
    split; [exact Hall | constructor; [exact Hf | constructor]].
Qed.

Lemma detection_rule_compose (g h : RedactionReport -> RedactionReport) :
  detection_rule P g -> detection_rule P h -> detection_rule P (fun r => h (g r)).
Proof.
  intros (G1 & G2 & G3) (H1 & H2 & H3).
  split; [apply adds_flags_compose; assumption|]. split.
  - intros r Hr. apply H2, G2, Hr.
  - intros r Hr. apply H3, G3, Hr.
Qed.

Lemma detection_rule_if (b : bool) (g h : RedactionReport -> RedactionReport) :
  detection_rule P g -> detection_rule P h ->
  detection_rule P (fun r => if b then g r else h r).
Proof. destruct b; auto. Qed.

Lemma detection_rule_fold {A : Type} (step : RedactionReport -> A -> RedactionReport)
    (l : list A) :
  (forall x, detection_rule P (fun r => step r x)) ->
  detection_rule P (fun r => fold_left step l r).
Proof.
  intros Hstep. induction l as [|x l IH]; cbn [fold_left].
  - apply detection_rule_id.
  - apply (detection_rule_compose (fun r => step r x) (fun r => fold_left step l r));
      auto.
Qed.

Ltac rule_cases :=
  repeat first
    [ apply detection_rule_id
    | apply detection_rule_add_flag; assumption
    | apply detection_rule_if ].

Ltac compose_rule lem :=
  match goal with
  | |- detection_rule P (fun r => ?f (@?g r)) =>
      apply (detection_rule_compose g f); [|apply lem]
  end.

Lemma add_optional_flag_rule (o : option RedactionFlag) :
  page_ratio_choice o ->
  P (mkFlag "high" Excessive_Withholding None) ->
  P (mkFlag "medium" High_Withholding_Rate None) ->
  detection_rule P (add_optional_flag o).
Proof.
  intros [->|[->| ->]] H1 H2; unfold add_optional_flag; rule_cases.
Qed.

Lemma exemption_patterns_us_rule (parsed : ParsedResponse) :
  P (mkFlag "medium" Multiple_Exemptions None) ->
  detection_rule P (_check_exemption_patterns_us parsed).
Proof. intros H. unfold _check_exemption_patterns_us. rule_cases. Qed.

Lemma blanket_denial_rule (parsed : ParsedResponse) :
  P (mkFlag "high" Blanket_Denial None) ->
  detection_rule P (_check_blanket_denial parsed).
Proof. intros H. unfold _check_blanket_denial. rule_cases. Qed.

Lemma segregability_rule (parsed : ParsedResponse) :
  P (mkFlag "medium" No_Partial_Releases None) ->
  detection_rule P (_check_segregability parsed).
Proof. intros H. unfold _check_segregability. rule_cases. Qed.

Lemma b4_overuse_rule (parsed : ParsedResponse) :
  P (mkFlag "low" Exemption_4_Trade_Secrets (Some "(b)(4)"%string)) ->
  detection_rule P (_check_b4_overuse parsed).
Proof.
  intros H. unfold _check_b4_overuse. cbv zeta. destruct (filter _ _); rule_cases.
Qed.

Lemma b5_overuse_rule (parsed : ParsedResponse) :
  P (mkFlag "medium" Exemption_5_Deliberative (Some "(b)(5)"%string)) ->
  detection_rule P (_check_b5_overuse parsed).
Proof.
  intros H. unfold _check_b5_overuse. cbv zeta. destruct (filter _ _); rule_cases.
Qed.

Lemma b7_misapplication_rule (parsed : ParsedResponse) :
  P (mkFlag "medium" Exemption_7_Law_Enforcement (Some "(b)(7)"%string)) ->
  detection_rule P (_check_b7_misapplication parsed).
Proof.
  intros H. unfold _check_b7_misapplication. cbv zeta.
  destruct (filter _ _); rule_cases.
Qed.

Lemma no_vaughn_index_rule (parsed : ParsedResponse) :
  P (mkFlag "low" No_Vaughn_Index None) ->
  detection_rule P (_check_no_vaughn_index parsed).
Proof. intros H. unfold _check_no_vaughn_index. rule_cases. Qed.

Lemma uk_patterns_rule (parsed : ParsedResponse) :
  (forall e, P (mkFlag "medium" Section_43_Commercial (Some e))) ->
  (forall e, P (mkFlag "medium" Policy_Formulation_Exemption (Some e))) ->
  detection_rule P (_check_uk_patterns parsed).
Proof.
  intros H1 H2. unfold _check_uk_patterns. apply detection_rule_fold. intros e.
  specialize (H1 e). specialize (H2 e).
  apply (detection_rule_compose
           (fun r => if str_in "43" e
                     then add_flag r (mkFlag "medium" Section_43_Commercial (Some e))
                     else r)
           (fun r => if str_in "35" e || str_in "36" e
                     then add_flag r (mkFlag "medium" Policy_Formulation_Exemption (Some e))
                     else r));
    rule_cases.
Qed.

Lemma india_patterns_rule (parsed : ParsedResponse) :
  (forall e, P (mkFlag "medium" Section_8_1_d_Commercial (Some e))) ->
  (forall e, P (mkFlag "low" Section_8_1_j_Personal (Some e))) ->
  detection_rule P (_check_india_patterns parsed).
Proof.
  intros H1 H2. unfold _check_india_patterns. apply detection_rule_fold. intros e.
  specialize (H1 e). specialize (H2 e).
  apply (detection_rule_compose
           (fun r => if str_in "8(1)(d)" e
                     then add_flag r (mkFlag "medium" Section_8_1_d_Commercial (Some e))
                     else r)
           (fun r => if str_in "8(1)(j)" e
                     then add_flag r (mkFlag "low" Section_8_1_j_Personal (Some e))
                     else r));
    rule_cases.
Qed.

End RuleFacts.

Section AnalyzeFacts.

Local Open Scope Q_scope.

Ltac compose_with lem :=
  match goal with
  | |- detection_rule ?P (fun r => ?f (@?g r)) =>
      apply (detection_rule_compose P g f); [|apply lem]
  end.

Lemma rules_of_rule (parsed : ParsedResponse) (jurisdiction : string)
    (o : option RedactionFlag) :
  page_ratio_choice o ->
  detection_rule
    (fun f => known_severity f /\ In (category f) (categories_of jurisdiction))
    (rules_of parsed jurisdiction o).
Proof.
  intros Ho. unfold rules_of, categories_of, known_severity.
  destruct (is_us_jurisdiction jurisdiction).
  { compose_with no_vaughn_index_rule; [|cbn; auto 12].
    compose_with b7_misapplication_rule; [|cbn; auto 12].
    compose_with b5_overuse_rule; [|cbn; auto 12].
    compose_with b4_overuse_rule; [|cbn; auto 12].
    compose_with segregability_rule; [|cbn; auto 12].
    compose_with blanket_denial_rule; [|cbn; auto 12].
    compose_with exemption_patterns_us_rule; [|cbn; auto 12].
    apply add_optional_flag_rule; [exact Ho | cbn; auto 12 | cbn; auto 12]. }
  destruct (jurisdiction =? "UK")%string.
  { compose_with uk_patterns_rule; try (intros e; cbn; auto 12).
    apply add_optional_flag_rule; [exact Ho | cbn; auto 12 | cbn; auto 12]. }
  destruct (jurisdiction =? "India")%string.
  { compose_with india_patterns_rule; try (intros e; cbn; auto 12).
    apply add_optional_flag_rule; [exact Ho | cbn; auto 12 | cbn; auto 12]. }
  apply detection_rule_id.
Qed.

(** [analyze] returns when the page counts are not negative and can be
    written. *)
Lemma analyze_returns (parsed : ParsedResponse) (jurisdiction : string) :
  (0 <= pages_released parsed)%Z -> (0 <= pages_withheld_full parsed)%Z ->
  (pages_released parsed + pages_withheld_full parsed
   < 10 ^ INT_MAX_STR_DIGITS)%Z ->
  exists report, analyze parsed jurisdiction = Ok report.
Proof.
  intros Hr Hw Hbig. rewrite analyze_rules_of.
  destruct (runs_page_ratio jurisdiction); [|eexists; reflexivity].
  destruct (page_ratio_flag_returns parsed Hr Hw Hbig) as (o & Ho).
  rewrite Ho. eexists. reflexivity.
Qed.

(** With nothing released the ratio is 1.0 and the rule writes the number
    of pages withheld. *)
Lemma analyze_returns_nothing_released (parsed : ParsedResponse)
    (jurisdiction : string) :
  pages_released parsed = 0%Z ->
  (Z.abs (pages_withheld_full parsed) < 10 ^ INT_MAX_STR_DIGITS)%Z ->
  exists report, analyze parsed jurisdiction = Ok report.
Proof.
  intros Hr Hbig. rewrite analyze_rules_of.
  destruct (runs_page_ratio jurisdiction); [|eexists; reflexivity].
  unfold page_ratio_flag. rewrite Hr. cbn [Z.add]. cbv zeta.
  destruct (pages_withheld_full parsed =? 0)%Z eqn:E0; [eexists; reflexivity|].
  apply Z.eqb_neq in E0. rewrite (int_truediv_self _ E0).
  rewrite !format_int_small by exact Hbig. cbv [bind Ok].
  destruct (Qgtb _ (double 8 10)); [eexists; reflexivity|].
  destruct (Qgtb _ (double 5 10)); eexists; reflexivity.
Qed.

Lemma total_weight_app (fs gs : list RedactionFlag) :
  total_weight (List.app fs gs) == total_weight fs + total_weight gs.
Proof.
  induction gs as [|g gs IH] using rev_ind.
  - rewrite app_nil_r. unfold total_weight at 3. cbn [fold_left].
    rewrite Qplus_0_r. reflexivity.
  - rewrite app_assoc, !total_weight_snoc, IH. ring.
Qed.

Lemma total_weight_member (f : RedactionFlag) (fs : list RedactionFlag) :
  In f fs -> weight (flag_severity f) <= total_weight fs.
Proof.
  intros H. apply in_split in H. destruct H as (l1 & l2 & ->).
  rewrite total_weight_app.
  change (f :: l2) with (List.app [f] l2). rewrite total_weight_app.
  pose proof (total_weight_nonneg l1). pose proof (total_weight_nonneg l2).
  unfold total_weight at 2. cbn [fold_left]. rewrite Qplus_0_l.
  rewrite <- (Qplus_0_l (weight (flag_severity f))) at 1.
  apply Qplus_le_compat; [assumption|].
  rewrite <- (Qplus_0_r (weight (flag_severity f))) at 1.
  apply Qplus_le_compat; [apply Qle_refl | assumption].
Qed.

Lemma count_severities (fs : list RedactionFlag) :
  Forall known_severity fs ->
  (count_severity "high" fs + count_severity "medium" fs + count_severity "low" fs
   = Z.of_nat (List.length fs))%Z.
Proof.
  unfold count_severity, known_severity.
  induction 1 as [|f fs Hf _ IH]; [reflexivity|].
  cbn [filter List.length].
  destruct Hf as [E|[E|[E|[]]]]; rewrite <- E;
    repeat match goal with
           | |- context [String.eqb ?a ?b] =>
               let v := eval vm_compute in (String.eqb a b) in
               change (String.eqb a b) with v
           end;
    cbv iota; cbn [List.length]; lia.
Qed.

End AnalyzeFacts.

(** X28. [analyze] returns a report when the page counts are not negative
    and can be written, and every report it returns is consistent: its risk
    score is the capped sum of the weights of its flags and lies in [0, 1],
    an appeal is recommended exactly from a score of 0.3 on, every flag is
    of high, medium or low severity (so the three counts of the summary add
    up to the number of flags), and the summary is the one generated from
    the report; a report without flags has score 0, no recommendation and
    the "No suspicious patterns" summary. *)
Theorem analyze_report_invariant (parsed : ParsedResponse) (jurisdiction : string) :
  (0 <= pages_released parsed -> 0 <= pages_withheld_full parsed ->
   pages_released parsed + pages_withheld_full parsed < 10 ^ INT_MAX_STR_DIGITS ->
   exists report, analyze parsed jurisdiction = Ok report) /\
  (forall report, analyze parsed jurisdiction = Ok report ->
     risk_score report = Qmin 1 (total_weight (flags report)) /\
     (0 <= risk_score report)%Q /\ (risk_score report <= 1)%Q /\
     (appeal_recommended report = true <-> (3 # 10 <= risk_score report)%Q) /\
     (forall f, In f (flags report) ->
                In (flag_severity f) ["high"; "medium"; "low"]) /\
     count_severity "high" (flags report) + count_severity "medium" (flags report)
     + count_severity "low" (flags report) = Z.of_nat (List.length (flags report)) /\
     summary report = _generate_summary report /\
     (flags report = [] ->
      risk_score report = 0%Q /\ appeal_recommended report = false /\
      summary report = "No suspicious patterns detected in the agency response.")).
Proof.
  split; [apply analyze_returns|].
  intros report Ha. destruct (analyze_Ok _ _ _ Ha) as (o & Ho & ->).
  cbn [flags risk_score appeal_recommended summary].
  destruct (rules_of_rule parsed jurisdiction o Ho) as (_ & Hc & Hp).
  destruct (Hc new_report new_report_consistent) as [Hscore Happeal].
  specialize (Hp new_report (Forall_nil _)).
  set (r := rules_of parsed jurisdiction o new_report) in *.
  assert (Hsev : Forall known_severity (flags r)).
  { revert Hp. apply Forall_impl. intros f [H _]. exact H. }
  split; [exact Hscore|].
  split; [rewrite Hscore; apply capped_score_bounds, total_weight_nonneg|].
  split; [rewrite Hscore; apply capped_score_bounds, total_weight_nonneg|].
  split; [rewrite Happeal; unfold Qgeb; apply Qle_bool_iff|].
  split; [rewrite Forall_forall in Hsev; exact Hsev|].
  split; [apply count_severities; exact Hsev|].
  split; [reflexivity|].
  intros E. rewrite Happeal, Hscore, E. unfold _generate_summary. rewrite E.
  repeat split.
Qed.

(** X29. In a report of [analyze], a high-severity flag is enough for the
    recommendation to appeal, and the score is then at least 0.4. A US
    response that is a denial with no page released gets the "Blanket
    Denial" flag and with it the recommendation to appeal in every report
    [analyze] returns, and it returns one whenever the number of pages
    withheld can be written. *)
Theorem high_flag_recommends_appeal (parsed : ParsedResponse) (jurisdiction : string) :
  (forall report, analyze parsed jurisdiction = Ok report ->
   forall f, In f (flags report) ->
             flag_severity f = "high" ->
             appeal_recommended report = true /\
             (4 # 10 <= risk_score report)%Q) /\
  (is_us_jurisdiction jurisdiction = true ->
   determination parsed = "denial" -> pages_released parsed = 0 ->
   (forall report, analyze parsed jurisdiction = Ok report ->
      In (mkFlag "high" Blanket_Denial None) (flags report) /\
      appeal_recommended report = true) /\
   (Z.abs (pages_withheld_full parsed) < 10 ^ INT_MAX_STR_DIGITS ->
    exists report, analyze parsed jurisdiction = Ok report)).
Proof.
  assert (Hhigh : forall o, page_ratio_choice o ->
            forall f, In f (flags (rules_of parsed jurisdiction o new_report)) ->
                      flag_severity f = "high" ->
                      appeal_recommended (rules_of parsed jurisdiction o new_report)
                      = true /\
                      (4 # 10 <= risk_score
                                   (rules_of parsed jurisdiction o new_report))%Q).
  { intros o Ho f Hf Hsev.
    destruct (rules_of_rule parsed jurisdiction o Ho) as (_ & Hc & _).
    destruct (Hc new_report new_report_consistent) as [Hscore Happeal].
    assert (Hle : (4 # 10 <= risk_score (rules_of parsed jurisdiction o new_report))%Q).
    { rewrite Hscore. apply Q.min_glb; [discriminate|].
      apply total_weight_member in Hf. rewrite Hsev in Hf. exact Hf. }
    split; [|exact Hle].
    rewrite Happeal. unfold Qgeb. apply Qle_bool_iff.
    apply Qle_trans with (4 # 10); [discriminate | exact Hle]. }
  split.
  { intros report Ha. destruct (analyze_Ok _ _ _ Ha) as (o & Ho & ->).
    cbn [flags risk_score appeal_recommended]. apply Hhigh. exact Ho. }
  intros Hus Hden Hrel. split.
  - intros report Ha. destruct (analyze_Ok _ _ _ Ha) as (o & Ho & ->).
    cbn [flags risk_score appeal_recommended].
    assert (Hin : In (mkFlag "high" Blanket_Denial None)
                     (flags (rules_of parsed jurisdiction o new_report))).
    { unfold rules_of. rewrite Hus.
      assert (Hkeep : forall rule r f, adds_flags rule -> In f (flags r) ->
                                       In f (flags (rule r))).
      { intros rule r f [H _] Hf. rewrite H. apply in_or_app. left. exact Hf. }
      apply Hkeep; [apply (no_vaughn_index_rule (fun _ => True)); exact I|].
      apply Hkeep; [apply (b7_misapplication_rule (fun _ => True)); exact I|].
      apply Hkeep; [apply (b5_overuse_rule (fun _ => True)); exact I|].
      apply Hkeep; [apply (b4_overuse_rule (fun _ => True)); exact I|].
      apply Hkeep; [apply (segregability_rule (fun _ => True)); exact I|].
      unfold _check_blanket_denial. rewrite Hden, Hrel.
      change (("denial" =? "denial")%string && (0 =? 0)) with true. cbv iota.
      rewrite add_flag_flags. apply in_or_app. right. left. reflexivity. }
    split; [exact Hin|]. apply (Hhigh o Ho _ Hin). reflexivity.
  - intros Hbig. apply analyze_returns_nothing_released; assumption.
Qed.

Lemma high_flag_recommends_appeal_witness :
  exists report,
    analyze (mkParsed "denial" "" 0 0 0 0 0 0 [] [] None None
                      "" "" "" "" "" "We must deny.") "US-State-IA" = Ok report /\
    In (mkFlag "high" Blanket_Denial None) (flags report) /\
    appeal_recommended report = true.
Proof.
  destruct (high_flag_recommends_appeal
              (mkParsed "denial" "" 0 0 0 0 0 0 [] [] None None
                        "" "" "" "" "" "We must deny.") "US-State-IA") as [_ H].
  destruct H as [Hall Hex]; [reflexivity | reflexivity | reflexivity |].
  destruct Hex as (report & Ha).
  { cbn [pages_withheld_full Z.abs]. apply Z.pow_pos_nonneg; [lia|].
    unfold INT_MAX_STR_DIGITS. lia. }
  exists report. split; [exact Ha|]. apply Hall. exact Ha.
Defined.

Section FlagLists.

Lemma flags_of_rules (g h : RedactionReport -> RedactionReport) (r : RedactionReport) :
  adds_flags h -> flags (h (g r)) = List.app (flags (g r)) (flags (h new_report)).
Proof. intros [H _]. apply H. Qed.

End FlagLists.

(** X30. Which flags a report of [analyze] can hold: only flags of the
    categories of the jurisdiction's rules; for a US jurisdiction each
    category at most once, so at most eight flags (the two withholding-rate
    flags exclude each other); and for a jurisdiction that is neither US, UK
    nor India [analyze] returns the report without flags, whatever the
    response. *)
Theorem analyze_flag_categories (parsed : ParsedResponse) (jurisdiction : string) :
  (forall report, analyze parsed jurisdiction = Ok report ->
   forall f, In f (flags report) ->
             In (category f) (categories_of jurisdiction)) /\
  (is_us_jurisdiction jurisdiction = true ->
   forall report, analyze parsed jurisdiction = Ok report ->
   NoDup (map category (flags report)) /\
   (List.length (flags report) <= 8)%nat) /\
  (is_us_jurisdiction jurisdiction = false ->
   jurisdiction <> "UK" -> jurisdiction <> "India" ->
   analyze parsed jurisdiction
   = Ok (mkReport [] 0 "No suspicious patterns detected in the agency response."
                  false)).
Proof.
  split; [|split].
  - intros report Ha. destruct (analyze_Ok _ _ _ Ha) as (o & Ho & ->).
    cbn [flags].
    destruct (rules_of_rule parsed jurisdiction o Ho) as (_ & _ & Hp).
    specialize (Hp new_report (Forall_nil _)). rewrite Forall_forall in Hp.
    intros f Hf. apply (Hp f Hf).
  - intros Hus report Ha. destruct (analyze_Ok _ _ _ Ha) as (o & Ho & ->).
    cbn [flags].
    unfold rules_of. rewrite Hus.
    rewrite (flags_of_rules _ (_check_no_vaughn_index parsed))
      by apply (no_vaughn_index_rule (fun _ => True)), I.
    rewrite (flags_of_rules _ (_check_b7_misapplication parsed))
      by apply (b7_misapplication_rule (fun _ => True)), I.
    rewrite (flags_of_rules _ (_check_b5_overuse parsed))
      by apply (b5_overuse_rule (fun _ => True)), I.
    rewrite (flags_of_rules _ (_check_b4_overuse parsed))
      by apply (b4_overuse_rule (fun _ => True)), I.
    rewrite (flags_of_rules _ (_check_segregability parsed))
      by apply (segregability_rule (fun _ => True)), I.
    rewrite (flags_of_rules _ (_check_blanket_denial parsed))
      by apply (blanket_denial_rule (fun _ => True)), I.
    rewrite (flags_of_rules _ (_check_exemption_patterns_us parsed))
      by apply (exemption_patterns_us_rule (fun _ => True)), I.
    unfold _check_no_vaughn_index, _check_b7_misapplication, _check_b5_overuse,
      _check_b4_overuse, _check_segregability, _check_blanket_denial,
      _check_exemption_patterns_us.
    cbv zeta.
    destruct Ho as [->|[->| ->]]; cbn [add_optional_flag];
    repeat match goal with
           | |- context [match filter ?p ?l with _ => _ end] =>
               destruct (filter p l)
           | |- context [if ?c then _ else _] => destruct c
           end;
      rewrite ?add_flag_flags; cbn [flags new_report app map category List.length];
      (split; [repeat (constructor; [cbn [In]; intuition discriminate|]); constructor
              | lia]).
  - intros Hus Huk Hin. unfold analyze. rewrite Hus.
    apply String.eqb_neq in Huk. apply String.eqb_neq in Hin.
    rewrite Huk, Hin. reflexivity.
Qed.

Lemma analyze_flag_categories_witness :
  analyze (mkParsed "denial" "" 0 500 0 0 0 0 ["Article 4(2)"] [] None None
                    "" "" "" "" "" "Access is refused.") "EU"
  = Ok (mkReport [] 0 "No suspicious patterns detected in the agency response."
                 false).
Proof.
  destruct (analyze_flag_categories
              (mkParsed "denial" "" 0 500 0 0 0 0 ["Article 4(2)"] [] None None
                        "" "" "" "" "" "Access is refused.") "EU") as (_ & _ & H).
  apply H; [reflexivity | discriminate | discriminate].
Defined.

(* ------------------------------------------------------------------ *)
(** * The repository's tests, replayed on the embedding *)
(* ------------------------------------------------------------------ *)

Section ReplayedTests.

Example sample_dates :
  date_of_ymd 2025 2 7 = Ok d_2025_02_07 /\
  date_of_ymd 2025 3 10 = Ok d_2025_03_10 /\
  date_of_ymd 9999 12 31 = Ok date_max /\
  isoformat d_2025_03_19 = "2025-03-19"%string.
Proof. vm_compute. auto. Qed.

(** [test_add_business_days_skips_weekend]: Friday + 1 business day = Monday *)
Example test_add_business_days_skips_weekend :
  add_business_days 10 d_2025_02_07 1 None = Some (date_of_ymd 2025 2 10) /\
  add_business_days 10 d_2025_02_07 1 None = Some (Ok (mkdate 739292)) /\
  weekday (mkdate 739292) = 0.
Proof. vm_compute. auto. Qed.

(** [test_add_calendar_days], [test_india_30_calendar_days] *)
Example test_add_calendar_days :
  date_of_ymd 2025 2 1 = Ok (mkdate 739283) /\
  add_calendar_days (mkdate 739283) 30 = date_of_ymd 2025 3 3 /\
  calculate 0 default_calculator "India" (mkdate 739283)
  = Some (date_of_ymd 2025 3 3).
Proof. vm_compute. auto. Qed.

(** [test_extension_us_federal], [test_extension_india_none] *)
Example test_extensions :
  calculate 40 default_calculator "US-Federal" d_2025_02_07 = Some (Ok d_2025_03_10) /\
  calculate_extension 20 default_calculator "US-Federal" d_2025_03_10
  = Some (Ok (Some d_2025_03_24)) /\
  calculate_extension 0 default_calculator "India" d_2025_03_10 = Some (Ok None).
Proof. vm_compute. auto. Qed.

(** [test_record_response] *)
Example test_record_response :
  exists db' res,
  record_response sample_db d_2025_03_10 1 5 100 20 "(b)(4), (b)(6)" "" None
  = Ok (db', res) /\
  res = get_request db' 1 /\
  option_map docs_received res = Some (Some 5) /\
  option_map pages_withheld res = Some (Some 20) /\
  option_map status res = Some PARTIAL_RESPONSE.
Proof. eexists. eexists. split; [reflexivity|]. vm_compute. auto. Qed.

(** [test_overdue_detection] *)
Example test_overdue_detection :
  get_overdue sample_db d_2025_03_24 = [sample_request].
Proof. vm_compute. reflexivity. Qed.

(** [test_extract_us_exemptions], [test_extract_uk_exemptions],
    [test_extract_india_exemptions] *)
Example test_extract_exemptions :
  _extract_exemptions
    "Portions withheld under (b)(4) and (b)(6). Also (b)(7)(C) applied."
    "US-Federal"
  = ["(b)(4)"; "(b)(6)"; "(b)(7)(C)"]%string /\
  _extract_exemptions
    "Information withheld under Section 43 (commercial interests) and Section 40 (personal data)."
    "UK"
  = ["Section 40"; "Section 43"]%string /\
  _extract_exemptions "Information denied under Section 8(1)(d) of the RTI Act." "India"
  = ["Section 8(1)(d)"]%string.
Proof. vm_compute. auto. Qed.

(** [test_risk_score_calculation], on the parsed form of its text. *)
Example test_risk_score_calculation :
  let text := "Denied under (b)(4), (b)(5), (b)(6), (b)(7)(C). 0 pages released. 500 pages withheld."%string in
  let parsed := mkParsed "denial" "" 0 500 0 0 0 0
                         (_extract_exemptions text "US-Federal") [] None None
                         "" "" "" "" "" text in
  exists report,
  analyze parsed "US-Federal" = Ok report /\
  exemptions parsed = ["(b)(4)"; "(b)(5)"; "(b)(6)"; "(b)(7)(C)"]%string /\
  map category (flags report)
  = [Excessive_Withholding; Multiple_Exemptions; Blanket_Denial;
     No_Partial_Releases; Exemption_4_Trade_Secrets; Exemption_5_Deliberative;
     Exemption_7_Law_Enforcement; No_Vaughn_Index] /\
  Qgtb (risk_score report) (5 # 10) = true /\
  appeal_recommended report = true.
Proof. eexists. split; [vm_compute; reflexivity|]. vm_compute. auto. Qed.

End ReplayedTests.
